(** * critique_refine: the orchestration engine, embedded and verified

    A shallow embedding of the Python sources of the critique/refine tool:

    - [utils/redact.py]      the redactor ([_redact_dict_recursive]),
    - [utils/logger.py]      the structured logger ([Logger.log_run]),
    - [core/model_router.py] the model router ([call_gemini], [call_model]),
    - [core/loop.py]         the loop controller ([CritiqueRefineLoop]),
    - [utils/config.py]      the run configuration ([prepare_run_environment],
                             [build_run_config]),
    - [utils/review_analyzer.py] the analysis of earlier logs ([ReviewAnalyzer]),
    - [server.py]            the tool of the server ([run_critique_refine_loop]).

    Python values are an inductive type of JSON-like trees, dictionaries that
    are only looked up are finite maps, effects are threaded through a small
    state-and-exception monad, and everything the sources obtain from outside
    the repository (the generative-model SDK, [re], [json], [str.upper], the
    prompt files, the clock, the order in which concurrent calls complete) is a
    field of an environment record or a section variable. *)

From Stdlib Require Import ZArith String Ascii List DecimalString Lia.
From stdpp Require Import base option list gmap strings.

Open Scope string_scope.
Open Scope list_scope.

Set Warnings "-register-all".

(** ** Python values *)

Module Py.

(** Leaves that are neither strings nor containers.  A float is kept as its
    IEEE-754 binary64 bit pattern: the engine never computes with one. *)
Inductive atom :=
| PyNone
| PyBool (b : bool)
| PyInt (z : Z)
| PyFloat (bits : Z).

(** JSON-like trees: what [json.loads] returns and [json.dumps] accepts.  A
    dictionary keeps its entries in insertion order; its keys are strings and,
    in a well-formed dictionary, pairwise distinct. *)
Inductive value :=
| Atom (a : atom)
| Str (s : string)
| PyList (items : list value)
| PyDict (entries : list (string * value)).

(** The induction principle Rocq derives for a nested type says nothing about
    the elements of the lists; this one does. *)
Section value_induction.
Variable P : value -> Prop.
Hypothesis P_atom : forall a, P (Atom a).
Hypothesis P_str : forall s, P (Str s).
Hypothesis P_list : forall items, Forall P items -> P (PyList items).
Hypothesis P_dict : forall entries, Forall (fun kv => P (snd kv)) entries -> P (PyDict entries).

Fixpoint value_ind' (v : value) : P v :=
  match v with
  | Atom a => P_atom a
  | Str s => P_str s
  | PyList items =>
      P_list items
        ((fix all (l : list value) : Forall P l :=
            match l with
            | [] => @List.Forall_nil _ P
            | x :: l' => @List.Forall_cons _ P x l' (value_ind' x) (all l')
            end) items)
  | PyDict entries =>
      P_dict entries
        ((fix all (l : list (string * value)) : Forall (fun kv => P (snd kv)) l :=
            match l with
            | [] => @List.Forall_nil _ _
            | kv :: l' => @List.Forall_cons _ _ kv l' (value_ind' (snd kv)) (all l')
            end) entries)
  end.
End value_induction.

(** [bool(v)]: Python's truth value. *)
Definition truthy (v : value) : bool :=
  match v with
  | Atom PyNone => false
  | Atom (PyBool b) => b
  | Atom (PyInt z) => negb (z =? 0)%Z
  | Atom (PyFloat bits) => negb ((bits =? 0)%Z || (bits =? 2 ^ 63)%Z)
  | Str s => negb (String.eqb s "")
  | PyList items => match items with [] => false | _ => true end
  | PyDict entries => match entries with [] => false | _ => true end
  end.

(** [d.get(key)] on the entries of a dictionary. *)
Fixpoint dict_get (key : string) (entries : list (string * value)) : option value :=
  match entries with
  | [] => None
  | (k, v) :: rest => if String.eqb k key then Some v else dict_get key rest
  end.

(** [type(v).__name__], as it appears in error messages. *)
Definition type_name (v : value) : string :=
  match v with
  | Atom PyNone => "NoneType"
  | Atom (PyBool _) => "bool"
  | Atom (PyInt _) => "int"
  | Atom (PyFloat _) => "float"
  | Str _ => "str"
  | PyList _ => "list"
  | PyDict _ => "dict"
  end.

(** *** Strings *)

(** [str(n)] for an integer. *)
Definition str_of_Z (z : Z) : string := NilZero.string_of_int (Z.to_int z).

(** The line feed. *)
Definition nl : string := String (ascii_of_nat 10) EmptyString.

(** [sep.join(parts)]. *)
Fixpoint join (sep : string) (parts : list string) : string :=
  match parts with
  | [] => ""
  | [p] => p
  | p :: rest => p +:+ sep +:+ join sep rest
  end.

(** Texts one after the other with a blank line between one and the next:
    every text but the last is followed by two line feeds.  These are the
    words of the specification for the critique of a round, written out
    character by character, without [join] and [nl], to be compared with
    what [_critique] computes. *)
Fixpoint separated_by_blank_lines (texts : list string) : string :=
  match texts with
  | [] => EmptyString
  | text :: rest =>
      match rest with
      | [] => text
      | _ :: _ =>
          text +:+ String "010"%char (String "010"%char (separated_by_blank_lines rest))
      end
  end.

(** [needle in hay] for strings. *)
Fixpoint str_in (needle hay : string) : bool :=
  String.prefix needle hay ||
  match hay with
  | EmptyString => false
  | String _ hay' => str_in needle hay'
  end.

(** Leftmost, non-overlapping replacement of every occurrence of a non-empty
    [old]; [matches old s] says whether [old] starts [s].  After a match the
    scan resumes behind it: [skip] counts the characters of the match still to
    be passed over. *)
Fixpoint replace_scan (matches : string -> string -> bool) (old new : string)
    (skip : nat) (s : string) : string :=
  match s with
  | EmptyString => EmptyString
  | String c s' =>
      match skip with
      | S k => replace_scan matches old new k s'
      | O =>
          if matches old s
          then new +:+ replace_scan matches old new (String.length old - 1) s'
          else String c (replace_scan matches old new 0 s')
      end
  end.

(** [s.replace(old, new)], for the non-empty [old] the sources use. *)
Definition str_replace (old new s : string) : string :=
  replace_scan String.prefix old new 0 s.

End Py.
Export Py.

(** ** The redactor ([utils/redact.py]) *)

(** [str.upper] and [re.sub] belong to Python's library, not to the sources:
    the redactor is parametric in them.  [re_sub pattern replacement text]
    stands for [re.sub(pattern, replacement, text, flags=re.IGNORECASE)] on a
    pattern that compiles. *)
Section Redactor.
Variable upper : string -> string.
Variable re_sub : string -> string -> string -> string.

(** [f"[REDACTED_{key.upper()}]"] *)
Definition mask (key : string) : string := "[REDACTED_" +:+ upper key +:+ "]".

(** The [for pattern, replacement in patterns] loop over a string leaf. *)
Definition apply_patterns (patterns : list (string * string)) (text : string) : string :=
  fold_left (fun redacted_text rule => re_sub (fst rule) (snd rule) redacted_text) patterns text.

(** The structure [_redact_dict_recursive] returns.  In the dictionary branch
    the source assigns [data[key]] while it iterates over [data.items()]: every
    key is visited once and only its own entry is assigned, so the loop is a
    map over the entries.  (That the assignments go to a private copy and not
    to the caller's dictionary is the subject of [Store] below.) *)
Fixpoint _redact_dict_recursive (keys_to_redact : list string)
    (patterns : list (string * string)) (data : value) : value :=
  match data with
  | PyDict entries =>
      PyDict (map (fun kv =>
                     if bool_decide (fst kv ∈ keys_to_redact)
                     then (fst kv, Str (mask (fst kv)))
                     else (fst kv, _redact_dict_recursive keys_to_redact patterns (snd kv)))
                  entries)
  | PyList items => PyList (map (_redact_dict_recursive keys_to_redact patterns) items)
  | Str s => Str (apply_patterns patterns s)
  | Atom a => Atom a
  end.

(** What the dictionary branch does to one entry. *)
Definition redact_entry (keys_to_redact : list string) (patterns : list (string * string))
    (kv : string * value) : string * value :=
  if bool_decide (fst kv ∈ keys_to_redact)
  then (fst kv, Str (mask (fst kv)))
  else (fst kv, _redact_dict_recursive keys_to_redact patterns (snd kv)).

End Redactor.

(** *** The same function over a store of mutable objects

    [copy.deepcopy], the in-place assignment [data[key] = ...] and the
    question whether the caller's object survives only make sense with object
    identity.  Strings and atoms are immutable and stand for themselves;
    lists and dictionaries live in a heap and are referred to by address.  A
    heap is a list of objects, an address an index into it, and an allocation
    appends. *)
Module Store.

Inductive ref :=
| RAtom (a : atom)
| RStr (s : string)
| RObj (l : nat).

Inductive obj :=
| OList (items : list ref)
| ODict (entries : list (string * ref)).

Abbreviation heap := (list obj).

(** Run [f] over a list from left to right, threading the heap. *)
Fixpoint thread {A B : Type} (f : heap -> A -> option (B * heap)) (xs : list A)
    (h : heap) : option (list B * heap) :=
  match xs with
  | [] => Some ([], h)
  | x :: xs' =>
      match f h x with
      | None => None
      | Some (y, h1) =>
          match thread f xs' h1 with
          | None => None
          | Some (ys, h2) => Some (y :: ys, h2)
          end
      end
  end.

(** [copy.deepcopy] on a tree-shaped structure: immutable leaves are returned
    as they are, a container is rebuilt from copies of its parts at a fresh
    address.  The copy is built bottom-up (CPython creates the container first
    and then fills it, which only changes the order in which addresses are
    handed out), and without the memo table that makes [deepcopy] keep sharing
    inside the copy: the redactor never looks at the identity of the parts of
    its copy.  [None] is an exhausted [fuel] or a dangling address. *)
Fixpoint deepcopy (fuel : nat) (h : heap) (r : ref) : option (ref * heap) :=
  match fuel with
  | O => None
  | S n =>
      match r with
      | RAtom _ | RStr _ => Some (r, h)
      | RObj l =>
          match h !! l with
          | None => None
          | Some (OList items) =>
              match thread (deepcopy n) items h with
              | None => None
              | Some (items', h') => Some (RObj (length h'), h' ++ [OList items'])
              end
          | Some (ODict entries) =>
              match thread (fun h kv =>
                              match deepcopy n h (snd kv) with
                              | None => None
                              | Some (r', h') => Some ((fst kv, r'), h')
                              end) entries h with
              | None => None
              | Some (entries', h') => Some (RObj (length h'), h' ++ [ODict entries'])
              end
          end
      end
  end.

(** [data[key] = r] for the key of the [i]-th entry of the dictionary at [l]. *)
Definition set_entry (l i : nat) (r : ref) (h : heap) : heap :=
  alter (fun o =>
           match o with
           | ODict entries => ODict (alter (fun kv => (fst kv, r)) i entries)
           | OList _ => o
           end) l h.

Section store_redactor.
Variable upper : string -> string.
Variable re_sub : string -> string -> string -> string.
Variable keys_to_redact : list string.
Variable patterns : list (string * string).

(** The body of [for key, value in data.items()], from entry [i] on, for the
    dictionary at address [l]. *)
Fixpoint redact_entries (rec : heap -> ref -> option (ref * heap)) (l i : nat)
    (entries : list (string * ref)) (h : heap) : option heap :=
  match entries with
  | [] => Some h
  | (key, v) :: rest =>
      if bool_decide (key ∈ keys_to_redact)
      then redact_entries rec l (S i) rest (set_entry l i (RStr (mask upper key)) h)
      else
        match rec h v with
        | None => None
        | Some (r, h') => redact_entries rec l (S i) rest (set_entry l i r h')
        end
  end.

(** [_redact_dict_recursive] as the interpreter runs it: deep copy first, then
    the dictionary branch updates the copy in place, the list branch builds a
    new list, the string branch a new string. *)
Fixpoint redact (fuel : nat) (h : heap) (data : ref) : option (ref * heap) :=
  match fuel with
  | O => None
  | S n =>
      match deepcopy (S n) h data with
      | None => None
      | Some (RAtom a, h1) => Some (RAtom a, h1)
      | Some (RStr s, h1) => Some (RStr (apply_patterns re_sub patterns s), h1)
      | Some (RObj l, h1) =>
          match h1 !! l with
          | None => None
          | Some (ODict entries) =>
              match redact_entries (redact n) l 0 entries h1 with
              | None => None
              | Some h2 => Some (RObj l, h2)
              end
          | Some (OList items) =>
              match thread (redact n) items h1 with
              | None => None
              | Some (items', h2) => Some (RObj (length h2), h2 ++ [OList items'])
              end
          end
      end
  end.

End store_redactor.

(** [repr_in P h t r]: in heap [h] the reference [r] denotes the tree [t], and
    every address met on the way satisfies [P]. *)
Fixpoint repr_in (P : nat -> Prop) (h : heap) (t : value) (r : ref) : Prop :=
  match t with
  | Atom a => r = RAtom a
  | Str s => r = RStr s
  | PyList ts =>
      exists l items, r = RObj l /\ P l /\ h !! l = Some (OList items) /\
        (fix all (ts : list value) (items : list ref) : Prop :=
           match ts, items with
           | [], [] => True
           | t :: ts', r :: items' => repr_in P h t r /\ all ts' items'
           | _, _ => False
           end) ts items
  | PyDict kts =>
      exists l entries, r = RObj l /\ P l /\ h !! l = Some (ODict entries) /\
        (fix all (kts : list (string * value)) (entries : list (string * ref)) : Prop :=
           match kts, entries with
           | [], [] => True
           | kt :: kts', e :: entries' =>
               fst kt = fst e /\ repr_in P h (snd kt) (snd e) /\ all kts' entries'
           | _, _ => False
           end) kts entries
  end.

(** The nesting depth of a tree: the fuel a traversal needs. *)
Fixpoint depth (t : value) : nat :=
  match t with
  | Atom _ | Str _ => 0
  | PyList ts => S (fold_right (fun t d => Nat.max (depth t) d) 0 ts)
  | PyDict kts => S (fold_right (fun kt d => Nat.max (depth (snd kt)) d) 0 kts)
  end.

(** An entry of a dictionary in the store denotes an entry of a tree. *)
Definition entry_repr (P : nat -> Prop) (h : heap) (kt : string * value)
    (e : string * ref) : Prop :=
  fst kt = fst e /\ repr_in P h (snd kt) (snd e).

(** [copies n]: with fuel [n], [deepcopy] returns on every tree of depth
    below [n], and returns a reference to the same tree made of new objects
    only. *)
Definition copies (n : nat) : Prop :=
  forall P t (h : heap) r, repr_in P h t r -> depth t < n ->
    exists r' h', deepcopy n h r = Some (r', h') /\ h `prefix_of` h' /\
                  repr_in (fun l => length h <= l) h' t r'.

(** [redacts ... n]: with fuel [n], the redactor returns on every tree of
    depth below [n], with a reference to the redacted tree made of new objects
    only. *)
Definition redacts (upper : string -> string) (re_sub : string -> string -> string -> string)
    (keys_to_redact : list string) (patterns : list (string * string)) (n : nat) : Prop :=
  forall P t (h : heap) r, repr_in P h t r -> depth t < n ->
    exists r' h', redact upper re_sub keys_to_redact patterns n h r = Some (r', h') /\
                  repr_in (fun l => length h <= l) h'
                    (_redact_dict_recursive upper re_sub keys_to_redact patterns t) r'.

End Store.

(** ** Exceptions, the outside world, and the effect monad *)

(** The exception classes the engine raises or handles by name.  Every one of
    them derives from [Exception]; cancellation and other [BaseException]s are
    not modelled.  [TimeoutError] is [asyncio.TimeoutError], [OSError] is what
    [load_role_template] raises as [IOError]. *)
Inductive exn_class :=
| ModelAPIError
| ModelCallError
| TemplateNotFoundError
| ValueError
| AttributeError
| TimeoutError
| OSError.

(** An exception: its class and [str(e)]. *)
Record exn := Exn { exn_cls : exn_class; exn_msg : string }.

Inductive result (A : Type) :=
| Ok (a : A)
| Raise (e : exn).
Arguments Ok {A} a.
Arguments Raise {A} e.

(** How a call into the generative-model SDK can fail: the three classes
    [call_gemini] names, or anything else. *)
Inductive sdk_failure :=
| GoogleAPICallError
| RetryError
| StopCandidateException
| OtherFailure.

Inductive sdk_result :=
| SdkText (text : string)
| SdkRaise (f : sdk_failure).

(** What reading a prompt file can give. *)
Inductive prompt_file :=
| Found (text : string)
| Missing
| Unreadable (why : string).

(** [get_config()], by the three sections [call_model] reads from it: an absent
    section is the empty map, as with [.get(section, {})]. *)
Record MainConfig := {
  cfg_models : gmap string value;
  cfg_roles : gmap string (gmap string value);
  cfg_generation : gmap string value
}.

(** Everything the engine gets from outside the repository.  [W] is the state
    of the world the SDK talks to. *)
Record Env (W : Type) := {
  (* model.generate_content_async, with the model name, the system
     instruction, the prompt and the effective configuration *)
  generate_content : W -> string -> option string -> string -> gmap string value -> sdk_result * W;
  (* the same request with a model name that is no string: what the SDK makes
     of such a name is its own affair *)
  generate_content_untyped :
    W -> value -> option string -> string -> gmap string value -> sdk_result * W;
  (* str() of a value that is no string, as an f-string prints it *)
  format_value : value -> string;
  get_config : MainConfig;
  (* the prompts directory and the files in it *)
  prompts_dir : string;
  read_prompt : string -> prompt_file;
  (* json.loads; None is a JSONDecodeError *)
  json_loads : string -> option value;
  (* str.upper and re.sub(..., flags=re.IGNORECASE) *)
  str_upper : string -> string;
  re_sub_ignorecase : string -> string -> string -> string;
  (* datetime.now().isoformat() and time.time() *)
  now_isoformat : W -> string;
  time_time : W -> Z;
  (* the scheduler: which of the pending concurrent calls completes next *)
  completion_picks : W -> list nat
}.
Arguments generate_content {W} _ _ _ _ _ _.
Arguments generate_content_untyped {W} _ _ _ _ _ _.
Arguments format_value {W} _ _.
Arguments get_config {W} _.
Arguments prompts_dir {W} _.
Arguments read_prompt {W} _ _.
Arguments json_loads {W} _ _.
Arguments str_upper {W} _ _.
Arguments re_sub_ignorecase {W} _ _ _ _.
Arguments now_isoformat {W} _ _.
Arguments time_time {W} _ _.
Arguments completion_picks {W} _ _.

(** *** The run log *)

Record RunConfig := {
  generator_model : string;
  critic_model : string;
  refiner_model : string;
  meta_critic_model : string;
  fallback_model : string;
  max_rounds : Z;
  stop_threshold : Z;
  log_file_path : string;
  redact_logs : bool;
  full_config : gmap string value;
  roles : gmap string string;
  default_critic_role_prompt_file : option string;
  default_refiner_role_prompt_file : option string;
  multi_critic_roles : option (list string);
  disable_meta_critic : bool;
  dry_run : bool
}.

Record GenerationLog := {
  gen_text : string;
  gen_model_used : string
}.

Record CritiqueLog := {
  critique_round : Z;
  critique_model_used : string;
  critique_role_prompt_file_used : list string;
  critique_text : string
}.

Record RefinementLog := {
  refinement_round : Z;
  refinement_text : string;
  refinement_model_used : string;
  refinement_role_prompt_file_used : option string
}.

(** [self.run_log].  [initial_generation] is [None] for the empty dictionary it
    starts as; [runtime] is absent until a run completes; [config_used] is a
    projection of the run configuration and is rebuilt from it when the log is
    written. *)
Record RunLog := {
  timestamp : string;
  original_user_prompt : option string;
  context_documents : list value;
  initial_generation : option GenerationLog;
  critiques : list CritiqueLog;
  refinements : list RefinementLog;
  reason_for_stopping : string;
  final_output : string;
  config_used : RunConfig;
  runtime : option Z
}.

(** *** State *)

(** One call of [call_gemini]: the model, the prompt and the system prompt. *)
Record GeminiCall := {
  call_model_name : string;
  call_prompt : string;
  call_system_prompt : option string
}.

(** The mutable state a run touches: the world behind the SDK, the router's
    [_is_initialized] flag, the log files (one JSON document per line, by
    path) and the loop's [run_log].  [gemini_calls] is a ghost trace of the
    calls of [call_gemini], kept to state how often the backend is tried. *)
Record State (W : Type) := {
  sdk : W;
  is_initialized : bool;
  gemini_calls : list GeminiCall;
  files : gmap string (list value);
  run_log : RunLog
}.
Arguments sdk {W} _.
Arguments is_initialized {W} _.
Arguments gemini_calls {W} _.
Arguments files {W} _.
Arguments run_log {W} _.
Arguments Build_State {W} _ _ _ _ _.

Definition with_sdk {W} (w : W) (s : State W) : State W :=
  Build_State w (is_initialized s) (gemini_calls s) (files s) (run_log s).
Definition with_gemini_calls {W} (c : list GeminiCall) (s : State W) : State W :=
  Build_State (sdk s) (is_initialized s) c (files s) (run_log s).
Definition with_files {W} (f : gmap string (list value)) (s : State W) : State W :=
  Build_State (sdk s) (is_initialized s) (gemini_calls s) f (run_log s).
Definition with_run_log {W} (l : RunLog) (s : State W) : State W :=
  Build_State (sdk s) (is_initialized s) (gemini_calls s) (files s) l.

(** *** The monad: state, and a result that is a value or a raised exception *)

Definition M (W A : Type) : Type := State W -> result A * State W.

Definition ret {W A} (a : A) : M W A := fun s => (Ok a, s).

Definition bind {W A B} (m : M W A) (k : A -> M W B) : M W B :=
  fun s =>
    match m s with
    | (Ok a, s') => k a s'
    | (Raise e, s') => (Raise e, s')
    end.

Definition raise {W A} (e : exn) : M W A := fun s => (Raise e, s).

Definition gets {W A} (f : State W -> A) : M W A := fun s => (Ok (f s), s).

Definition modify {W} (f : State W -> State W) : M W unit := fun s => (Ok tt, f s).

(** [try: m  except Exception as e: handler e].  A handler that does not
    handle the class of [e] raises [e] again. *)
Definition try_except {W A} (m : M W A) (handler : exn -> M W A) : M W A :=
  fun s =>
    match m s with
    | (Ok a, s') => (Ok a, s')
    | (Raise e, s') => handler e s'
    end.

(** [try: m  finally: cleanup].  The cleanup runs whatever [m] did; when it
    raises, its exception replaces the outcome of [m]. *)
Definition try_finally {W A} (m : M W A) (cleanup : M W unit) : M W A :=
  fun s =>
    match m s with
    | (r, s') =>
        match cleanup s' with
        | (Ok _, s'') => (r, s'')
        | (Raise e, s'') => (Raise e, s'')
        end
    end.

Declare Scope py_scope.
Delimit Scope py_scope with py.
Notation "x <- m ;; k" := (bind m (fun x => k))
  (at level 100, m at next level, k at level 200, right associativity) : py_scope.
Notation "m ;;; k" := (bind m (fun _ => k))
  (at level 100, k at level 200, right associativity) : py_scope.
Open Scope py_scope.

(** *** Properties of computations *)

(** Only [run] and the round loop write the run log, and only the logger
    writes files: every other operation leaves both as they are. *)
Definition keeps_logs {W A : Type} (m : M W A) : Prop :=
  forall s, run_log (snd (m s)) = run_log s /\ files (snd (m s)) = files s.

(** The same for the files alone. *)
Definition keeps_files {W A : Type} (m : M W A) : Prop :=
  forall s, files (snd (m s)) = files s.

(** A task whose answer does not depend on the state it runs in, among the
    states that satisfy [I] (an invariant of the task, such as the router
    being initialised). *)
Definition returns_while {W A : Type} (I : State W -> Prop) (task : M W A) (a : A) : Prop :=
  forall s, I s -> exists s', task s = (Ok a, s') /\ I s'.

(** ** The model router ([core/model_router.py]) *)

(** A model identifier read from a configuration value.  The source puts an
    identifier to Python's truth test and to nothing else: an absent key and
    a value that is false are no model, and a value that is true is used as
    the model, string or not.  [as_model_name] is the identifier when it is a
    string that is not empty, [as_untyped_model] the identifier when it is
    true and no string. *)
Definition as_model_name (v : option value) : option string :=
  match v with
  | Some (Str s) => if String.eqb s "" then None else Some s
  | _ => None
  end.

Definition as_untyped_model (v : option value) : option value :=
  match v with
  | None | Some (Str _) => None
  | Some other => if truthy other then Some other else None
  end.

(** The truth test on an optional string argument. *)
Definition nonempty (o : option string) : option string :=
  match o with
  | Some s => if String.eqb s "" then None else Some s
  | None => None
  end.

Section Router.
Context {W : Type} (E : Env W).

(** [call_gemini].  The request is built and sent inside the [try], so every
    failure of the SDK leaves as a [ModelAPIError]; only the message tells
    the three named classes from the rest. *)
Definition call_gemini (prompt model_name : string) (system_prompt : option string)
    (config : gmap string value) : M W string :=
  modify (fun s => with_gemini_calls
                     (gemini_calls s ++ [Build_GeminiCall model_name prompt system_prompt]) s) ;;;
  initialized <- gets is_initialized ;;
  if negb initialized
  then raise (Exn ModelAPIError "Model router has not been initialized. Call initialize() first.")
  else
    fun s =>
      match generate_content E (sdk s) model_name system_prompt prompt config with
      | (SdkText text, w) => (Ok text, with_sdk w s)
      | (SdkRaise OtherFailure, w) =>
          (Raise (Exn ModelAPIError ("An unexpected error occurred with model " +:+ model_name)),
           with_sdk w s)
      | (SdkRaise _, w) =>
          (Raise (Exn ModelAPIError ("Gemini API call failed for " +:+ model_name)),
           with_sdk w s)
      end.

(** [call_gemini] when the model name it is handed is no string: the same
    function, with the name printed where a message or the trace holds it. *)
Definition call_gemini_untyped (prompt : string) (model_name : value)
    (system_prompt : option string) (config : gmap string value) : M W string :=
  modify (fun s => with_gemini_calls
                     (gemini_calls s
                      ++ [Build_GeminiCall (format_value E model_name) prompt system_prompt]) s) ;;;
  initialized <- gets is_initialized ;;
  if negb initialized
  then raise (Exn ModelAPIError "Model router has not been initialized. Call initialize() first.")
  else
    fun s =>
      match generate_content_untyped E (sdk s) model_name system_prompt prompt config with
      | (SdkText text, w) => (Ok text, with_sdk w s)
      | (SdkRaise OtherFailure, w) =>
          (Raise (Exn ModelAPIError
                    ("An unexpected error occurred with model " +:+ format_value E model_name)),
           with_sdk w s)
      | (SdkRaise _, w) =>
          (Raise (Exn ModelAPIError
                    ("Gemini API call failed for " +:+ format_value E model_name)),
           with_sdk w s)
      end.

(** [{**default_generation_config, **_model_config, **(config or {})}]: later
    dictionaries win, so in a left-biased union they come first. *)
Definition effective_config (config : option (gmap string value)) : gmap string value :=
  default ∅ config ∪ cfg_models (get_config E) ∪ cfg_generation (get_config E).

(** Step 2 of [call_model]: the model to use, when it is a string. *)
Definition model_to_use (model_name : option string) (config : option (gmap string value))
    (role : option string) : option string :=
  match nonempty model_name with
  | Some m => Some m
  | None =>
      let role_name := match nonempty role with
                       | Some r => str_replace ".txt" "" r
                       | None => ""
                       end in
      match (if String.eqb role_name "" then None else cfg_roles (get_config E) !! role_name) with
      | Some role_config => as_model_name (role_config !! "model")
      | None => as_model_name (effective_config config !! "default_model")
      end
  end.

(** The same step when what the configuration holds for the model is true and
    no string. *)
Definition untyped_model_to_use (model_name : option string)
    (config : option (gmap string value)) (role : option string) : option value :=
  match nonempty model_name with
  | Some _ => None
  | None =>
      let role_name := match nonempty role with
                       | Some r => str_replace ".txt" "" r
                       | None => ""
                       end in
      match (if String.eqb role_name "" then None else cfg_roles (get_config E) !! role_name) with
      | Some role_config => as_untyped_model (role_config !! "model")
      | None => as_untyped_model (effective_config config !! "default_model")
      end
  end.

Definition dry_run_response (model : string) : string :=
  "DRY_RUN_RESPONSE: This is a mocked response for model " +:+ model +:+ ".".

Definition mock_response (model : string) : string :=
  "MOCK_RESPONSE: This is a mocked response for model " +:+ model +:+ ".".

(** [call_model].  A model that is no string passes the truth test and the
    dry run, and fails at [model_to_use.startswith]; a fallback model that is
    no string differs from every model name and is tried. *)
Definition call_model (prompt : string) (model_name : option string)
    (system_prompt : option string) (config : option (gmap string value))
    (dry_run : bool) (role : option string) : M W string :=
  let effective_config := effective_config config in
  match model_to_use model_name config role with
  | None =>
      match untyped_model_to_use model_name config role with
      | None => raise (Exn ValueError "No model name provided or configured.")
      | Some untyped =>
          if dry_run then ret (dry_run_response (format_value E untyped))
          else raise (Exn AttributeError
                        ("'" +:+ type_name untyped
                         +:+ "' object has no attribute 'startswith'"))
      end
  | Some model_to_use =>
      if dry_run then ret (dry_run_response model_to_use)
      else if String.prefix "mock" model_to_use then ret (mock_response model_to_use)
      else
        try_except
          (call_gemini prompt model_to_use system_prompt effective_config)
          (fun e =>
             match exn_cls e with
             | ModelAPIError =>
                 match as_model_name (effective_config !! "fallback_model") with
                 | None =>
                     match as_untyped_model (effective_config !! "fallback_model") with
                     | None =>
                         raise (Exn ModelAPIError
                                  ("Model " +:+ model_to_use +:+
                                   " failed and no distinct fallback is available."))
                     | Some untyped =>
                         try_except
                           (call_gemini_untyped prompt untyped system_prompt effective_config)
                           (fun fallback_e =>
                              match exn_cls fallback_e with
                              | ModelAPIError =>
                                  raise (Exn ModelAPIError
                                           ("Fallback model " +:+ format_value E untyped
                                            +:+ " also failed."))
                              | _ => raise fallback_e
                              end)
                     end
                 | Some fallback_model =>
                     if String.eqb model_to_use fallback_model
                     then raise (Exn ModelAPIError
                                   ("Model " +:+ model_to_use +:+
                                    " failed and no distinct fallback is available."))
                     else
                       try_except
                         (call_gemini prompt fallback_model system_prompt effective_config)
                         (fun fallback_e =>
                            match exn_cls fallback_e with
                            | ModelAPIError =>
                                raise (Exn ModelAPIError
                                         ("Fallback model " +:+ fallback_model +:+ " also failed."))
                            | _ => raise fallback_e
                            end)
                 end
             | _ => raise e
             end)
  end.

End Router.

(** ** The structured logger ([utils/logger.py]) *)

Record Logger := {
  log_file : string;
  redact : bool;
  keys_to_redact : list string;
  redaction_patterns : list (string * string)
}.

Section LoggerMethods.
Context {W : Type} (E : Env W).

(** [Logger.log_run]: one more line in the log file.  The file holds the
    entries themselves, not their [json.dumps] text; failures of the file
    system are not modelled. *)
Definition log_run (self : Logger) (log_entry : value) : M W unit :=
  let entry_to_log :=
    if redact self
    then _redact_dict_recursive (str_upper E) (re_sub_ignorecase E)
           (keys_to_redact self) (redaction_patterns self) log_entry
    else log_entry in
  modify (fun s =>
            with_files (<[log_file self := default [] (files s !! log_file self) ++ [entry_to_log]]>
                          (files s)) s).

End LoggerMethods.

(** The number of lines of a log file. *)
Definition log_lines {W} (path : string) (s : State W) : nat :=
  length (default [] (files s !! path)).

(** ** The loop controller ([core/loop.py]) *)

(** What [_load_strategy] found in [strategies.yaml] under the strategy's
    name: a list of role names, or a mapping that may hold a [roles] list, a
    [max_rounds] count and other keys. *)
Inductive Strategy :=
| StrategyList (role_names : list string)
| StrategyDict (role_names : option (list string)) (rounds : option Z)
    (others : list (string * value)).

(** [if self.strategy:] an absent strategy, an empty list and an empty
    mapping are all false. *)
Definition strategy_truthy (st : option Strategy) : bool :=
  match st with
  | None => false
  | Some (StrategyList names) => match names with [] => false | _ => true end
  | Some (StrategyDict None None []) => false
  | Some (StrategyDict _ _ _) => true
  end.

(** A [CritiqueRefineLoop] instance, without its [run_log] (which is state):
    the attributes [__init__] copies from the run configuration are read from
    [run_config]. *)
Record Loop := {
  run_config : RunConfig;
  logger : Logger;
  strategy : option Strategy;
  meta_critic_template : option string
}.

(** The strings of a configuration list; an entry that is no string can equal
    no key and is left out. *)
Definition str_items (v : option value) : list string :=
  match v with
  | Some (PyList items) =>
      omap (fun x => match x with Str s => Some s | _ => None end) items
  | _ => []
  end.

(** The [(pattern, replacement)] pairs of a configuration list. *)
Definition rule_items (v : option value) : list (string * string) :=
  match v with
  | Some (PyList items) =>
      omap (fun x => match x with
                     | PyList [Str p; Str r] => Some (p, r)
                     | _ => None
                     end) items
  | _ => []
  end.

(** The run log [__init__] starts from. *)
Definition initial_run_log (now : string) (rc : RunConfig) : RunLog :=
  {| timestamp := now;
     original_user_prompt := None;
     context_documents := [];
     initial_generation := None;
     critiques := [];
     refinements := [];
     reason_for_stopping := "";
     final_output := "";
     config_used := rc;
     runtime := None |}.

(** [CritiqueRefineLoop.__init__], given the strategy [_load_strategy]
    returned. *)
Definition CritiqueRefineLoop_init (rc : RunConfig) (st : option Strategy) : Loop :=
  let redaction_config :=
    match full_config rc !! "redaction_config" with
    | Some (PyDict entries) => entries
    | _ => []
    end in
  {| run_config := rc;
     logger := {| log_file := log_file_path rc;
                  redact := redact_logs rc;
                  keys_to_redact := str_items (dict_get "keys_to_redact" redaction_config);
                  redaction_patterns := rule_items (dict_get "patterns_to_redact" redaction_config) |};
     strategy := st;
     meta_critic_template := roles rc !! "meta_critic_template" |}.

(** The state a fresh instance runs in. *)
Definition fresh_state {W} (E : Env W) (w : W) (initialized : bool)
    (fs : gmap string (list value)) (rc : RunConfig) : State W :=
  Build_State w initialized [] fs (initial_run_log (now_isoformat E w) rc).

(** *** The run log as the JSON document that is written *)

Definition opt_str_value (o : option string) : value :=
  match o with
  | Some s => Str s
  | None => Atom PyNone
  end.

Definition generation_log_value (g : option GenerationLog) : value :=
  match g with
  | None => PyDict []
  | Some g => PyDict [("text", Str (gen_text g)); ("model_used", Str (gen_model_used g))]
  end.

Definition critique_log_value (c : CritiqueLog) : value :=
  PyDict [("round", Atom (PyInt (critique_round c)));
          ("model_used", Str (critique_model_used c));
          ("role_prompt_file_used", PyList (map Str (critique_role_prompt_file_used c)));
          ("text", Str (critique_text c))].

Definition refinement_log_value (r : RefinementLog) : value :=
  PyDict [("round", Atom (PyInt (refinement_round r)));
          ("text", Str (refinement_text r));
          ("model_used", Str (refinement_model_used r));
          ("role_prompt_file_used", opt_str_value (refinement_role_prompt_file_used r))].

Definition config_used_value (rc : RunConfig) : value :=
  PyDict [("generator_model", Str (generator_model rc));
          ("critic_model", Str (critic_model rc));
          ("refiner_model", Str (refiner_model rc));
          ("max_rounds", Atom (PyInt (max_rounds rc)));
          ("stop_on_no_actionable_critique_threshold", Atom (PyInt (stop_threshold rc)));
          ("default_critic_role_prompt_file", opt_str_value (default_critic_role_prompt_file rc));
          ("default_refiner_role_prompt_file", opt_str_value (default_refiner_role_prompt_file rc));
          ("multi_critic_roles",
           match multi_critic_roles rc with
           | Some l => PyList (map Str l)
           | None => Atom PyNone
           end);
          ("disable_meta_critic", Atom (PyBool (disable_meta_critic rc)))].

(** The elapsed time is a float in the source; here it is a count of clock
    ticks. *)
Definition run_log_value (l : RunLog) : value :=
  PyDict ([("timestamp", Str (timestamp l));
           ("original_user_prompt", opt_str_value (original_user_prompt l));
           ("context_documents", PyList (context_documents l));
           ("initial_generation", generation_log_value (initial_generation l));
           ("critiques", PyList (map critique_log_value (critiques l)));
           ("refinements", PyList (map refinement_log_value (refinements l)));
           ("reason_for_stopping", Str (reason_for_stopping l));
           ("final_output", Str (final_output l));
           ("config_used", config_used_value (config_used l))]
          ++ match runtime l with
             | Some t => [("runtime", Atom (PyInt t))]
             | None => []
             end).

(** Assignments to the entries of [self.run_log]. *)
Definition set_original_user_prompt (p : string) (l : RunLog) : RunLog :=
  {| timestamp := timestamp l; original_user_prompt := Some p;
     context_documents := context_documents l; initial_generation := initial_generation l;
     critiques := critiques l; refinements := refinements l;
     reason_for_stopping := reason_for_stopping l; final_output := final_output l;
     config_used := config_used l; runtime := runtime l |}.
Definition set_initial_generation (g : GenerationLog) (l : RunLog) : RunLog :=
  {| timestamp := timestamp l; original_user_prompt := original_user_prompt l;
     context_documents := context_documents l; initial_generation := Some g;
     critiques := critiques l; refinements := refinements l;
     reason_for_stopping := reason_for_stopping l; final_output := final_output l;
     config_used := config_used l; runtime := runtime l |}.
Definition append_critique (c : CritiqueLog) (l : RunLog) : RunLog :=
  {| timestamp := timestamp l; original_user_prompt := original_user_prompt l;
     context_documents := context_documents l; initial_generation := initial_generation l;
     critiques := critiques l ++ [c]; refinements := refinements l;
     reason_for_stopping := reason_for_stopping l; final_output := final_output l;
     config_used := config_used l; runtime := runtime l |}.
Definition append_refinement (r : RefinementLog) (l : RunLog) : RunLog :=
  {| timestamp := timestamp l; original_user_prompt := original_user_prompt l;
     context_documents := context_documents l; initial_generation := initial_generation l;
     critiques := critiques l; refinements := refinements l ++ [r];
     reason_for_stopping := reason_for_stopping l; final_output := final_output l;
     config_used := config_used l; runtime := runtime l |}.
Definition set_reason_for_stopping (why : string) (l : RunLog) : RunLog :=
  {| timestamp := timestamp l; original_user_prompt := original_user_prompt l;
     context_documents := context_documents l; initial_generation := initial_generation l;
     critiques := critiques l; refinements := refinements l;
     reason_for_stopping := why; final_output := final_output l;
     config_used := config_used l; runtime := runtime l |}.
Definition set_final_output (text : string) (l : RunLog) : RunLog :=
  {| timestamp := timestamp l; original_user_prompt := original_user_prompt l;
     context_documents := context_documents l; initial_generation := initial_generation l;
     critiques := critiques l; refinements := refinements l;
     reason_for_stopping := reason_for_stopping l; final_output := text;
     config_used := config_used l; runtime := runtime l |}.
Definition set_runtime (t : Z) (l : RunLog) : RunLog :=
  {| timestamp := timestamp l; original_user_prompt := original_user_prompt l;
     context_documents := context_documents l; initial_generation := initial_generation l;
     critiques := critiques l; refinements := refinements l;
     reason_for_stopping := reason_for_stopping l; final_output := final_output l;
     config_used := config_used l; runtime := Some t |}.

Definition update_run_log {W} (f : RunLog -> RunLog) : M W unit :=
  modify (fun s => with_run_log (f (run_log s)) s).

(** *** Concurrent calls *)

Section Gather.
Context {W : Type} (E : Env W).

(** [asyncio.gather] over tasks that each run to completion at the moment the
    scheduler lets them complete.  [pending] holds the tasks not yet
    completed, each with its position in the argument list; the next task to
    complete is the one the scheduler picks among them, and its result goes
    to the slot of its position.  The first task to raise ends the wait with
    its exception. *)
Fixpoint gather_go {A : Type} (n : nat) (picks : list nat)
    (pending : list (nat * M W A)) (slots : list (option A)) : M W (list (option A)) :=
  match n with
  | O => ret slots
  | S n' =>
      let k := hd 0 picks mod length pending in
      match pending !! k with
      | None => ret slots
      | Some (i, task) =>
          x <- task ;;
          gather_go n' (tl picks) (delete k pending) (<[i := Some x]> slots)
      end
  end.

Definition gather {A : Type} (tasks : list (M W A)) : M W (list A) :=
  picks <- gets (fun s => completion_picks E (sdk s)) ;;
  slots <- gather_go (length tasks) picks (imap (fun i task => (i, task)) tasks)
             (replicate (length tasks) None) ;;
  ret (omap id slots).

End Gather.

(** *** The methods of [CritiqueRefineLoop] *)

(** How one pass through the body of the round loop ends: with the text for
    the next round, or with a [return]. *)
Inductive flow :=
| NextRound (current_text : string)
| Return (current_text : string).

Section LoopController.
Context {W : Type} (E : Env W) (self : Loop).

Let rc := run_config self.

(** [load_role_template]; its cache cannot be observed, the prompt files
    being fixed. *)
Definition load_role_template (file_name : string) : M W string :=
  match read_prompt E file_name with
  | Found text => ret text
  | Missing =>
      raise (Exn TemplateNotFoundError
               ("Prompt template not found at " +:+ prompts_dir E +:+ "/" +:+ file_name))
  | Unreadable why =>
      raise (Exn OSError
               ("Error loading prompt template from " +:+ prompts_dir E +:+ "/" +:+ file_name
                +:+ ": " +:+ why))
  end.

(** [_generate] *)
Definition _generate (initial_user_prompt : string)
    (initial_content_for_review : option string) : M W (string * GenerationLog) :=
  initial_response <-
    match nonempty initial_content_for_review with
    | Some content => ret content
    | None =>
        call_model E ("User prompt: " +:+ initial_user_prompt) (Some (generator_model rc))
          None (Some (full_config rc)) (dry_run rc) (Some "generator")
    end ;;
  ret (initial_response,
       {| gen_text := initial_response;
          gen_model_used := match initial_content_for_review with
                            | None => generator_model rc
                            | Some _ => "N/A (provided content for review)"
                            end |}).

(** [_get_critique]; its handlers only log and raise again. *)
Definition _get_critique (current_text role_file : string) : M W string :=
  role_template <- load_role_template role_file ;;
  call_model E current_text (Some (critic_model rc)) (Some role_template)
    (Some (full_config rc)) (dry_run rc) (Some "critic").

(** The roles [_critique] queries. *)
Definition roles_to_use : result (list string) :=
  if strategy_truthy (strategy self) then
    match strategy self with
    | Some (StrategyList names) => Ok (map (fun role => role +:+ ".txt") names)
    | Some (StrategyDict (Some names) _ _) => Ok (map (fun role => role +:+ ".txt") names)
    | _ => Ok []
    end
  else
    match multi_critic_roles rc with
    | Some (r :: rs) => Ok (r :: rs)
    | _ =>
        match nonempty (default_critic_role_prompt_file rc) with
        | Some f => Ok [f]
        | None => Raise (Exn ValueError "No critic role specified in the configuration.")
        end
    end.

(** [_critique]; its handlers only log and raise again. *)
Definition _critique (current_text : string) (round_num : Z) : M W (string * CritiqueLog) :=
  match roles_to_use with
  | Raise e => raise e
  | Ok roles_to_use =>
      critiques <- gather E (map (_get_critique current_text) roles_to_use) ;;
      let critique := join (nl +:+ nl) critiques in
      ret (critique,
           {| critique_round := round_num;
              critique_model_used := critic_model rc;
              critique_role_prompt_file_used := roles_to_use;
              critique_text := critique |})
  end.

(** [_refine] *)
Definition _refine (current_text critique : string) (round_num : Z)
    : M W (string * RefinementLog) :=
  let refine_prompt_for_model :=
    "Original text:" +:+ nl +:+ current_text +:+ nl +:+ nl +:+ "Critique:" +:+ nl +:+ critique
    +:+ nl +:+ nl +:+ "Refine the original text based on the critique." in
  refined_response <-
    call_model E refine_prompt_for_model (Some (refiner_model rc))
      (roles rc !! "refiner_template") (Some (full_config rc)) (dry_run rc) (Some "refiner") ;;
  ret (refined_response,
       {| refinement_round := round_num;
          refinement_text := refined_response;
          refinement_model_used := refiner_model rc;
          refinement_role_prompt_file_used := default_refiner_role_prompt_file rc |}).

(** [_get_meta_critique].  [call_model] returns a string, so the branch of
    the source for a response that is no string is never taken; each of the
    two handlers answers with a verdict that is not actionable. *)
Definition _get_meta_critique (critique_text : string) : M W value :=
  match nonempty (meta_critic_template self) with
  | None => ret (PyDict [("actionable", Atom (PyBool true))])
  | Some _ =>
      try_except
        (response <-
           call_model E critique_text (Some (meta_critic_model rc)) (meta_critic_template self)
             (Some (full_config rc)) (dry_run rc) (Some "meta_critic") ;;
         match json_loads E response with
         | Some parsed => ret parsed
         | None => ret (PyDict [("actionable", Atom (PyBool (str_in "ACTIONABLE" response)))])
         end)
        (fun _ => ret (PyDict [("actionable", Atom (PyBool false))]))
  end.

(** [_is_critique_actionable]: [meta_critique_result.get("actionable", False)].
    Only a dictionary has a [get]. *)
Definition _is_critique_actionable (critique_text : string) : M W value :=
  meta_critique_result <- _get_meta_critique critique_text ;;
  match meta_critique_result with
  | PyDict entries => ret (default (Atom (PyBool false)) (dict_get "actionable" entries))
  | other =>
      raise (Exn AttributeError ("'" +:+ type_name other +:+ "' object has no attribute 'get'"))
  end.

(** The body of the round loop for [i], with its three handlers. *)
Definition round_body (i : Z) (current_text : string) : M W flow :=
  try_except
    (p <- _critique current_text (i + 1) ;;
     let critique_text := fst p in
     update_run_log (append_critique (snd p)) ;;;
     stop <-
       (if disable_meta_critic rc then ret false
        else actionability <- _is_critique_actionable critique_text ;;
             ret (negb (truthy actionability))) ;;
     if (stop : bool) then
       update_run_log (set_reason_for_stopping
                         ("Non-actionable critique received in round " +:+ str_of_Z (i + 1) +:+ ".")) ;;;
       ret (Return current_text)
     else
       q <- _refine current_text critique_text (i + 1) ;;
       update_run_log (append_refinement (snd q)) ;;;
       ret (NextRound (fst q)))
    (fun e =>
       match exn_cls e with
       | TimeoutError =>
           update_run_log (set_reason_for_stopping ("Timeout in round " +:+ str_of_Z (i + 1))) ;;;
           ret (Return current_text)
       | TemplateNotFoundError | ValueError => raise e
       | _ =>
           update_run_log (set_reason_for_stopping
                             ("Error in round " +:+ str_of_Z (i + 1) +:+ ": " +:+ exn_msg e)) ;;;
           ret (Return current_text)
       end).

(** [for i in range(...)], with [remaining] rounds to go from round [i]. *)
Fixpoint rounds_from (remaining : nat) (i : Z) (current_text : string) : M W string :=
  match remaining with
  | O => ret current_text
  | S remaining' =>
      f <- round_body i current_text ;;
      match f with
      | NextRound refined_response => rounds_from remaining' (i + 1) refined_response
      | Return text => ret text
      end
  end.

(** [_run_critique_refine_loop] *)
Definition _run_critique_refine_loop (initial_text : string) : M W string :=
  rounds_from (Z.to_nat (max_rounds rc)) 0 initial_text.

(** The rounds of the brainstormer. *)
Fixpoint brainstorm_from (remaining : nat) (current_text : string) : M W string :=
  match remaining with
  | O => ret current_text
  | S remaining' =>
      brainstormer_template <- load_role_template "brainstormer.txt" ;;
      response <-
        call_model E current_text (Some (generator_model rc)) (Some brainstormer_template)
          (Some (full_config rc)) (dry_run rc) (Some "brainstormer") ;;
      brainstorm_from remaining' response
  end.

(** [_run_brainstormer_loop] *)
Definition _run_brainstormer_loop (initial_text : string) : M W string :=
  match strategy self with
  | Some (StrategyList names) =>
      if bool_decide ("brainstormer" ∈ names) then brainstorm_from 1 initial_text
      else ret initial_text
  | Some (StrategyDict role_names rounds _) =>
      if bool_decide ("brainstormer" ∈ default [] role_names)
      then brainstorm_from (Z.to_nat (default 1%Z rounds)) initial_text
      else ret initial_text
  | None => ret initial_text
  end.

(** [self.logger.log_run(self.run_log)] *)
Definition log_current_run : M W unit :=
  l <- gets run_log ;;
  log_run E (logger self) (run_log_value l).

(** [run] *)
Definition run (initial_user_prompt : string) (initial_content_for_review : option string)
    : M W (string * RunLog) :=
  update_run_log (set_original_user_prompt initial_user_prompt) ;;;
  start_time <- gets (fun s => time_time E (sdk s)) ;;
  try_finally
    (try_except
       (p <- _generate initial_user_prompt initial_content_for_review ;;
        update_run_log (set_initial_generation (snd p)) ;;;
        brainstormed_text <- _run_brainstormer_loop (fst p) ;;
        final_text <- _run_critique_refine_loop brainstormed_text ;;
        reason <- gets (fun s => reason_for_stopping (run_log s)) ;;
        (if String.eqb reason "" then
           update_run_log (set_reason_for_stopping
                             ("Max rounds (" +:+ str_of_Z (max_rounds rc) +:+ ") reached."))
         else ret tt) ;;;
        update_run_log (set_final_output final_text) ;;;
        end_time <- gets (fun s => time_time E (sdk s)) ;;
        update_run_log (set_runtime (end_time - start_time)))
       (fun e =>
          match exn_cls e with
          | TemplateNotFoundError | TimeoutError =>
              update_run_log (set_reason_for_stopping ("Error: " +:+ exn_msg e)) ;;;
              update_run_log (set_final_output "") ;;;
              log_current_run ;;;
              raise e
          | _ =>
              now <- gets (fun s => now_isoformat E (sdk s)) ;;
              update_run_log (set_reason_for_stopping
                                ("[" +:+ now +:+ "] Error during critique/refine loop: "
                                 +:+ exn_msg e)) ;;;
              update_run_log (set_final_output "") ;;;
              raise e
          end))
    log_current_run ;;;
  l <- gets run_log ;;
  ret (final_output l, l).

End LoopController.

(** *** Rounds that run to their end

    [complete_round i text s] is the state machine's CRITIQUE, META_GATE,
    REFINE sequence for round [i + 1] when nothing stops it: the critique
    returns, the gate (when it is enabled) returns a true verdict, and the
    refinement returns.  It is [None] as soon as one of the three calls raises
    or the verdict is false.  It is used to say, of a run, that its first [n]
    rounds went through. *)
Section CompleteRounds.
Context {W : Type} (E : Env W) (self : Loop).

Definition record_critique (c : CritiqueLog) (s : State W) : State W :=
  with_run_log (append_critique c (run_log s)) s.

Definition record_refinement (r : RefinementLog) (s : State W) : State W :=
  with_run_log (append_refinement r (run_log s)) s.

(** The state of a run once [run] has stored the caller's prompt. *)
Definition started (initial_user_prompt : string) (s : State W) : State W :=
  with_run_log (set_original_user_prompt initial_user_prompt (run_log s)) s.

(** What [run] does before the round loop: generation, its log entry, and the
    brainstormer. *)
Definition opening (initial_user_prompt : string) (initial_content_for_review : option string)
    : M W string :=
  p <- _generate E self initial_user_prompt initial_content_for_review ;;
  update_run_log (set_initial_generation (snd p)) ;;;
  _run_brainstormer_loop E self (fst p).

Definition complete_round (i : Z) (current_text : string) (s : State W)
    : option (string * State W) :=
  match _critique E self current_text (i + 1) s with
  | (Raise _, _) => None
  | (Ok (critique_text, critique_log), s1) =>
      match (if disable_meta_critic (run_config self)
             then (Ok (Atom (PyBool true)), record_critique critique_log s1)
             else _is_critique_actionable E self critique_text (record_critique critique_log s1))
      with
      | (Raise _, _) => None
      | (Ok verdict, s2) =>
          if truthy verdict then
            match _refine E self current_text critique_text (i + 1) s2 with
            | (Raise _, _) => None
            | (Ok (refined_response, refinement_log), s3) =>
                Some (refined_response, record_refinement refinement_log s3)
            end
          else None
      end
  end.

Fixpoint complete_rounds (n : nat) (i : Z) (current_text : string) (s : State W)
    : option (string * State W) :=
  match n with
  | O => Some (current_text, s)
  | S n' =>
      match complete_round i current_text s with
      | None => None
      | Some (refined_response, s') => complete_rounds n' (i + 1) refined_response s'
      end
  end.

(** The [try] block of [run]. *)
Definition run_try_block (start_time : Z) (prompt : string) (content : option string)
    : M W unit :=
  p <- _generate E self prompt content ;;
  update_run_log (set_initial_generation (snd p)) ;;;
  brainstormed_text <- _run_brainstormer_loop E self (fst p) ;;
  final_text <- _run_critique_refine_loop E self brainstormed_text ;;
  reason <- gets (fun s => reason_for_stopping (run_log s)) ;;
  (if String.eqb reason "" then
     update_run_log (set_reason_for_stopping
                       ("Max rounds (" +:+ str_of_Z (max_rounds (run_config self))
                        +:+ ") reached."))
   else ret tt) ;;;
  update_run_log (set_final_output final_text) ;;;
  end_time <- gets (fun s => time_time E (sdk s)) ;;
  update_run_log (set_runtime (end_time - start_time)).

(** The run log [run] closes a run with, when the round loop has returned
    [final_text] in state [s]: the reason is the loop's own, or the round
    count when the loop left none. *)
Definition closed_log (start_time : Z) (final_text : string) (s : State W) : RunLog :=
  set_runtime (time_time E (sdk s) - start_time)
    (set_final_output final_text
       (if String.eqb (reason_for_stopping (run_log s)) ""
        then set_reason_for_stopping
               ("Max rounds (" +:+ str_of_Z (max_rounds (run_config self)) +:+ ") reached.")
               (run_log s)
        else run_log s)).

End CompleteRounds.

(** The round numbers [first + 1, ..., first + n]. *)
Definition round_numbers (first : Z) (n : nat) : list Z :=
  map (fun j => (first + Z.of_nat j)%Z) (seq 1 n).

(** ** What a run leaves behind

    The state [run] leaves, written out by the outcome of its [try] block,
    and the ways a pass through the round loop can end. *)

(** What [log_run] writes for an entry: the entry, redacted when the logger is
    set to redact. *)
Definition entry_to_log {W} (E : Env W) (self : Logger) (log_entry : value) : value :=
  if redact self
  then _redact_dict_recursive (str_upper E) (re_sub_ignorecase E)
         (keys_to_redact self) (redaction_patterns self) log_entry
  else log_entry.

Section RunOutcomes.
Context {W : Type} (E : Env W) (self : Loop).

(** The run log the handlers of [run] leave for an exception [e] caught in
    state [s]. *)
Definition failure_log (e : exn) (s : State W) : RunLog :=
  set_final_output ""
    (set_reason_for_stopping
       match exn_cls e with
       | TemplateNotFoundError | TimeoutError => "Error: " +:+ exn_msg e
       | _ => "[" +:+ now_isoformat E (sdk s) +:+ "] Error during critique/refine loop: "
              +:+ exn_msg e
       end
       (run_log s)).

(** The state after [self.logger.log_run(self.run_log)]. *)
Definition write_log (s : State W) : State W :=
  with_files
    (<[log_file (logger self) :=
         default [] (files s !! log_file (logger self))
         ++ [entry_to_log E (logger self) (run_log_value (run_log s))]]> (files s)) s.

End RunOutcomes.

(** The reasons for stopping that the round loop records itself, when round
    [k] ends the loop before it is refined. *)
Inductive early_stop (k : Z) : string -> Prop :=
| stop_not_actionable :
    early_stop k ("Non-actionable critique received in round " +:+ str_of_Z k +:+ ".")
| stop_timeout :
    early_stop k ("Timeout in round " +:+ str_of_Z k)
| stop_error (msg : string) :
    early_stop k ("Error in round " +:+ str_of_Z k +:+ ": " +:+ msg).

(** The three ways a pass through the body of the round loop can end, and
    what each leaves in the run log: [l] is the log before round [i + 1], [l']
    the log after it, [cs] the critique record the round has added, if it got
    that far. *)
Inductive round_end (i : Z) (text : string) (l l' : RunLog) : result flow -> Prop :=
| round_refined (c : CritiqueLog) (r : RefinementLog) :
    critiques l' = critiques l ++ [c] ->
    critique_round c = (i + 1)%Z ->
    refinements l' = refinements l ++ [r] ->
    refinement_round r = (i + 1)%Z ->
    reason_for_stopping l' = reason_for_stopping l ->
    round_end i text l l' (Ok (NextRound (refinement_text r)))
| round_stopped (cs : list CritiqueLog) :
    critiques l' = critiques l ++ cs ->
    map critique_round cs = round_numbers i (length cs) ->
    length cs <= 1 ->
    refinements l' = refinements l ->
    early_stop (i + 1) (reason_for_stopping l') ->
    round_end i text l l' (Ok (Return text))
| round_raised (e : exn) (cs : list CritiqueLog) :
    exn_cls e = ValueError \/ exn_cls e = TemplateNotFoundError ->
    critiques l' = critiques l ++ cs ->
    map critique_round cs = round_numbers i (length cs) ->
    length cs <= 1 ->
    refinements l' = refinements l ->
    reason_for_stopping l' = reason_for_stopping l ->
    round_end i text l l' (Raise e).

(** The text the loop holds after the refinements [rs], having started from
    [text]. *)
Definition text_after (text : string) (rs : list RefinementLog) : string :=
  default text (refinement_text <$> last rs).

(** A computation that does not reach the backend: it records no call of
    [call_gemini] and leaves the world behind the SDK as it is. *)
Definition keeps_backend {W A : Type} (m : M W A) : Prop :=
  forall s, sdk (snd (m s)) = sdk s /\ gemini_calls (snd (m s)) = gemini_calls s.

(** A computation that only reads: it leaves the state as it is. *)
Definition reads_only {W A : Type} (m : M W A) : Prop := forall s, snd (m s) = s.

(** ** The router's other entry points ([core/model_router.py]) *)

Definition with_is_initialized {W} (b : bool) (s : State W) : State W :=
  Build_State (sdk s) b (gemini_calls s) (files s) (run_log s).

(** The router's entry points besides the calls: [initialize] and
    [list_available_models].  What they ask of the SDK is a parameter:
    [genai_configure w key] is [genai.configure(api_key=key)], which returns
    or raises an exception with the given text; [genai_list_models w] is the
    names of [genai.list_models()], or [None] when listing them raises. *)
Section RouterSetup.
Context {W : Type}.
Variable genai_configure : W -> string -> option string * W.
Variable genai_list_models : W -> option (list string) * W.

(** [initialize] *)
Definition initialize (api_key : string) : M W unit :=
  if String.eqb api_key ""
  then raise (Exn ModelAPIError "Google Gemini API key is required for initialization.")
  else
    fun s =>
      match genai_configure (sdk s) api_key with
      | (None, w) => (Ok tt, with_is_initialized true (with_sdk w s))
      | (Some why, w) =>
          (Raise (Exn ModelAPIError
                    ("Failed to configure Google Generative AI client: " +:+ why)),
           with_sdk w s)
      end.

(** [list_available_models] *)
Definition list_available_models : M W (list string) :=
  initialized <- gets is_initialized ;;
  if negb initialized
  then raise (Exn ModelAPIError "Model router has not been initialized. Call initialize() first.")
  else
    fun s =>
      match genai_list_models (sdk s) with
      | (Some names, w) => (Ok names, with_sdk w s)
      | (None, w) => (Ok [], with_sdk w s)
      end.

End RouterSetup.

(** *** What of a configuration reaches the SDK ([_create_generation_config])

    The SDK's [GenerationConfig] object is represented by the keyword
    arguments it is built from.  The members of its two enumerations are
    parameters: [HarmCategory name] is [HarmCategory[name]], with [None] for
    the [KeyError] of a name that is no member. *)

(** The outcome of [Enum[name]] for a JSON value [name]: a member, the
    [KeyError] of a hashable value that names none, or the [TypeError] of a
    value that cannot be hashed (a list or a dictionary). *)
Inductive enum_lookup (A : Type) :=
| Member (a : A)
| NoMember
| Unhashable.
Arguments Member {A} a.
Arguments NoMember {A}.
Arguments Unhashable {A}.

Definition lookup_enum {A : Type} (members : string -> option A) (name : value)
    : enum_lookup A :=
  match name with
  | Str s => match members s with Some a => Member a | None => NoMember end
  | Atom _ => NoMember
  | PyList _ | PyDict _ => Unhashable
  end.

Section GenerationConfig.
Variables category threshold : Type.
Variable HarmCategory : string -> option category.
Variable HarmBlockThreshold : string -> option threshold.

Record ModelKwargs := {
  generation_config : option (list (string * value));
  safety_settings : option (list (category * threshold))
}.

Definition generation_keys : list string :=
  ["temperature"; "max_output_tokens"; "top_k"; "top_p"].

(** [{key: config[key] for key in [...] if key in config}] *)
Definition gen_config_params (config : gmap string value) : list (string * value) :=
  omap (fun key => (fun v => (key, v)) <$> config !! key) generation_keys.

(** The loop over [config["safety_settings"]].  A setting that is no
    dictionary, or lacks one of the two keys, or names no member, is passed
    over; [None] is the [TypeError] of a name that cannot be hashed, which
    the [except (KeyError, AttributeError)] clause does not catch. *)
Fixpoint safety_settings_list (settings : list value)
    : option (list (category * threshold)) :=
  match settings with
  | [] => Some []
  | setting :: rest =>
      match setting with
      | PyDict entries =>
          match dict_get "category" entries, dict_get "threshold" entries with
          | Some c, Some t =>
              match lookup_enum HarmCategory c with
              | Unhashable => None
              | NoMember => safety_settings_list rest
              | Member category_enum =>
                  match lookup_enum HarmBlockThreshold t with
                  | Unhashable => None
                  | NoMember => safety_settings_list rest
                  | Member threshold_enum =>
                      cons (category_enum, threshold_enum) <$> safety_settings_list rest
                  end
              end
          | _, _ => safety_settings_list rest
          end
      | _ => safety_settings_list rest
      end
  end.

(** [_create_generation_config]; [None] is a [TypeError]. *)
Definition _create_generation_config (config : option (gmap string value))
    : option ModelKwargs :=
  let config := default ∅ config in
  let gen_config_params := gen_config_params config in
  let generation_config_obj :=
    match gen_config_params with
    | [] => None
    | _ => Some gen_config_params
    end in
  match (match config !! "safety_settings" with
         | Some (PyList settings) => safety_settings_list settings
         | _ => Some []
         end) with
  | None => None
  | Some safety_settings_list =>
      Some {| generation_config := generation_config_obj;
              safety_settings := match safety_settings_list with
                                 | [] => None
                                 | _ => Some safety_settings_list
                                 end |}
  end.

(** A safety setting that the loop keeps: a dictionary whose [category] and
    [threshold] entries are strings that name members. *)
Definition valid_setting (setting : value) : option (category * threshold) :=
  match setting with
  | PyDict entries =>
      match dict_get "category" entries, dict_get "threshold" entries with
      | Some (Str c), Some (Str t) =>
          match HarmCategory c, HarmBlockThreshold t with
          | Some category_enum, Some threshold_enum => Some (category_enum, threshold_enum)
          | _, _ => None
          end
      | _, _ => None
      end
  | _ => None
  end.

(** No name of a setting is a list or a dictionary. *)
Definition hashable_names (setting : value) : Prop :=
  match setting with
  | PyDict entries =>
      forall key name, key = "category" \/ key = "threshold" ->
        dict_get key entries = Some name ->
        match name with PyList _ | PyDict _ => False | _ => True end
  | _ => True
  end.

End GenerationConfig.
Arguments generation_config {category threshold} _.
Arguments safety_settings {category threshold} _.

(** ** What the redactor leaves of a listed key *)

(** Does every entry under a listed key, at whatever depth the traversal of
    dictionaries and lists reaches it, hold the placeholder of its key? *)
Fixpoint masked_everywhere (upper : string -> string) (keys : list string) (v : value) : bool :=
  match v with
  | PyDict entries =>
      forallb (fun kv =>
                 if bool_decide (fst kv ∈ keys)
                 then match snd kv with
                      | Str s => String.eqb s (mask upper (fst kv))
                      | _ => false
                      end
                 else masked_everywhere upper keys (snd kv))
              entries
  | PyList items => forallb (masked_everywhere upper keys) items
  | Str _ | Atom _ => true
  end.

(** ** The review analyzer ([utils/review_analyzer.py])

    The analyzer reads the log files of earlier reviews.  In its functions
    [None] stands for an exception that leaves the function: a log that is
    not of the shape the tool writes makes the interpreter raise an
    [AttributeError] or a [TypeError]. *)

(** What opening and decoding a log file can give. *)
Inductive log_read :=
| LogDocument (log_data : value)
| LogUndecodable
| LogNotFound
| LogUnreadable.

(** The summary of one log. *)
Record Insight := {
  insight_timestamp : value;
  insight_original_user_prompt : value;
  final_output_summary : string;
  insight_reason_for_stopping : value;
  critiques_summary : list string;
  refinements_summary : list string;
  insight_config_used : value
}.

(** [d.get(key)], with [None] for an absent key. *)
Definition get_or_none (key : string) (entries : list (string * value)) : value :=
  default (Atom PyNone) (dict_get key entries).

(** [text[:n] + "..."]: only a string can be cut and extended by a string. *)
Definition summary (n : nat) (text : value) : option string :=
  match text with
  | Str s => Some (String.substring 0 n s +:+ "...")
  | _ => None
  end.

(** [[c.get("text", "")[:n] + "..." for c in records]].  Iterating over an
    empty dictionary or an empty string gives nothing; any other value that
    is no list either cannot be iterated or yields elements without a [get]. *)
Definition summaries (n : nat) (records : value) : option (list string) :=
  match records with
  | PyList items =>
      mapM (fun c => match c with
                     | PyDict entries => summary n (default (Str "") (dict_get "text" entries))
                     | _ => None
                     end) items
  | PyDict [] => Some []
  | Str "" => Some []
  | _ => None
  end.

(** The dictionary [get_recent_insights] builds from one log. *)
Definition insight (log_data : value) : option Insight :=
  match log_data with
  | PyDict entries =>
      match summary 200 (default (Str "") (dict_get "final_output" entries)),
            summaries 100 (default (PyList []) (dict_get "critiques" entries)),
            summaries 100 (default (PyList []) (dict_get "refinements" entries)) with
      | Some final_output_summary, Some critiques_summary, Some refinements_summary =>
          Some {| insight_timestamp := get_or_none "timestamp" entries;
                  insight_original_user_prompt := get_or_none "original_user_prompt" entries;
                  final_output_summary := final_output_summary;
                  insight_reason_for_stopping := get_or_none "reason_for_stopping" entries;
                  critiques_summary := critiques_summary;
                  refinements_summary := refinements_summary;
                  insight_config_used := get_or_none "config_used" entries |}
      | _, _, _ => None
      end
  | _ => None
  end.

(** [l[:n]] for an integer [n] of either sign. *)
Definition py_prefix {A : Type} (n : Z) (l : list A) : list A :=
  if (n <? 0)%Z then take (length l - Z.to_nat (- n)) l else take (Z.to_nat n) l.

Section ReviewAnalyzer.
(** The files of the log directory that match [log_of_*.json], newest first,
    as [sorted(glob(...), key=mtime, reverse=True)] lists them, and what
    reading each of them gives. *)
Variable log_files : list string.
Variable read_log : string -> log_read.
(** Python's [==] on values that can be dictionary keys, and [str()]. *)
Variable py_eq : value -> value -> bool.
Variable py_str : value -> string.

(** [_load_log_file]: the decoded log, or [None] for a file that is missing or
    no JSON.  Any other failure is not caught. *)
Definition _load_log_file (file_path : string) : option (option value) :=
  match read_log file_path with
  | LogDocument log_data => Some (Some log_data)
  | LogUndecodable | LogNotFound => Some None
  | LogUnreadable => None
  end.

(** The loop of [get_recent_insights]. *)
Fixpoint insights_of (files : list string) : option (list Insight) :=
  match files with
  | [] => Some []
  | log_file :: rest =>
      match _load_log_file log_file with
      | None => None
      | Some None => insights_of rest
      | Some (Some log_data) =>
          if truthy log_data then
            match insight log_data with
            | None => None
            | Some i => cons i <$> insights_of rest
            end
          else insights_of rest
      end
  end.

(** [get_recent_insights] *)
Definition get_recent_insights (num_logs : Z) : option (list Insight) :=
  insights_of (py_prefix num_logs log_files).

(** [stop_reasons_count[reason] = stop_reasons_count.get(reason, 0) + 1] on a
    dictionary kept as its entries in insertion order. *)
Fixpoint count_up (reason : value) (counts : list (value * nat)) : list (value * nat) :=
  match counts with
  | [] => [(reason, 1)]
  | (k, n) :: rest =>
      if py_eq k reason then (k, S n) :: rest else (k, n) :: count_up reason rest
  end.

(** The reasons that are counted: those that are true.  A list or a
    dictionary cannot be a key. *)
Fixpoint counted_reasons (insights : list Insight) : option (list value) :=
  match insights with
  | [] => Some []
  | i :: rest =>
      let reason := insight_reason_for_stopping i in
      if truthy reason then
        match reason with
        | PyList _ | PyDict _ => None
        | _ => cons reason <$> counted_reasons rest
        end
      else counted_reasons rest
  end.

Definition stop_reasons_count (reasons : list value) : list (value * nat) :=
  fold_left (fun counts reason => count_up reason counts) reasons [].

(** [max(counts, key=...)]: the first key among those with the greatest
    count. *)
Fixpoint max_by_count (best : value * nat) (rest : list (value * nat)) : value :=
  match rest with
  | [] => fst best
  | (k, n) :: rest' =>
      if (snd best <? n)%nat then max_by_count (k, n) rest' else max_by_count best rest'
  end.

Definition most_common_stop_reason (counts : list (value * nat)) : option value :=
  match counts with
  | [] => None
  | first :: rest => Some (max_by_count first rest)
  end.

(** The two nested loops over the critique summaries. *)
Definition short_critiques_found (insights : list Insight) : bool :=
  existsb (fun i => existsb (fun critique_summary => (String.length critique_summary <? 50)%nat)
                      (critiques_summary i)) insights.

(** An f-string field. *)
Definition formatted (v : value) : string :=
  match v with
  | Str s => s
  | _ => py_str v
  end.

(** [analyze_for_tool_improvement_suggestions] *)
Definition analyze_for_tool_improvement_suggestions (num_logs : Z) : option string :=
  match get_recent_insights num_logs with
  | None => None
  | Some [] => Some "No past review logs found for analysis."
  | Some insights =>
      match counted_reasons insights with
      | None => None
      | Some reasons =>
      let suggestions :=
        match most_common_stop_reason (stop_reasons_count reasons) with
        | Some reason =>
            ["- The most common reason for stopping in recent runs was: '" +:+ formatted reason
             +:+ "'. Consider ways to address this, e.g., by adjusting `max_rounds` or "
             +:+ "`stop_threshold`, or improving relevant role prompts."]
        | None => []
        end
        ++ (if short_critiques_found insights
            then ["- Some critiques appear to be very short. Review the 'meta_critic' prompt "
                  +:+ "or critic role prompts to encourage more detailed and actionable "
                  +:+ "feedback."]
            else []) in
      match suggestions with
      | [] => Some "Analysis of recent logs did not reveal immediate tool improvement suggestions."
      | _ =>
          Some ("Based on recent review logs, here are some potential areas for tool improvement:"
                +:+ nl +:+ join nl suggestions)
      end
      end
  end.

End ReviewAnalyzer.

(** How often a reason occurs in a list, up to [==]. *)
Definition occurrences (py_eq : value -> value -> bool) (reason : value)
    (reasons : list value) : nat :=
  length (filter (fun x => py_eq reason x = true) reasons).

(** The keys of a dictionary are pairwise different under [==]. *)
Fixpoint pairwise_different (py_eq : value -> value -> bool) (keys : list value) : Prop :=
  match keys with
  | [] => True
  | k :: rest => Forall (fun k' => py_eq k k' = false) rest /\ pairwise_different py_eq rest
  end.

(** The count dictionary after the reasons [seen]: its keys are pairwise
    different, each is one of the reasons and is mapped to the number of its
    occurrences, and every reason is counted under a key that equals it. *)
Definition counts_of (py_eq : value -> value -> bool) (seen : list value)
    (counts : list (value * nat)) : Prop :=
  pairwise_different py_eq (map fst counts) /\
  Forall (fun kn => snd kn = occurrences py_eq (fst kn) seen /\ fst kn ∈ seen) counts /\
  (forall x, x ∈ seen -> exists k n, (k, n) ∈ counts /\ py_eq k x = true).

(** ** The run configuration ([utils/config.py])

    A run configuration is assembled from the run arguments, the
    [critique_refine_config] and [logging_config] sections of the loaded
    configuration and the strategies file.  The three are dictionaries; what
    they hold under a key is any JSON value.  Where a value is used as a file
    name, or becomes a field of [RunConfig], it has to be of the type the
    field is declared with: for a value of another type the functions below
    answer [None] and follow the interpreter no further (it raises a
    [TypeError] at once, or carries the value on into the loop). *)

(** [s.split(sep)] for a separator of one character. *)
Fixpoint split_on (sep : ascii) (s : string) : list string :=
  match s with
  | EmptyString => [""]
  | String c s' =>
      if Ascii.eqb c sep then "" :: split_on sep s'
      else match split_on sep s' with
           | [] => [String c ""]
           | word :: words => String c word :: words
           end
  end.

(** [a or b] *)
Definition py_or (a b : value) : value := if truthy a then a else b.

(** The run arguments, with the keys the two callers of [build_run_config]
    fill in. *)
Record RunArgs := {
  arg_strategy : option string;
  arg_critic_role : option string;
  arg_refiner_role : option string;
  arg_multi_critic_roles : option string;
  arg_redact_logs : bool;
  arg_dry_run : bool
}.

(** What [prepare_run_environment] returns. *)
Record RunEnvironment := {
  env_config : gmap string value;
  env_roles : gmap string string
}.

(** Reading a value at the type of a [RunConfig] field. *)
Definition as_str (v : value) : option string :=
  match v with Str s => Some s | _ => None end.

Definition as_int (v : value) : option Z :=
  match v with Atom (PyInt z) => Some z | _ => None end.

Definition as_bool (v : value) : option bool :=
  match v with Atom (PyBool b) => Some b | _ => None end.

Definition as_optional_str (v : value) : option (option string) :=
  match v with
  | Atom PyNone => Some None
  | Str s => Some (Some s)
  | _ => None
  end.

Definition as_optional_strs (v : value) : option (option (list string)) :=
  match v with
  | Atom PyNone => Some None
  | PyList items => Some <$> mapM as_str items
  | _ => None
  end.

Section RunConfiguration.
Context {W : Type} (E : Env W).
(** [get_critique_refine_config()], [get_strategies_config_all()] and
    [get_logging_config()] *)
Variable critique_refine_config : gmap string value.
Variable strategies : gmap string value.
Variable logging_config : gmap string value.
(** [str()] of a value that is no string, [datetime.now().strftime("%Y%m%d_%H%M%S")],
    and [str(Path(directory) / name)] *)
Variable py_str : value -> string.
Variable now_stamp : W -> string.
Variable path_join : string -> string -> string.

(** [[f"{role}.txt" for role in roles]] *)
Definition role_files (roles : list value) : value :=
  PyList (map (fun role => Str (match role with Str s => s | _ => py_str role end +:+ ".txt"))
            roles).

(** What a strategy that was found changes in the configuration. *)
Definition apply_strategy (strategy_config : value) (current_config : gmap string value)
    : gmap string value :=
  match strategy_config with
  | PyList roles =>
      delete "default_critic_role_prompt_file"
        (<["multi_critic_roles" := role_files roles]> current_config)
  | PyDict entries =>
      let current_config :=
        match dict_get "roles" entries with
        | Some (PyList roles) =>
            delete "default_critic_role_prompt_file"
              (<["multi_critic_roles" := role_files roles]> current_config)
        | _ => current_config
        end in
      let current_config :=
        match dict_get "default_refiner_role_prompt_file" entries with
        | Some file_name => <["default_refiner_role_prompt_file" := file_name]> current_config
        | None => current_config
        end in
      delete "roles" ((list_to_map entries : gmap string value) ∪ current_config)
  | _ => current_config
  end.

(** The configuration [prepare_run_environment] arrives at before it loads
    the role templates. *)
Definition merged_config (run_args : RunArgs) : result (gmap string value) :=
  let current_config :=
    <["default_refiner_role_prompt_file" :=
        default (Atom PyNone) (critique_refine_config !! "default_refiner_role")]>
      (<["default_critic_role_prompt_file" :=
           default (Atom PyNone) (critique_refine_config !! "default_critic_role")]>
         critique_refine_config) in
  match
    match nonempty (arg_strategy run_args) with
    | Some strategy =>
        let strategy_config := default (Atom PyNone) (strategies !! strategy) in
        if truthy strategy_config then Ok (apply_strategy strategy_config current_config)
        else Raise (Exn ValueError
                      ("Strategy '" +:+ strategy +:+ "' not found in strategies.yaml."))
    | None => Ok current_config
    end
  with
  | Raise e => Raise e
  | Ok current_config =>
      let current_config :=
        match nonempty (arg_critic_role run_args) with
        | Some critic_role =>
            delete "multi_critic_roles"
              (<["default_critic_role_prompt_file" := Str critic_role]> current_config)
        | None => current_config
        end in
      let current_config :=
        match nonempty (arg_refiner_role run_args) with
        | Some refiner_role =>
            <["default_refiner_role_prompt_file" := Str refiner_role]> current_config
        | None => current_config
        end in
      let current_config :=
        match nonempty (arg_multi_critic_roles run_args) with
        | Some multi_critic_roles =>
            delete "default_critic_role_prompt_file"
              (<["multi_critic_roles" := PyList (map Str (split_on "," multi_critic_roles))]>
                 current_config)
        | None => current_config
        end in
      Ok current_config
  end.

(** [load_role_template] on a configuration value. *)
Definition load_named_template (file_name : value) : M W (option string) :=
  match file_name with
  | Str s => template <- load_role_template E s ;; ret (Some template)
  | _ => ret None
  end.

(** The [try] block that loads the role templates. *)
Definition load_roles (current_config : gmap string value) : M W (option (gmap string string)) :=
  let critic_role_file :=
    py_or (default (Atom PyNone) (current_config !! "default_critic_role_prompt_file"))
          (default (Str "critic.txt") (critique_refine_config !! "default_critic_role")) in
  let refiner_role_file :=
    py_or (default (Atom PyNone) (current_config !! "default_refiner_role_prompt_file"))
          (default (Str "refiner.txt") (critique_refine_config !! "default_refiner_role")) in
  critic_template <- load_named_template critic_role_file ;;
  match critic_template with
  | None => ret None
  | Some critic_template =>
      refiner_template <- load_named_template refiner_role_file ;;
      match refiner_template with
      | None => ret None
      | Some refiner_template =>
          let roles := <["refiner_template" := refiner_template]>
                         (<["critic_template" := critic_template]> ∅) in
          let meta_critic_role :=
            default (Atom PyNone) (critique_refine_config !! "meta_critic_role") in
          if truthy meta_critic_role then
            meta_critic_template <- load_named_template meta_critic_role ;;
            match meta_critic_template with
            | None => ret None
            | Some meta_critic_template =>
                ret (Some (<["meta_critic_template" := meta_critic_template]> roles))
            end
          else ret (Some roles)
      end
  end.

(** [prepare_run_environment] *)
Definition prepare_run_environment (run_args : RunArgs) : M W (option RunEnvironment) :=
  match merged_config run_args with
  | Raise e => raise e
  | Ok current_config =>
      roles <-
        try_except (load_roles current_config)
          (fun e =>
             match exn_cls e with
             | TemplateNotFoundError | OSError =>
                 raise (Exn ValueError ("Error loading role template: " +:+ exn_msg e))
             | _ => raise e
             end) ;;
      match roles with
      | None => ret None
      | Some roles => ret (Some {| env_config := current_config; env_roles := roles |})
      end
  end.

(** The fields of the [RunConfig] that are read from a dictionary. *)
Definition typed_run_config (current_config : gmap string value)
    (log_file_path : string) (redact_logs : bool) (full_config : gmap string value)
    (roles : gmap string string) (dry_run : bool) : option RunConfig :=
  let get key default_value := default default_value (current_config !! key) in
  match as_str (get "generator_model" (Str "gemini-1.5-flash")),
        as_str (get "critic_model" (Str "gemini-1.5-flash")),
        as_str (get "refiner_model" (Str "gemini-1.5-flash")),
        as_str (get "meta_critic_model" (Str "gemini-1.5-flash")),
        as_str (get "fallback_model" (Str "gemini-1.5-flash")),
        as_int (get "max_rounds" (Atom (PyInt 3))),
        as_int (get "stop_on_no_actionable_critique_threshold" (Atom (PyInt 50))),
        as_optional_str (get "default_critic_role_prompt_file" (Atom PyNone)),
        as_optional_str (get "default_refiner_role_prompt_file" (Atom PyNone)),
        as_optional_strs (get "multi_critic_roles" (Atom PyNone)),
        as_bool (get "disable_meta_critic" (Atom (PyBool false)))
  with
  | Some generator_model, Some critic_model, Some refiner_model, Some meta_critic_model,
    Some fallback_model, Some max_rounds, Some stop_threshold,
    Some default_critic_role_prompt_file, Some default_refiner_role_prompt_file,
    Some multi_critic_roles, Some disable_meta_critic =>
      Some {| generator_model := generator_model;
              critic_model := critic_model;
              refiner_model := refiner_model;
              meta_critic_model := meta_critic_model;
              fallback_model := fallback_model;
              max_rounds := max_rounds;
              stop_threshold := stop_threshold;
              log_file_path := log_file_path;
              redact_logs := redact_logs;
              full_config := full_config;
              roles := roles;
              default_critic_role_prompt_file := default_critic_role_prompt_file;
              default_refiner_role_prompt_file := default_refiner_role_prompt_file;
              multi_critic_roles := multi_critic_roles;
              disable_meta_critic := disable_meta_critic;
              dry_run := dry_run |}
  | _, _, _, _, _, _, _, _, _, _, _ => None
  end.

(** [build_run_config].  The log directory is taken to exist or to be
    created without error. *)
Definition build_run_config (run_args : RunArgs) (full_config : gmap string value)
    : M W (option RunConfig) :=
  run_env <- prepare_run_environment run_args ;;
  match run_env with
  | None => ret None
  | Some run_env =>
      match as_str (default (Str "logs") (logging_config !! "log_dir")),
            (if arg_redact_logs run_args then Some true
             else as_bool (default (Atom (PyBool false))
                             (logging_config !! "redact_sensitive_data"))) with
      | Some log_dir, Some redact_logs =>
          timestamp <- gets (fun s => now_stamp (sdk s)) ;;
          let log_file_name := "run_" +:+ timestamp +:+ ".jsonl" in
          ret (typed_run_config (env_config run_env) (path_join log_dir log_file_name)
                 redact_logs full_config (env_roles run_env) (arg_dry_run run_args))
      | _, _ => ret None
      end
  end.

End RunConfiguration.

(** *** Loading a strategy ([CritiqueRefineLoop._load_strategy]) *)

(** What opening and parsing [strategies.yaml] in the working directory gives. *)
Inductive strategies_read :=
| StrategiesDocument (data : value)
| StrategiesNotFound
| StrategiesMalformed.

(** [_load_strategy]: what the file holds under the strategy's name, [None]
    when it holds nothing or cannot be read.  Only a dictionary has a [get]. *)
Definition _load_strategy (local_strategies : strategies_read) (strategy_name : option string)
    : result value :=
  match nonempty strategy_name with
  | None => Ok (Atom PyNone)
  | Some strategy_name =>
      match local_strategies with
      | StrategiesNotFound | StrategiesMalformed => Ok (Atom PyNone)
      | StrategiesDocument (PyDict entries) =>
          match default (PyDict []) (dict_get "strategies" entries) with
          | PyDict named => Ok (default (Atom PyNone) (dict_get strategy_name named))
          | other =>
              Raise (Exn AttributeError
                       ("'" +:+ type_name other +:+ "' object has no attribute 'get'"))
          end
      | StrategiesDocument other =>
          Raise (Exn AttributeError
                   ("'" +:+ type_name other +:+ "' object has no attribute 'get'"))
      end
  end.

(** A loaded strategy at the type the loop is modelled for: role names are
    strings and a round count is an integer.  A value of another shape is
    answered with [None]. *)
Definition typed_strategy (v : value) : option (option Strategy) :=
  match v with
  | PyList items => (fun names => Some (StrategyList names)) <$> mapM as_str items
  | PyDict entries =>
      match
        match dict_get "roles" entries with
        | None => Some None
        | Some (PyList items) => Some <$> mapM as_str items
        | Some _ => None
        end,
        match dict_get "max_rounds" entries with
        | None => Some None
        | Some (Atom (PyInt z)) => Some (Some z)
        | Some _ => None
        end
      with
      | Some role_names, Some rounds =>
          Some (Some (StrategyDict role_names rounds
                        (filter (fun kv => fst kv <> "roles" /\ fst kv <> "max_rounds") entries)))
      | _, _ => None
      end
  | other => if truthy other then None else Some None
  end.

(** The condition under which [_run_brainstormer_loop] asks the brainstormer:
    the strategy names it among its roles. *)
Definition brainstormer_named (st : option Strategy) : bool :=
  match st with
  | Some (StrategyList names) => bool_decide ("brainstormer" ∈ names)
  | Some (StrategyDict role_names _ _) => bool_decide ("brainstormer" ∈ default [] role_names)
  | None => false
  end.

(** ** The server's tool ([server.py]) *)

Record CritiqueRefineResult := {
  final_content : string;
  run_log_note : string;
  error : option string
}.

(** [run_config.max_rounds = iterations] *)
Definition with_max_rounds (iterations : Z) (rc : RunConfig) : RunConfig :=
  {| generator_model := generator_model rc;
     critic_model := critic_model rc;
     refiner_model := refiner_model rc;
     meta_critic_model := meta_critic_model rc;
     fallback_model := fallback_model rc;
     max_rounds := iterations;
     stop_threshold := stop_threshold rc;
     log_file_path := log_file_path rc;
     redact_logs := redact_logs rc;
     full_config := full_config rc;
     roles := roles rc;
     default_critic_role_prompt_file := default_critic_role_prompt_file rc;
     default_refiner_role_prompt_file := default_refiner_role_prompt_file rc;
     multi_critic_roles := multi_critic_roles rc;
     disable_meta_critic := disable_meta_critic rc;
     dry_run := dry_run rc |}.

(** The [args_dict] of the tool. *)
Definition tool_args (strategy_name : string) (custom_roles : option (list string)) : RunArgs :=
  {| arg_strategy := Some strategy_name;
     arg_critic_role := None;
     arg_refiner_role := None;
     arg_multi_critic_roles :=
       match custom_roles with
       | Some (role :: more) => Some (join "," (role :: more))
       | _ => None
       end;
     arg_redact_logs := false;
     arg_dry_run := false |}.

Section Server.
Context {W : Type} (E : Env W).
Variable critique_refine_config : gmap string value.
Variable strategies : gmap string value.
Variable logging_config : gmap string value.
Variable py_str : value -> string.
Variable now_stamp : W -> string.
Variable path_join : string -> string -> string.
(** [strategies.yaml] in the working directory, [os.getenv("GEMINI_API_KEY")]
    and the configuration the server loaded when it started. *)
Variable local_strategies : strategies_read.
Variable gemini_api_key : option string.
Variable full_config : gmap string value.

(** [CritiqueRefineLoop(run_config, strategy=strategy_name)] followed by
    [loop.run(initial_user_prompt=content_to_improve)]: the new instance
    starts from a run log of its own. *)
Definition run_new_loop (run_config : RunConfig) (strategy_name content_to_improve : string)
    : M W (option (string * RunLog)) :=
  match _load_strategy local_strategies (Some strategy_name) with
  | Raise e => raise e
  | Ok loaded =>
      match typed_strategy loaded with
      | None => ret None
      | Some strategy =>
          now <- gets (fun s => now_isoformat E (sdk s)) ;;
          modify (with_run_log (initial_run_log now run_config)) ;;;
          p <- run E (CritiqueRefineLoop_init run_config strategy) content_to_improve None ;;
          ret (Some p)
      end
  end.

(** The tool [run_critique_refine_loop]. *)
Definition run_critique_refine_loop (content_to_improve strategy_name : string)
    (custom_roles : option (list string)) (iterations : option Z)
    : M W (option CritiqueRefineResult) :=
  match nonempty gemini_api_key with
  | None =>
      ret (Some {| final_content := "";
                   run_log_note := "";
                   error := Some "GEMINI_API_KEY environment variable not set." |})
  | Some _ =>
      run_config <-
        build_run_config E critique_refine_config strategies logging_config py_str now_stamp
          path_join (tool_args strategy_name custom_roles) full_config ;;
      match run_config with
      | None => ret None
      | Some run_config =>
          let run_config :=
            match iterations with
            | Some n => with_max_rounds n run_config
            | None => run_config
            end in
          try_except
            (p <- run_new_loop run_config strategy_name content_to_improve ;;
             match p with
             | None => ret None
             | Some p =>
                 ret (Some {| final_content := fst p;
                              run_log_note := "Critique-Refine loop completed successfully. "
                                              +:+ "Check logs for details.";
                              error := None |})
             end)
            (fun e => ret (Some {| final_content := ""; run_log_note := "";
                                   error := Some (exn_msg e) |}))
      end
  end.

End Server.


(** ** Test doubles

    Concrete stand-ins for what the environment leaves open, used to run the
    engine on examples. *)
Module Doubles.

Definition upper_char (c : ascii) : ascii :=
  let n := nat_of_ascii c in
  if (97 <=? n)%nat && (n <=? 122)%nat then ascii_of_nat (n - 32) else c.

Definition lower_char (c : ascii) : ascii :=
  let n := nat_of_ascii c in
  if (65 <=? n)%nat && (n <=? 90)%nat then ascii_of_nat (n + 32) else c.

(** [str.upper] on ASCII text. *)
Fixpoint ascii_upper (s : string) : string :=
  match s with
  | EmptyString => EmptyString
  | String c s' => String (upper_char c) (ascii_upper s')
  end.

(** Does [p] start [s], letter case apart? *)
Fixpoint iprefix (p s : string) : bool :=
  match p, s with
  | EmptyString, _ => true
  | String a p', String b s' => Ascii.eqb (lower_char a) (lower_char b) && iprefix p' s'
  | String _ _, EmptyString => false
  end.

(** [re.sub(pattern, replacement, text, flags=re.IGNORECASE)] for a pattern
    and a replacement that are plain ASCII text without metacharacters. *)
Definition re_sub_literal (pattern replacement text : string) : string :=
  replace_scan iprefix pattern replacement 0 text.

(** [json.loads] on the five documents the examples feed it; any other text is
    answered as undecodable. *)
Definition json_loads_small (text : string) : option value :=
  if String.eqb text "null" then Some (Atom PyNone)
  else if String.eqb text "true" then Some (Atom (PyBool true))
  else if String.eqb text "false" then Some (Atom (PyBool false))
  else if String.eqb text "[]" then Some (PyList [])
  else if String.eqb text "{}" then Some (PyDict [])
  else None.

(** A backend that plays back a script: each call takes the next canned
    result, and fails once the script is used up.  Its clock advances by one
    tick with every call. *)
Definition scripted_env (config : MainConfig) (prompts : string -> prompt_file)
    (picks : list nat) : Env (list sdk_result) :=
  {| generate_content := fun w _ _ _ _ =>
       match w with
       | [] => (SdkRaise OtherFailure, [])
       | r :: w' => (r, w')
       end;
     generate_content_untyped := fun w _ _ _ _ =>
       match w with
       | [] => (SdkRaise OtherFailure, [])
       | r :: w' => (r, w')
       end;
     format_value := fun v => "<" +:+ type_name v +:+ ">";
     get_config := config;
     prompts_dir := "prompts";
     read_prompt := prompts;
     json_loads := json_loads_small;
     str_upper := ascii_upper;
     re_sub_ignorecase := re_sub_literal;
     now_isoformat := fun _ => "2024-01-01T00:00:00";
     time_time := fun w => (- Z.of_nat (length w))%Z;
     completion_picks := fun _ => picks |}.

(** A backend whose answer is determined by the request: the system prompt,
    then the prompt. *)
Definition echo_env (config : MainConfig) (prompts : string -> prompt_file)
    (picks : list nat) : Env unit :=
  {| generate_content := fun w _ system_prompt prompt _ =>
       (SdkText (default "" system_prompt +:+ ": " +:+ prompt), w);
     generate_content_untyped := fun w _ system_prompt prompt _ =>
       (SdkText (default "" system_prompt +:+ ": " +:+ prompt), w);
     format_value := fun v => "<" +:+ type_name v +:+ ">";
     get_config := config;
     prompts_dir := "prompts";
     read_prompt := prompts;
     json_loads := json_loads_small;
     str_upper := ascii_upper;
     re_sub_ignorecase := re_sub_literal;
     now_isoformat := fun _ => "2024-01-01T00:00:00";
     time_time := fun _ => 0%Z;
     completion_picks := fun _ => picks |}.

Definition no_config : MainConfig :=
  {| cfg_models := ∅; cfg_roles := ∅; cfg_generation := ∅ |}.

(** Every prompt file exists and holds its own name. *)
Definition all_prompts (file_name : string) : prompt_file := Found file_name.

(** Every prompt file exists but [style.txt]. *)
Definition no_style_prompt (file_name : string) : prompt_file :=
  if String.eqb file_name "style.txt" then Missing else Found file_name.

(** A run configuration with one critic role, [critic.txt]. *)
Definition demo_config (rounds : Z) (no_meta_critic dry : bool) : RunConfig :=
  {| generator_model := "gen-model";
     critic_model := "critic-model";
     refiner_model := "refiner-model";
     meta_critic_model := "meta-model";
     fallback_model := "gen-model";
     max_rounds := rounds;
     stop_threshold := 50;
     log_file_path := "logs/run.jsonl";
     redact_logs := false;
     full_config := ∅;
     roles := <["refiner_template" := "refine"]> (<["meta_critic_template" := "judge"]> ∅);
     default_critic_role_prompt_file := Some "critic.txt";
     default_refiner_role_prompt_file := Some "refiner.txt";
     multi_critic_roles := None;
     disable_meta_critic := no_meta_critic;
     dry_run := dry |}.

(** The same with several critic roles. *)
Definition multi_critic_config (critic_roles : list string) : RunConfig :=
  {| generator_model := "gen-model";
     critic_model := "critic-model";
     refiner_model := "refiner-model";
     meta_critic_model := "meta-model";
     fallback_model := "gen-model";
     max_rounds := 1;
     stop_threshold := 50;
     log_file_path := "logs/run.jsonl";
     redact_logs := false;
     full_config := ∅;
     roles := ∅;
     default_critic_role_prompt_file := None;
     default_refiner_role_prompt_file := None;
     multi_critic_roles := Some critic_roles;
     disable_meta_critic := true;
     dry_run := false |}.

End Doubles.

(** ** Sample inputs *)

(** A small store: a dictionary with a sensitive key and a nested list. *)
Definition sample_heap : list Store.obj :=
  [Store.OList [Store.RStr "alpha"; Store.RAtom (PyInt 7)];
   Store.ODict [("api_key", Store.RStr "k-123"); ("items", Store.RObj 0)]].

Definition sample_tree : value :=
  PyDict [("api_key", Str "k-123"); ("items", PyList [Str "alpha"; Atom (PyInt 7)])].

(** A routing table for the examples: the critic role has a model of its own,
    and a fallback model is configured. *)
Definition routed_config : MainConfig :=
  {| cfg_models := <["default_model" := Str "base-model"]>
                     (<["fallback_model" := Str "backup-model"]> ∅);
     cfg_roles := <["critic" := <["model" := Str "critic-pro"]> ∅]> ∅;
     cfg_generation := <["temperature" := Atom (PyInt 1)]> ∅ |}.

(** The same routing table with a fallback model that is a number. *)
Definition untyped_fallback_config : MainConfig :=
  {| cfg_models := <["default_model" := Str "base-model"]>
                     (<["fallback_model" := Atom (PyInt 7)]> ∅);
     cfg_roles := <["critic" := <["model" := Str "critic-pro"]> ∅]> ∅;
     cfg_generation := <["temperature" := Atom (PyInt 1)]> ∅ |}.

(** A scripted backend behind the routing table, with an initialised router
    and no files. *)
Definition routed_env : Env (list sdk_result) :=
  Doubles.scripted_env routed_config Doubles.all_prompts [].

Definition routed_state (script : list sdk_result) : State (list sdk_result) :=
  fresh_state routed_env script true ∅ (Doubles.demo_config 1 true false).

Definition untyped_fallback_env : Env (list sdk_result) :=
  Doubles.scripted_env untyped_fallback_config Doubles.all_prompts [].

(** Three critic roles, a backend that answers each role with its own prompt
    file's text, and a scheduler that lets the last call complete first. *)
Definition three_critics : Loop :=
  CritiqueRefineLoop_init
    (Doubles.multi_critic_config ["style.txt"; "logic.txt"; "facts.txt"]) None.

Definition out_of_order_env : Env unit :=
  Doubles.echo_env Doubles.no_config Doubles.all_prompts [2; 0].

(** A scripted backend with every prompt file. *)
Definition plain_env : Env (list sdk_result) :=
  Doubles.scripted_env Doubles.no_config Doubles.all_prompts [].

(** The same backend where the prompt file of the [style] role is missing,
    and a loop with the two critic roles [logic] and [style]. *)
Definition missing_prompt_env : Env (list sdk_result) :=
  Doubles.scripted_env Doubles.no_config Doubles.no_style_prompt [].

Definition two_critics : Loop :=
  CritiqueRefineLoop_init (Doubles.multi_critic_config ["logic.txt"; "style.txt"]) None.

(** Two rounds, no meta-critic; three rounds at most, with the meta-critic. *)
Definition two_round_loop : Loop :=
  CritiqueRefineLoop_init (Doubles.demo_config 2 true false) None.

Definition gated_loop : Loop :=
  CritiqueRefineLoop_init (Doubles.demo_config 3 false false) None.

(** The end-to-end scenario: the generator writes [draft], the critic always
    answers [needs more detail], the refiner appends [ [refined]]. *)
Definition two_round_script : list sdk_result :=
  [SdkText "draft";
   SdkText "needs more detail"; SdkText "draft [refined]";
   SdkText "needs more detail"; SdkText "draft [refined] [refined]"].

(** The meta-critic finds the first critique actionable and the second not:
    the run ends in round 2 with the text of round 1's refinement. *)
Definition gated_script : list sdk_result :=
  [SdkText "draft";
   SdkText "tighten the opening"; SdkText "ACTIONABLE"; SdkText "draft, tightened";
   SdkText "reads well"; SdkText "nothing left to do"].

(** *** Further sample inputs *)

(** A loop for which no critic role is configured at all. *)
Definition no_critic_loop : Loop :=
  CritiqueRefineLoop_init (Doubles.multi_critic_config []) None.

(** A dry run of the two-round loop, and of the gated loop. *)
Definition dry_loop : Loop :=
  CritiqueRefineLoop_init (Doubles.demo_config 2 true true) None.

Definition dry_gated_loop : Loop :=
  CritiqueRefineLoop_init (Doubles.demo_config 3 false true) None.

(** A loop whose strategy is a mapping that names no roles. *)
Definition roleless_strategy_loop : Loop :=
  CritiqueRefineLoop_init (Doubles.demo_config 2 true false)
    (Some (StrategyDict None (Some 2%Z) [])).

(** A routing table in which the [critic] role is listed without a model. *)
Definition modelless_role_config : MainConfig :=
  {| cfg_models := <["default_model" := Str "base-model"]> ∅;
     cfg_roles := <["critic" := <["temperature" := Atom (PyInt 0)]> ∅]> ∅;
     cfg_generation := ∅ |}.

Definition modelless_role_env : Env (list sdk_result) :=
  Doubles.scripted_env modelless_role_config Doubles.all_prompts [].




(** A run configuration that asks for redacted logs but carries no
    [redaction_config]. *)
Definition redacting_config : RunConfig :=
  {| generator_model := "gen-model";
     critic_model := "critic-model";
     refiner_model := "refiner-model";
     meta_critic_model := "meta-model";
     fallback_model := "gen-model";
     max_rounds := 1;
     stop_threshold := 50;
     log_file_path := "logs/run.jsonl";
     redact_logs := true;
     full_config := <["models" := PyDict []]> ∅;
     roles := ∅;
     default_critic_role_prompt_file := Some "critic.txt";
     default_refiner_role_prompt_file := None;
     multi_critic_roles := None;
     disable_meta_critic := true;
     dry_run := false |}.

(** Two enumerations for the examples. *)
Definition category_double (name : string) : option nat :=
  if String.eqb name "HARM_CATEGORY_HARASSMENT" then Some 7
  else if String.eqb name "HARM_CATEGORY_HATE_SPEECH" then Some 8
  else None.

Definition threshold_double (name : string) : option nat :=
  if String.eqb name "BLOCK_NONE" then Some 4
  else if String.eqb name "BLOCK_ONLY_HIGH" then Some 3
  else None.

(** A merged configuration as [call_model] passes it on: sampling parameters
    among routing keys, and three safety settings of which the second names
    no category. *)
Definition sample_effective_config : gmap string value :=
  <["temperature" := Atom (PyInt 0)]>
    (<["fallback_model" := Str "backup-model"]>
       (<["top_k" := Atom (PyInt 40)]>
          (<["safety_settings" :=
               PyList [PyDict [("category", Str "HARM_CATEGORY_HARASSMENT");
                               ("threshold", Str "BLOCK_NONE")];
                       PyDict [("category", Str "HARM_CATEGORY_UNHEARD_OF");
                               ("threshold", Str "BLOCK_NONE")];
                       PyDict [("category", Str "HARM_CATEGORY_HATE_SPEECH");
                               ("threshold", Str "BLOCK_ONLY_HIGH")]]]> ∅))).

(** Three logs of earlier reviews: two stopped at the first round, one ran
    its two rounds; the critique of the second is short. *)
Definition sample_logs (file_name : string) : log_read :=
  if String.eqb file_name "log_of_a.json" then
    LogDocument
      (PyDict [("final_output", Str "final text");
               ("reason_for_stopping", Str "Non-actionable critique received in round 1.");
               ("critiques",
                PyList [PyDict [("round", Atom (PyInt 1));
                                ("text",
                                 Str "The opening paragraph repeats the title and the summary.")]])])
  else if String.eqb file_name "log_of_b.json" then
    LogDocument
      (PyDict [("final_output", Str "another text");
               ("reason_for_stopping", Str "Max rounds (2) reached.");
               ("critiques", PyList [PyDict [("text", Str "Fine.")]])])
  else if String.eqb file_name "log_of_c.json" then
    LogDocument
      (PyDict [("final_output", Str "a third text");
               ("reason_for_stopping", Str "Non-actionable critique received in round 1.")])
  else if String.eqb file_name "log_of_d.json" then LogUndecodable
  else LogNotFound.

(** Equality of reasons for the examples: strings are compared as strings,
    and the values that are no strings are not told apart. *)
Definition same_reason (a b : value) : bool :=
  match a, b with
  | Str s, Str t => String.eqb s t
  | Str _, _ | _, Str _ => false
  | _, _ => true
  end.

(** A configuration for the examples: its [critique_refine_config] section,
    the strategies file and the [logging_config] section. *)
Definition critique_refine_config_double : gmap string value :=
  <["default_critic_role" := Str "critic.txt"]>
    (<["default_refiner_role" := Str "refiner.txt"]>
       (<["max_rounds" := Atom (PyInt 2)]>
          (<["disable_meta_critic" := Atom (PyBool true)]> ∅))).

Definition strategies_double : gmap string value :=
  <["deep" := PyList [Str "logic"; Str "style"]]> ∅.

Definition logging_config_double : gmap string value :=
  <["log_dir" := Str "logs"]> (<["redact_sensitive_data" := Atom (PyBool true)]> ∅).

Definition py_str_double (v : value) : string := "<" +:+ type_name v +:+ ">".

Definition now_stamp_double (w : list sdk_result) : string := "20240101_000000".

Definition path_join_double (directory name : string) : string := directory +:+ "/" +:+ name.

(** The run arguments of a command line that names a strategy, one critic
    role, a refiner role and several critic roles at once. *)
Definition crowded_args : RunArgs :=
  {| arg_strategy := Some "deep";
     arg_critic_role := Some "harsh.txt";
     arg_refiner_role := Some "gentle.txt";
     arg_multi_critic_roles := Some "facts.txt,tone.txt";
     arg_redact_logs := false;
     arg_dry_run := true |}.

(** The state of a server that has started: an initialised router, no log
    file yet. *)
Definition server_state (script : list sdk_result) : State (list sdk_result) :=
  fresh_state plain_env script true ∅ (Doubles.demo_config 1 true false).


(** * Properties *)

(** ** The redactor *)

Section RedactorFacts.
Variable upper : string -> string.
Variable re_sub : string -> string -> string -> string.
Variable keys : list string.
Variable patterns : list (string * string).

Abbreviation redacted := (_redact_dict_recursive upper re_sub keys patterns).
Abbreviation entry_redacted := (redact_entry upper re_sub keys patterns).

Lemma redacted_dict entries : redacted (PyDict entries) = PyDict (map entry_redacted entries).
Proof. reflexivity. Qed.

Lemma redact_entry_key kv : fst (entry_redacted kv) = fst kv.
Proof. unfold redact_entry. case_bool_decide; reflexivity. Qed.

Lemma redacted_keys entries : map fst (map entry_redacted entries) = map fst entries.
Proof.
  induction entries as [|kv rest IH]; simpl; [reflexivity|].
  rewrite redact_entry_key, IH. reflexivity.
Qed.

(** Looking a key up after redaction: the entry found is the redacted one. *)
Lemma dict_get_redacted k entries :
  dict_get k (map entry_redacted entries) =
  match dict_get k entries with
  | Some v => Some (if bool_decide (k ∈ keys) then Str (mask upper k) else redacted v)
  | None => None
  end.
Proof.
  induction entries as [|[k0 v0] rest IH]; [reflexivity|].
  cbn [map].
  assert (Hhead : dict_get k (entry_redacted (k0, v0) :: map entry_redacted rest) =
                  if String.eqb k0 k
                  then Some (if bool_decide (k0 ∈ keys) then Str (mask upper k0) else redacted v0)
                  else dict_get k (map entry_redacted rest)).
  { unfold redact_entry at 1. simpl. destruct (bool_decide (k0 ∈ keys)); reflexivity. }
  rewrite Hhead, IH. cbn [dict_get].
  destruct (String.eqb k0 k) eqn:Hk; [|reflexivity].
  apply String.eqb_eq in Hk. subst k0. reflexivity.
Qed.

Lemma redact_entry_idempotent kv :
  redacted (redacted (snd kv)) = redacted (snd kv) ->
  entry_redacted (entry_redacted kv) = entry_redacted kv.
Proof.
  intros Hv. destruct kv as [k v]. unfold redact_entry. simpl in *.
  destruct (bool_decide (k ∈ keys)) eqn:Hk; simpl; rewrite Hk; simpl; congruence.
Qed.

(** Redacting twice is redacting once, provided the pass of the rules over a
    string has that property. *)
Lemma redacted_idempotent :
  (forall s, apply_patterns re_sub patterns (apply_patterns re_sub patterns s)
             = apply_patterns re_sub patterns s) ->
  forall data, redacted (redacted data) = redacted data.
Proof.
  intros Hrules data.
  induction data as [a|s|items IH|entries IH] using value_ind'.
  - reflexivity.
  - simpl. rewrite Hrules. reflexivity.
  - simpl. f_equal. rewrite map_map.
    induction IH as [|x l Hx _ IHl]; simpl; [reflexivity|].
    rewrite Hx, IHl. reflexivity.
  - rewrite !redacted_dict. f_equal. rewrite map_map.
    induction IH as [|kv l Hx _ IHl]; simpl; [reflexivity|].
    rewrite IHl, (redact_entry_idempotent kv Hx). reflexivity.
Qed.

End RedactorFacts.

(** *** The store: nothing that exists before a call is written to *)

Module StoreFacts.
Import Store.

Lemma thread_prefix {A B : Type} (f : heap -> A -> option (B * heap)) xs :
  Forall (fun x => forall h y h', f h x = Some (y, h') -> h `prefix_of` h') xs ->
  forall h ys h', thread f xs h = Some (ys, h') -> h `prefix_of` h'.
Proof.
  induction 1 as [|x xs Hx _ IH]; simpl; intros h ys h' Hrun.
  - inversion Hrun. reflexivity.
  - destruct (f h x) as [[y h1]|] eqn:Hf; [|discriminate].
    destruct (thread f xs h1) as [[ys' h2]|] eqn:Hrest; [|discriminate].
    inversion Hrun; subst. etrans; [eapply Hx|eapply IH]; eassumption.
Qed.

Lemma deepcopy_prefix fuel : forall h r r' h',
  deepcopy fuel h r = Some (r', h') -> h `prefix_of` h'.
Proof.
  induction fuel as [|n IH]; simpl; intros h r r' h' Hcopy; [discriminate|].
  destruct r as [a|s|l]; try (inversion Hcopy; reflexivity).
  destruct (h !! l) as [[items|entries]|]; [| |discriminate].
  - destruct (thread (deepcopy n) items h) as [[items' h1]|] eqn:Hth; [|discriminate].
    inversion Hcopy; subst. apply prefix_app_r.
    eapply thread_prefix; [|exact Hth].
    apply Forall_forall. intros x _ h0 y h0' Hx. eapply IH, Hx.
  - match type of Hcopy with
    | context [thread ?f entries h] => destruct (thread f entries h) as [[entries' h1]|] eqn:Hth
    end; [|discriminate].
    inversion Hcopy; subst. apply prefix_app_r.
    eapply thread_prefix; [|exact Hth].
    apply Forall_forall. intros x _ h0 y h0' Hx.
    destruct (deepcopy n h0 (snd x)) as [[r1 h1']|] eqn:Hd; [|discriminate].
    inversion Hx; subst. eapply IH, Hd.
Qed.

(** A copy of a container lives at an address that did not exist before. *)
Lemma deepcopy_fresh fuel h r l h' :
  deepcopy fuel h r = Some (RObj l, h') -> length h <= l.
Proof.
  destruct fuel as [|n]; simpl; [discriminate|].
  destruct r as [a|s|l0]; [discriminate|discriminate|].
  destruct (h !! l0) as [[items|entries]|]; [| |discriminate].
  - destruct (thread (deepcopy n) items h) as [[items' h1]|] eqn:Hth; [|discriminate].
    intros Hcopy; inversion Hcopy; subst.
    apply prefix_length. eapply thread_prefix; [|exact Hth].
    apply Forall_forall. intros x _ h0 y h0' Hx. eapply deepcopy_prefix, Hx.
  - match goal with
    | |- context [thread ?f entries h] => destruct (thread f entries h) as [[entries' h1]|] eqn:Hth
    end; [|discriminate].
    intros Hcopy; inversion Hcopy; subst.
    apply prefix_length. eapply thread_prefix; [|exact Hth].
    apply Forall_forall. intros x _ h0 y h0' Hx.
    destruct (deepcopy n h0 (snd x)) as [[r1 h1']|] eqn:Hd; [|discriminate].
    inversion Hx; subst. eapply deepcopy_prefix, Hd.
Qed.

(** An assignment to an entry of a dictionary outside [h0] leaves [h0] alone. *)
Lemma set_entry_prefix (h0 h : heap) l i r :
  h0 `prefix_of` h -> length h0 <= l -> h0 `prefix_of` set_entry l i r h.
Proof.
  intros [k ->] Hl. unfold set_entry.
  rewrite alter_app_r_alt by exact Hl. apply prefix_app_r. reflexivity.
Qed.

Section redact_prefix.
Variable upper : string -> string.
Variable re_sub : string -> string -> string -> string.
Variable keys : list string.
Variable patterns : list (string * string).

Lemma redact_entries_prefix (rec : heap -> ref -> option (ref * heap)) (h0 : heap) l :
  (forall h r r' h', rec h r = Some (r', h') -> h `prefix_of` h') ->
  length h0 <= l ->
  forall entries i h h',
    h0 `prefix_of` h ->
    redact_entries upper keys rec l i entries h = Some h' ->
    h0 `prefix_of` h'.
Proof.
  intros Hrec Hl entries.
  induction entries as [|[key v] rest IH]; simpl; intros i h h' Hpre Hrun.
  - inversion Hrun; subst. exact Hpre.
  - destruct (bool_decide (key ∈ keys)).
    + eapply IH; [|exact Hrun]. apply set_entry_prefix; assumption.
    + destruct (rec h v) as [[r h1]|] eqn:Hv; [|discriminate].
      eapply IH; [|exact Hrun]. apply set_entry_prefix; [|assumption].
      etrans; [exact Hpre|]. eapply Hrec, Hv.
Qed.

(** Non-mutation, for every store and every argument: when the redactor
    returns, the store it was called in is an initial segment of the store it
    leaves, so no object that existed before the call has changed. *)
Lemma redact_prefix fuel : forall h data r h',
  redact upper re_sub keys patterns fuel h data = Some (r, h') -> h `prefix_of` h'.
Proof.
  induction fuel as [|n IH]; intros h data r h' Hrun; [discriminate|].
  cbn [redact] in Hrun.
  destruct (deepcopy (S n) h data) as [[[a|s|l] h1]|] eqn:Hcopy; [| | |discriminate].
  - inversion Hrun; subst. eapply deepcopy_prefix, Hcopy.
  - inversion Hrun; subst. eapply deepcopy_prefix, Hcopy.
  - pose proof (deepcopy_prefix _ _ _ _ _ Hcopy) as Hpre.
    pose proof (deepcopy_fresh _ _ _ _ _ Hcopy) as Hfresh.
    destruct (h1 !! l) as [[items|entries]|]; [| |discriminate].
    + destruct (thread (redact upper re_sub keys patterns n) items h1)
        as [[items' h2]|] eqn:Hth; [|discriminate].
      inversion Hrun; subst. apply prefix_app_r. etrans; [exact Hpre|].
      eapply thread_prefix; [|exact Hth].
      apply Forall_forall. intros x _ h0 y h0' Hx. eapply IH, Hx.
    + destruct (redact_entries upper keys (redact upper re_sub keys patterns n) l 0 entries h1)
        as [h2|] eqn:Hloop; [|discriminate].
      inversion Hrun; subst.
      eapply redact_entries_prefix; [exact IH|exact Hfresh|exact Hpre|exact Hloop].
Qed.

End redact_prefix.

(** *** The store: on a tree, the redactor returns and computes the redacted tree *)

Lemma repr_in_list P h ts r :
  repr_in P h (PyList ts) r <->
  exists l items, r = RObj l /\ P l /\ h !! l = Some (OList items) /\
                  Forall2 (repr_in P h) ts items.
Proof.
  cbn [repr_in].
  split; intros (l & items & Hr & HP & Hl & Hall); exists l, items;
    (split; [exact Hr|]); (split; [exact HP|]); (split; [exact Hl|]); clear Hl.
  - revert items Hall.
    induction ts as [|t ts IH]; intros [|x items] Hall; try contradiction; constructor.
    + apply Hall.
    + apply IH, Hall.
  - induction Hall as [|t x ts items Hx _ IH]; [exact I|]. split; assumption.
Qed.

Lemma repr_in_dict P h kts r :
  repr_in P h (PyDict kts) r <->
  exists l entries, r = RObj l /\ P l /\ h !! l = Some (ODict entries) /\
                    Forall2 (entry_repr P h) kts entries.
Proof.
  cbn [repr_in].
  split; intros (l & entries & Hr & HP & Hl & Hall); exists l, entries;
    (split; [exact Hr|]); (split; [exact HP|]); (split; [exact Hl|]); clear Hl.
  - revert entries Hall.
    induction kts as [|kt kts IH]; intros [|e entries] Hall; try contradiction; constructor.
    + split; apply Hall.
    + apply IH, Hall.
  - induction Hall as [|kt e kts entries [Hk Hv] _ IH]; [exact I|].
    split; [exact Hk|]. split; assumption.
Qed.

Lemma Forall_Forall2_impl {A B : Type} (R R' : A -> B -> Prop) l k :
  Forall (fun x => forall y, R x y -> R' x y) l -> Forall2 R l k -> Forall2 R' l k.
Proof.
  intros Hall H2. revert Hall.
  induction H2 as [|x y l k Hxy _ IH]; intros Hall; constructor.
  - inversion Hall; subst. auto.
  - apply IH. inversion Hall; subst. assumption.
Qed.

(** The denotation only depends on the objects it visits. *)
Lemma repr_in_ext (P Q : nat -> Prop) (h h' : heap) t : forall r,
  repr_in P h t r ->
  (forall l o, P l -> h !! l = Some o -> Q l /\ h' !! l = Some o) ->
  repr_in Q h' t r.
Proof.
  induction t as [a|s|ts IH|kts IH] using value_ind'; intros r Hr Hext.
  - exact Hr.
  - exact Hr.
  - apply repr_in_list in Hr as (l & items & -> & HP & Hl & Hall).
    apply repr_in_list. destruct (Hext l _ HP Hl) as [HQ Hl'].
    exists l, items. repeat split; try assumption.
    eapply Forall_Forall2_impl; [|exact Hall].
    eapply Forall_impl; [exact IH|]. intros t Ht y Hy. apply Ht; assumption.
  - apply repr_in_dict in Hr as (l & entries & -> & HP & Hl & Hall).
    apply repr_in_dict. destruct (Hext l _ HP Hl) as [HQ Hl'].
    exists l, entries. repeat split; try assumption.
    eapply Forall_Forall2_impl; [|exact Hall].
    eapply Forall_impl; [exact IH|]. intros kt Ht e [Hk Hv].
    split; [exact Hk|]. apply Ht; assumption.
Qed.

Lemma repr_in_prefix P Q (h h' : heap) t r :
  h `prefix_of` h' -> (forall l, P l -> Q l) -> repr_in P h t r -> repr_in Q h' t r.
Proof.
  intros Hpre HPQ Hr. eapply repr_in_ext; [exact Hr|].
  intros l o HP Hl. split; [auto|]. eapply prefix_lookup_Some; eassumption.
Qed.

Lemma entry_repr_prefix P Q (h h' : heap) kt e :
  h `prefix_of` h' -> (forall l, P l -> Q l) -> entry_repr P h kt e -> entry_repr Q h' kt e.
Proof. intros Hpre HPQ [Hk Hv]. split; [exact Hk|]. eapply repr_in_prefix; eassumption. Qed.

(** A write to the dictionary at [y] does not disturb what lives elsewhere. *)
Lemma entry_repr_set_entry P (h h' : heap) y i r kt e :
  h `prefix_of` h' -> (forall l, P l -> l <> y) ->
  entry_repr P h kt e -> entry_repr P (set_entry y i r h') kt e.
Proof.
  intros Hpre HP [Hk Hv]. split; [exact Hk|].
  eapply repr_in_ext; [exact Hv|].
  intros l o Hl Ho. split; [exact Hl|].
  unfold set_entry. rewrite list_lookup_alter_ne by (intros ->; exact (HP _ Hl eq_refl)).
  eapply prefix_lookup_Some; eassumption.
Qed.

Lemma depth_list_elem ts : Forall (fun t => depth t < depth (PyList ts)) ts.
Proof.
  cbn [depth]. induction ts as [|t ts IH]; constructor; simpl.
  - lia.
  - eapply Forall_impl; [exact IH|]. simpl. intros; lia.
Qed.

Lemma depth_dict_elem kts : Forall (fun kt => depth (snd kt) < depth (PyDict kts)) kts.
Proof.
  cbn [depth]. induction kts as [|kt kts IH]; constructor; simpl.
  - lia.
  - eapply Forall_impl; [exact IH|]. simpl. intros; lia.
Qed.

(** Threading a function that meets its specification on every element. *)
Lemma thread_spec {T A B : Type} (f : heap -> A -> option (B * heap))
    (Pre : heap -> T -> A -> Prop) (Post : heap -> T -> B -> Prop) (b : nat) ts :
  (forall h h' t x, h `prefix_of` h' -> Pre h t x -> Pre h' t x) ->
  (forall h h' t y, h `prefix_of` h' -> Post h t y -> Post h' t y) ->
  Forall (fun t => forall h x, b <= length h -> Pre h t x ->
            exists y h', f h x = Some (y, h') /\ h `prefix_of` h' /\ Post h' t y) ts ->
  forall xs h, b <= length h -> Forall2 (Pre h) ts xs ->
    exists ys h', thread f xs h = Some (ys, h') /\ h `prefix_of` h' /\ Forall2 (Post h') ts ys.
Proof.
  intros Hpre Hpost Hf. induction Hf as [|t ts Ht _ IH]; intros xs h Hb Hall.
  - inversion Hall; subst. exists [], h. repeat split; [reflexivity|constructor].
  - inversion Hall as [|? x ? xs' Hx Hxs]; subst.
    destruct (Ht h x Hb Hx) as (y & h1 & Hfx & Hh1 & Hy).
    destruct (IH xs' h1) as (ys & h2 & Hrest & Hh2 & Hys).
    { pose proof (prefix_length _ _ Hh1). lia. }
    { eapply Forall2_impl; [exact Hxs|]. intros; eapply Hpre; eassumption. }
    exists (y :: ys), h2. simpl. rewrite Hfx, Hrest.
    repeat split; [etrans; eassumption|]. constructor; [|exact Hys].
    eapply Hpost; eassumption.
Qed.

Lemma deepcopy_list n P ts (h : heap) r :
  copies n -> repr_in P h (PyList ts) r -> depth (PyList ts) < S n ->
  exists items' hk,
    deepcopy (S n) h r = Some (RObj (length hk), hk ++ [OList items']) /\
    h `prefix_of` hk /\ Forall2 (repr_in (fun l => length h <= l) hk) ts items'.
Proof.
  intros Hn Hr Hd. apply repr_in_list in Hr as (l & items & -> & _ & Hl & Hall).
  destruct (thread_spec (deepcopy n) (repr_in P) (repr_in (fun l => length h <= l))
              (length h) ts) with (xs := items) (h := h)
    as (items' & hk & Hth & Hpre & Hcopies).
  - intros; eapply repr_in_prefix; eauto.
  - intros; eapply repr_in_prefix; eauto.
  - eapply Forall_impl; [apply depth_list_elem|]. intros t Ht h1 x Hb Hx.
    destruct (Hn P t h1 x Hx) as (y & h2 & Hy & Hpre & Hrepr); [cbn [depth] in *; lia|].
    exists y, h2. repeat split; try assumption.
    eapply repr_in_prefix; [reflexivity| |exact Hrepr]. simpl. intros; lia.
  - lia.
  - exact Hall.
  - exists items', hk. cbn [deepcopy]. rewrite Hl, Hth. auto.
Qed.

Lemma deepcopy_dict n P kts (h : heap) r :
  copies n -> repr_in P h (PyDict kts) r -> depth (PyDict kts) < S n ->
  exists entries' hk,
    deepcopy (S n) h r = Some (RObj (length hk), hk ++ [ODict entries']) /\
    h `prefix_of` hk /\ Forall2 (entry_repr (fun l => length h <= l) hk) kts entries'.
Proof.
  intros Hn Hr Hd. apply repr_in_dict in Hr as (l & entries & -> & _ & Hl & Hall).
  destruct (thread_spec
              (fun h kv => match deepcopy n h (snd kv) with
                           | None => None
                           | Some (r', h') => Some ((fst kv, r'), h')
                           end)
              (entry_repr P) (entry_repr (fun l => length h <= l))
              (length h) kts) with (xs := entries) (h := h)
    as (entries' & hk & Hth & Hpre & Hcopies).
  - intros; eapply entry_repr_prefix; eauto.
  - intros; eapply entry_repr_prefix; eauto.
  - eapply Forall_impl; [apply depth_dict_elem|]. intros kt Ht h1 e Hb [Hk Hv].
    destruct (Hn P (snd kt) h1 (snd e) Hv) as (y & h2 & Hy & Hpre & Hrepr); [cbn [depth] in *; lia|].
    exists (fst e, y), h2. rewrite Hy. repeat split; try assumption.
    eapply repr_in_prefix; [reflexivity| |exact Hrepr]. simpl. intros; lia.
  - lia.
  - exact Hall.
  - exists entries', hk. cbn [deepcopy]. rewrite Hl, Hth. auto.
Qed.

Lemma deepcopy_spec n : copies n.
Proof.
  induction n as [|n IH]; intros P t h r Hr Hd; [lia|].
  destruct t as [a|s|ts|kts].
  - simpl in Hr. subst r. exists (RAtom a), h. repeat split; reflexivity.
  - simpl in Hr. subst r. exists (RStr s), h. repeat split; reflexivity.
  - destruct (deepcopy_list n P ts h r IH Hr Hd) as (items' & hk & Hcopy & Hpre & Hall).
    exists (RObj (length hk)), (hk ++ [OList items']).
    split; [exact Hcopy|]. split; [apply prefix_app_r, Hpre|].
    apply repr_in_list. exists (length hk), items'.
    repeat split; [apply prefix_length, Hpre|apply list_lookup_middle; reflexivity|].
    eapply Forall2_impl; [exact Hall|].
    intros; eapply repr_in_prefix; [apply prefix_app_r; reflexivity| |eassumption]. auto.
  - destruct (deepcopy_dict n P kts h r IH Hr Hd) as (entries' & hk & Hcopy & Hpre & Hall).
    exists (RObj (length hk)), (hk ++ [ODict entries']).
    split; [exact Hcopy|]. split; [apply prefix_app_r, Hpre|].
    apply repr_in_dict. exists (length hk), entries'.
    repeat split; [apply prefix_length, Hpre|apply list_lookup_middle; reflexivity|].
    eapply Forall2_impl; [exact Hall|].
    intros; eapply entry_repr_prefix; [apply prefix_app_r; reflexivity| |eassumption]. auto.
Qed.

Section redact_spec.
Variable upper : string -> string.
Variable re_sub : string -> string -> string -> string.
Variable keys : list string.
Variable patterns : list (string * string).

Abbreviation redacted := (_redact_dict_recursive upper re_sub keys patterns).
Abbreviation redact_here := (redact upper re_sub keys patterns).
Abbreviation redacts_here := (redacts upper re_sub keys patterns).

Lemma set_entry_lookup (h : heap) y done e todo r :
  h !! y = Some (ODict (done ++ e :: todo)) ->
  set_entry y (length done) r h !! y = Some (ODict ((done ++ [(fst e, r)]) ++ todo)).
Proof.
  intros Hy. unfold set_entry. rewrite list_lookup_alter_eq, Hy. simpl.
  replace (length done) with (length done + 0) by lia.
  rewrite alter_app_r, <- app_assoc. reflexivity.
Qed.

(** The loop over the entries of the copy at [y]: [done] are the entries
    already assigned, [todo] those still as [deepcopy] left them. *)
Lemma redact_entries_spec n y :
  redacts_here n ->
  forall kts_todo todo kts_done done (h : heap),
    Forall (fun kt => depth (snd kt) < n) kts_todo ->
    h !! y = Some (ODict (done ++ todo)) ->
    Forall2 (entry_repr (fun l => y < l) h) (map (redact_entry upper re_sub keys patterns) kts_done) done ->
    Forall2 (entry_repr (fun l => l < y) h) kts_todo todo ->
    exists h' final,
      redact_entries upper keys (redact_here n) y (length done) todo h = Some h' /\
      h' !! y = Some (ODict final) /\
      Forall2 (entry_repr (fun l => y < l) h')
        (map (redact_entry upper re_sub keys patterns) (kts_done ++ kts_todo)) final.
Proof.
  intros Hn kts_todo.
  induction kts_todo as [|kt kts IH]; intros todo kts_done done h Hdepth Hy Hdone Htodo.
  - inversion Htodo; subst. exists h, done. rewrite !app_nil_r in *. auto.
  - inversion Htodo as [|? [key v] ? todo' [Hkey Hv] Hrest]; subst.
    inversion Hdepth as [|? ? Hd Hdepth']; subst.
    simpl in Hkey, Hv. subst key.
    assert (Hylt : y < length h) by (eapply lookup_lt_Some; exact Hy).
    cbn [redact_entries].
    destruct (bool_decide (fst kt ∈ keys)) eqn:Hmask.
    + set (h1 := set_entry y (length done) (RStr (mask upper (fst kt))) h).
      destruct (IH todo' (kts_done ++ [kt]) (done ++ [(fst kt, RStr (mask upper (fst kt)))]) h1)
        as (h' & final & Hrun & Hfinal & Hall).
      * exact Hdepth'.
      * apply (set_entry_lookup h y done (fst kt, v) todo'). exact Hy.
      * rewrite map_app. apply Forall2_app.
        -- eapply Forall2_impl; [exact Hdone|]. intros kt' e' He.
           apply entry_repr_set_entry with (h := h); [reflexivity| |exact He]. intros; lia.
        -- constructor; [|constructor]. unfold redact_entry. rewrite Hmask.
           split; reflexivity.
      * eapply Forall2_impl; [exact Hrest|]. intros kt' e' He.
        apply entry_repr_set_entry with (h := h); [reflexivity| |exact He]. intros; lia.
      * exists h', final. rewrite length_app in Hrun. simpl in Hrun.
        rewrite Nat.add_1_r in Hrun. rewrite <- app_assoc in Hall. auto.
    + destruct (Hn _ _ _ _ Hv Hd) as (r' & h2 & Hrec & Hr').
      pose proof (redact_prefix _ _ _ _ _ _ _ _ _ Hrec) as Hpre.
      rewrite Hrec.
      set (h3 := set_entry y (length done) r' h2).
      destruct (IH todo' (kts_done ++ [kt]) (done ++ [(fst kt, r')]) h3)
        as (h' & final & Hrun & Hfinal & Hall).
      * exact Hdepth'.
      * apply (set_entry_lookup h2 y done (fst kt, v) todo').
        eapply prefix_lookup_Some; eassumption.
      * rewrite map_app. apply Forall2_app.
        -- eapply Forall2_impl; [exact Hdone|]. intros kt' e' He.
           apply entry_repr_set_entry with (h := h); [exact Hpre| |exact He]. intros; lia.
        -- constructor; [|constructor]. unfold redact_entry. rewrite Hmask.
           apply entry_repr_set_entry with (h := h2); [reflexivity|intros; lia|].
           split; [reflexivity|]. simpl.
           eapply repr_in_prefix; [reflexivity| |exact Hr']. simpl. intros; lia.
      * eapply Forall2_impl; [exact Hrest|]. intros kt' e' He.
        apply entry_repr_set_entry with (h := h); [exact Hpre| |exact He]. intros; lia.
      * exists h', final. rewrite length_app in Hrun. simpl in Hrun.
        rewrite Nat.add_1_r in Hrun. rewrite <- app_assoc in Hall. auto.
Qed.

Lemma redact_spec n : redacts_here n.
Proof.
  induction n as [|n IH]; intros P t h r Hr Hd; [lia|].
  destruct t as [a|s|ts|kts].
  - simpl in Hr. subst r. exists (RAtom a), h. split; reflexivity.
  - simpl in Hr. subst r. exists (RStr (apply_patterns re_sub patterns s)), h.
    split; reflexivity.
  - destruct (deepcopy_list n P ts h r (deepcopy_spec n) Hr Hd)
      as (items' & hk & Hcopy & Hpre & Hall).
    destruct (thread_spec (redact_here n) (repr_in (fun l => length h <= l))
                (fun h' t y => repr_in (fun l => length h <= l) h' (redacted t) y)
                (length h) ts) with (xs := items') (h := hk ++ [OList items'])
      as (items'' & h2 & Hth & Hpre2 & Hall2).
    + intros; eapply repr_in_prefix; eauto.
    + intros; eapply repr_in_prefix; eauto.
    + eapply Forall_impl; [apply depth_list_elem|]. intros t Ht h1 x Hb Hx.
      destruct (IH _ t h1 x Hx) as (y & h3 & Hy & Hrepr); [cbn [depth] in *; lia|].
      exists y, h3. split; [exact Hy|]. split; [eapply redact_prefix; exact Hy|].
      eapply repr_in_prefix; [reflexivity| |exact Hrepr]. simpl. intros; lia.
    + rewrite length_app. pose proof (prefix_length _ _ Hpre). lia.
    + eapply Forall2_impl; [exact Hall|].
      intros; eapply repr_in_prefix; [apply prefix_app_r; reflexivity| |eassumption]. auto.
    + exists (RObj (length h2)), (h2 ++ [OList items'']).
      cbn [redact]. rewrite Hcopy.
      rewrite list_lookup_middle by reflexivity. rewrite Hth.
      split; [reflexivity|].
      change (redacted (PyList ts)) with (PyList (map redacted ts)).
      apply repr_in_list. exists (length h2), items''.
      assert (length h <= length h2).
      { pose proof (prefix_length _ _ Hpre). pose proof (prefix_length _ _ Hpre2).
        rewrite length_app in *. lia. }
      repeat split; [assumption|apply list_lookup_middle; reflexivity|].
      apply Forall2_fmap_l.
      eapply Forall2_impl; [exact Hall2|].
      intros t0 y0 Ht0. unfold compose.
      eapply repr_in_prefix; [apply prefix_app_r; reflexivity| |exact Ht0]. auto.
  - destruct (deepcopy_dict n P kts h r (deepcopy_spec n) Hr Hd)
      as (entries' & hk & Hcopy & Hpre & Hall).
    destruct (redact_entries_spec n (length hk) IH kts entries' [] [] (hk ++ [ODict entries']))
      as (h' & final & Hrun & Hfinal & Hall').
    + eapply Forall_impl; [apply depth_dict_elem|]. cbn [depth] in *. intros; lia.
    + apply list_lookup_middle. reflexivity.
    + constructor.
    + eapply Forall2_impl; [exact Hall|]. intros kt e [Hk Hv]. split; [exact Hk|].
      eapply repr_in_ext; [exact Hv|]. intros l o _ Hl.
      split; [eapply lookup_lt_Some; exact Hl|].
      eapply prefix_lookup_Some; [exact Hl|]. apply prefix_app_r. reflexivity.
    + exists (RObj (length hk)), h'.
      cbn [redact]. rewrite Hcopy.
      rewrite list_lookup_middle by reflexivity. simpl in Hrun. rewrite Hrun.
      split; [reflexivity|].
      rewrite redacted_dict. apply repr_in_dict. exists (length hk), final.
      pose proof (prefix_length _ _ Hpre).
      repeat split; [assumption|exact Hfinal|].
      eapply Forall2_impl; [exact Hall'|]. intros kt e [Hk Hv]. split; [exact Hk|].
      eapply repr_in_prefix; [reflexivity| |exact Hv]. simpl. intros; lia.
Qed.

End redact_spec.

End StoreFacts.

(** *** Claims about the redactor *)

Lemma depth_redacted upper re_sub keys patterns t :
  Store.depth (_redact_dict_recursive upper re_sub keys patterns t) <= Store.depth t.
Proof.
  induction t as [a|s|ts IH|kts IH] using value_ind'.
  - reflexivity.
  - simpl. lia.
  - cbn [_redact_dict_recursive Store.depth]. apply le_n_S.
    induction IH as [|t ts Ht _ IHts]; simpl; [lia|]. lia.
  - rewrite redacted_dict. cbn [Store.depth]. apply le_n_S.
    induction IH as [|kt kts Ht _ IHkts]; simpl; [lia|].
    unfold redact_entry at 1. destruct (bool_decide (fst kt ∈ keys)); simpl in *; lia.
Qed.

(** C7, as the claim states it, fails: redaction is not idempotent for every
    pattern list.  With the single rule that replaces [a] by [aa], the string
    [a] becomes [aa] and, redacted again, [aaaa]. *)
Lemma redaction_not_idempotent_for_every_rule :
  ~ (forall (keys : list string) (patterns : list (string * string)) (data : value),
       _redact_dict_recursive Doubles.ascii_upper Doubles.re_sub_literal keys patterns
         (_redact_dict_recursive Doubles.ascii_upper Doubles.re_sub_literal keys patterns data)
       = _redact_dict_recursive Doubles.ascii_upper Doubles.re_sub_literal keys patterns data).
Proof.
  intros Hidem. specialize (Hidem [] [("a", "aa")] (Str "a")).
  vm_compute in Hidem. discriminate Hidem.
Qed.

(** C7, amended: redaction never mutates.  Called on a reference [r] that
    denotes the tree [t] in a store [h], with fuel beyond the depth of [t], the
    redactor returns; the store [h1] it leaves starts with [h] unchanged, so
    [r] still denotes [t]; and its result denotes the redacted tree.  It is
    idempotent when the pass of the rules over a string is: then redacting the
    result again, with the same keys and rules, returns the same tree, and
    again writes to nothing that existed. *)
Theorem redaction_never_mutates_and_is_idempotent_for_idempotent_rules
    (upper : string -> string) (re_sub : string -> string -> string -> string)
    (keys : list string) (patterns : list (string * string))
    (t : value) (h : list Store.obj) (r : Store.ref) (fuel : nat) :
  Store.repr_in (fun _ => True) h t r ->
  Store.depth t < fuel ->
  exists r1 h1,
    Store.redact upper re_sub keys patterns fuel h r = Some (r1, h1) /\
    h `prefix_of` h1 /\
    Store.repr_in (fun _ => True) h1 t r /\
    Store.repr_in (fun _ => True) h1 (_redact_dict_recursive upper re_sub keys patterns t) r1 /\
    ((forall s, apply_patterns re_sub patterns (apply_patterns re_sub patterns s)
                = apply_patterns re_sub patterns s) ->
     _redact_dict_recursive upper re_sub keys patterns
       (_redact_dict_recursive upper re_sub keys patterns t)
     = _redact_dict_recursive upper re_sub keys patterns t /\
     exists r2 h2,
       Store.redact upper re_sub keys patterns fuel h1 r1 = Some (r2, h2) /\
       h1 `prefix_of` h2 /\
       Store.repr_in (fun _ => True) h2 (_redact_dict_recursive upper re_sub keys patterns t) r2).
Proof.
  intros Hr Hfuel.
  destruct (StoreFacts.redact_spec upper re_sub keys patterns fuel _ t h r Hr Hfuel)
    as (r1 & h1 & Hrun & Hr1).
  pose proof (StoreFacts.redact_prefix _ _ _ _ _ _ _ _ _ Hrun) as Hpre.
  exists r1, h1. split; [exact Hrun|]. split; [exact Hpre|].
  split; [eapply StoreFacts.repr_in_prefix; [exact Hpre| |exact Hr]; auto|].
  assert (Hr1' : Store.repr_in (fun _ => True) h1
                   (_redact_dict_recursive upper re_sub keys patterns t) r1).
  { eapply StoreFacts.repr_in_prefix; [reflexivity| |exact Hr1]; auto. }
  split; [exact Hr1'|].
  intros Hrules.
  pose proof (redacted_idempotent upper re_sub keys patterns Hrules t) as Hidem.
  split; [exact Hidem|].
  destruct (StoreFacts.redact_spec upper re_sub keys patterns fuel _ _ h1 r1 Hr1')
    as (r2 & h2 & Hrun2 & Hr2).
  { pose proof (depth_redacted upper re_sub keys patterns t). lia. }
  exists r2, h2. split; [exact Hrun2|].
  split; [eapply StoreFacts.redact_prefix; exact Hrun2|].
  rewrite Hidem in Hr2.
  eapply StoreFacts.repr_in_prefix; [reflexivity| |exact Hr2]; auto.
Qed.

(** The theorem at work on the sample store, with one sensitive key and no
    rule: the first pass masks the key and leaves the two objects of the
    caller in place, the second pass returns the same tree. *)
Lemma redaction_never_mutates_witness :
  exists r1 h1,
    Store.redact Doubles.ascii_upper Doubles.re_sub_literal ["api_key"] [] 3
      sample_heap (Store.RObj 1) = Some (r1, h1) /\
    sample_heap `prefix_of` h1 /\
    Store.repr_in (fun _ => True) h1 sample_tree (Store.RObj 1) /\
    Store.repr_in (fun _ => True) h1
      (PyDict [("api_key", Str "[REDACTED_API_KEY]");
               ("items", PyList [Str "alpha"; Atom (PyInt 7)])]) r1 /\
    exists r2 h2,
      Store.redact Doubles.ascii_upper Doubles.re_sub_literal ["api_key"] [] 3 h1 r1
      = Some (r2, h2) /\
      h1 `prefix_of` h2 /\
      Store.repr_in (fun _ => True) h2
        (PyDict [("api_key", Str "[REDACTED_API_KEY]");
                 ("items", PyList [Str "alpha"; Atom (PyInt 7)])]) r2.
Proof.
  destruct (redaction_never_mutates_and_is_idempotent_for_idempotent_rules
              Doubles.ascii_upper Doubles.re_sub_literal ["api_key"] [] sample_tree
              sample_heap (Store.RObj 1) 3) as (r1 & h1 & Hrun & Hpre & Hin & Hout & Hagain).
  - simpl. exists 1, [("api_key", Store.RStr "k-123"); ("items", Store.RObj 0)].
    repeat split. exists 0, [Store.RStr "alpha"; Store.RAtom (PyInt 7)].
    repeat split.
  - simpl. lia.
  - destruct Hagain as (_ & r2 & h2 & Hrun2 & Hpre2 & Hout2); [reflexivity|].
    exists r1, h1. repeat split; try assumption.
    exists r2, h2. repeat split; assumption.
Defined.

(** C10: key masking is by exact membership of the key in the list of
    sensitive keys.  For an entry [key: v] of a dictionary, the redacted
    dictionary has the same keys in the same order; if [key] is listed, its
    value is the placeholder with the upper-cased key, whatever [v] is (no
    part of [v] is visited); if every listed key differs from [key] as a
    string (be it only in letter case), its value is the redacted [v]. *)
Theorem key_masking_is_exact_and_does_not_recurse
    (upper : string -> string) (re_sub : string -> string -> string -> string)
    (keys : list string) (patterns : list (string * string))
    (entries : list (string * value)) (key : string) (v : value) :
  dict_get key entries = Some v ->
  exists entries',
    _redact_dict_recursive upper re_sub keys patterns (PyDict entries) = PyDict entries' /\
    map fst entries' = map fst entries /\
    (key ∈ keys ->
     dict_get key entries' = Some (Str ("[REDACTED_" +:+ upper key +:+ "]"))) /\
    ((forall listed, listed ∈ keys -> listed <> key) ->
     dict_get key entries' = Some (_redact_dict_recursive upper re_sub keys patterns v)).
Proof.
  intros Hget.
  exists (map (redact_entry upper re_sub keys patterns) entries).
  split; [apply redacted_dict|]. split; [apply redacted_keys|].
  rewrite dict_get_redacted, Hget.
  split; intros Hkey.
  - rewrite bool_decide_true by exact Hkey. reflexivity.
  - rewrite bool_decide_false; [reflexivity|].
    intros Hin. exact (Hkey key Hin eq_refl).
Qed.

(** The theorem at work: [api_key] is listed; the entry under [api_key] is
    masked although its value is a dictionary, the entry under [API_KEY] is
    not masked, and inside it the listed key is. *)
Lemma key_masking_witness :
  exists entries',
    _redact_dict_recursive Doubles.ascii_upper Doubles.re_sub_literal ["api_key"] []
      (PyDict [("API_KEY", PyDict [("api_key", Str "inner")]);
               ("api_key", PyDict [("token", Str "t")])])
    = PyDict entries' /\
    map fst entries' = ["API_KEY"; "api_key"] /\
    ("api_key" ∈ ["api_key"] ->
     dict_get "api_key" entries' = Some (Str "[REDACTED_API_KEY]")) /\
    ((forall listed, listed ∈ ["api_key"] -> listed <> "api_key") ->
     dict_get "api_key" entries'
     = Some (_redact_dict_recursive Doubles.ascii_upper Doubles.re_sub_literal ["api_key"] []
               (PyDict [("token", Str "t")]))).
Proof.
  apply (key_masking_is_exact_and_does_not_recurse
           Doubles.ascii_upper Doubles.re_sub_literal ["api_key"] []
           [("API_KEY", PyDict [("api_key", Str "inner")]);
            ("api_key", PyDict [("token", Str "t")])]
           "api_key" (PyDict [("token", Str "t")])).
  reflexivity.
Defined.

(** Letter case matters: the entry under [API_KEY] keeps its dictionary. *)
Example key_masking_is_case_sensitive :
  _redact_dict_recursive Doubles.ascii_upper Doubles.re_sub_literal ["api_key"] []
    (PyDict [("API_KEY", PyDict [("api_key", Str "inner")]);
             ("api_key", PyDict [("token", Str "t")])])
  = PyDict [("API_KEY", PyDict [("api_key", Str "[REDACTED_API_KEY]")]);
            ("api_key", Str "[REDACTED_API_KEY]")].
Proof. reflexivity. Qed.

(** ** The model router *)

Lemma prefix_append (a b : string) : String.prefix a (a +:+ b) = true.
Proof.
  induction a as [|c a IH]; simpl.
  - destruct b; reflexivity.
  - destruct (ascii_dec c c) as [_|Hne]; [exact IH|contradiction].
Qed.

Lemma str_in_prefix (m s : string) : String.prefix m s = true -> str_in m s = true.
Proof. intros H. destruct s; cbn [str_in]; rewrite H; reflexivity. Qed.

Lemma str_in_middle (a m b : string) : str_in m (a +:+ m +:+ b) = true.
Proof.
  induction a as [|c a IH].
  - change ("" +:+ m +:+ b) with (m +:+ b). apply str_in_prefix, prefix_append.
  - change (String c a +:+ m +:+ b) with (String c (a +:+ m +:+ b)).
    cbn [str_in]. rewrite IH. apply orb_true_r.
Qed.

Lemma try_except_run {W A} (m : M W A) (handler : exn -> M W A) (s : State W) :
  try_except m handler s
  = match m s with
    | (Ok a, s') => (Ok a, s')
    | (Raise e, s') => handler e s'
    end.
Proof. reflexivity. Qed.

Lemma bind_run {W A B} (m : M W A) (k : A -> M W B) (s : State W) :
  bind m k s
  = match m s with
    | (Ok a, s') => k a s'
    | (Raise e, s') => (Raise e, s')
    end.
Proof. reflexivity. Qed.

Section RouterFacts.
Context {W : Type} (E : Env W).

Lemma call_gemini_records prompt model system_prompt config (s : State W) :
  gemini_calls (snd (call_gemini E prompt model system_prompt config s))
  = gemini_calls s ++ [Build_GeminiCall model prompt system_prompt].
Proof.
  unfold call_gemini, bind, modify, gets, raise. simpl.
  destruct (is_initialized s); simpl; [|reflexivity].
  destruct (generate_content E (sdk s) model system_prompt prompt config) as [[text|[]] w];
    reflexivity.
Qed.

(** Whatever goes wrong in [call_gemini] leaves it as a [ModelAPIError]. *)
Lemma call_gemini_raises prompt model system_prompt config (s s1 : State W) e :
  call_gemini E prompt model system_prompt config s = (Raise e, s1) ->
  exn_cls e = ModelAPIError.
Proof.
  unfold call_gemini, bind, modify, gets, raise. simpl.
  destruct (is_initialized s); simpl.
  - destruct (generate_content E _ model system_prompt prompt config) as [[text|[]] w];
      intros H; inversion H; reflexivity.
  - intros H; inversion H; reflexivity.
Qed.

Lemma call_gemini_untyped_records prompt model system_prompt config (s : State W) :
  gemini_calls (snd (call_gemini_untyped E prompt model system_prompt config s))
  = gemini_calls s ++ [Build_GeminiCall (format_value E model) prompt system_prompt].
Proof.
  unfold call_gemini_untyped, bind, modify, gets, raise. simpl.
  destruct (is_initialized s); simpl; [|reflexivity].
  destruct (generate_content_untyped E (sdk s) model system_prompt prompt config)
    as [[text|[]] w]; reflexivity.
Qed.

Lemma call_gemini_untyped_raises prompt model system_prompt config (s s1 : State W) e :
  call_gemini_untyped E prompt model system_prompt config s = (Raise e, s1) ->
  exn_cls e = ModelAPIError.
Proof.
  unfold call_gemini_untyped, bind, modify, gets, raise. simpl.
  destruct (is_initialized s); simpl.
  - destruct (generate_content_untyped E _ model system_prompt prompt config)
      as [[text|[]] w]; intros H; inversion H; reflexivity.
  - intros H; inversion H; reflexivity.
Qed.

(** A model that is a string is not also an untyped one. *)
Lemma as_untyped_model_of_a_name (v : option value) model :
  as_model_name v = Some model -> as_untyped_model v = None.
Proof. destruct v as [[a|name|items|entries]|]; try discriminate. reflexivity. Qed.

Lemma untyped_model_of_a_name model_name config role model :
  model_to_use E model_name config role = Some model ->
  untyped_model_to_use E model_name config role = None.
Proof.
  unfold model_to_use, untyped_model_to_use.
  destruct (nonempty model_name); [reflexivity|].
  destruct (if String.eqb _ "" then _ else _); apply as_untyped_model_of_a_name.
Qed.

Lemma as_model_name_of_an_untyped_model (v : option value) untyped :
  as_untyped_model v = Some untyped -> as_model_name v = None.
Proof. destruct v as [[a|name|items|entries]|]; try discriminate; reflexivity. Qed.

Lemma model_name_of_an_untyped_model model_name config role untyped :
  untyped_model_to_use E model_name config role = Some untyped ->
  model_to_use E model_name config role = None.
Proof.
  unfold model_to_use, untyped_model_to_use.
  destruct (nonempty model_name); [discriminate|].
  destruct (if String.eqb _ "" then _ else _); apply as_model_name_of_an_untyped_model.
Qed.

(** A model that is no string: a dry run answers with the marker around the
    model as it is printed and changes nothing; any other call fails where
    the name is tested for the prefix [mock], and changes nothing either. *)
Lemma call_model_with_an_untyped_model prompt model_name system_prompt config dry role
    untyped (s : State W) :
  untyped_model_to_use E model_name config role = Some untyped ->
  call_model E prompt model_name system_prompt config dry role s
  = (if dry
     then Ok ("DRY_RUN_RESPONSE: This is a mocked response for model "
              +:+ format_value E untyped +:+ ".")
     else Raise (Exn AttributeError
                   ("'" +:+ type_name untyped +:+ "' object has no attribute 'startswith'")),
     s).
Proof.
  intros Huntyped. unfold call_model.
  rewrite (model_name_of_an_untyped_model _ _ _ _ Huntyped), Huntyped.
  destruct dry; reflexivity.
Qed.

(** A call that the primary model answers. *)
Lemma call_model_answers prompt model_name system_prompt config role model
    (s : State W) text w :
  model_to_use E model_name config role = Some model ->
  String.prefix "mock" model = false ->
  is_initialized s = true ->
  generate_content E (sdk s) model system_prompt prompt (effective_config E config)
  = (SdkText text, w) ->
  call_model E prompt model_name system_prompt config false role s
  = (Ok text,
     with_sdk w (with_gemini_calls
                   (gemini_calls s ++ [Build_GeminiCall model prompt system_prompt]) s)).
Proof.
  intros Hmodel Hmock Hinit Hgen.
  unfold call_model. rewrite Hmodel, Hmock. cbv iota.
  rewrite try_except_run. unfold call_gemini.
  rewrite bind_run. unfold modify at 1. rewrite bind_run. unfold gets at 1.
  cbn [is_initialized with_gemini_calls sdk]. rewrite Hinit. cbn [negb].
  change (sdk (with_gemini_calls
                 (gemini_calls s ++ [Build_GeminiCall model prompt system_prompt]) s))
    with (sdk s).
  rewrite Hgen. reflexivity.
Qed.

(** C9: a dry run never reaches the backend.  Whenever a model resolves, and
    whatever the role, [call_model] with [dry_run] set returns the marker
    built around the resolved model name, which it contains, and leaves the
    state as it found it: no call of [call_gemini] is recorded and the world
    behind the SDK has not moved. *)
Theorem dry_run_never_calls_the_backend
    (prompt : string) (model_name system_prompt : option string)
    (config : option (gmap string value)) (role : option string)
    (model : string) (s : State W) :
  model_to_use E model_name config role = Some model ->
  call_model E prompt model_name system_prompt config true role s
  = (Ok ("DRY_RUN_RESPONSE: This is a mocked response for model " +:+ model +:+ "."), s)
  /\ str_in model ("DRY_RUN_RESPONSE: This is a mocked response for model " +:+ model +:+ ".")
     = true.
Proof.
  intros Hmodel. split.
  - unfold call_model. rewrite Hmodel. reflexivity.
  - apply str_in_middle.
Qed.

(** C5: one fallback hop, and only to a distinct fallback model.  For a call
    that is neither a dry run nor addressed to a mock model: when the primary
    call returns, its text is the answer and [call_gemini] ran once; when it
    fails and no fallback model is configured, or the fallback model is the
    model that failed, the call fails with a [ModelAPIError] and
    [call_gemini] ran once; otherwise [call_gemini] runs exactly once more,
    for the fallback model with the same prompt, system prompt and
    configuration, and its text is the answer, or its failure makes the call
    fail with a [ModelAPIError].  A fallback model that the configuration
    gives as a value that is true and no string is a model other than the
    one that failed, and is tried once in the same way. *)
Theorem fallback_is_attempted_exactly_once
    (prompt : string) (model_name system_prompt : option string)
    (config : option (gmap string value)) (role : option string)
    (model : string) (s : State W) :
  model_to_use E model_name config role = Some model ->
  String.prefix "mock" model = false ->
  let effective := effective_config E config in
  let outcome := call_model E prompt model_name system_prompt config false role s in
  let primary := Build_GeminiCall model prompt system_prompt in
  match call_gemini E prompt model system_prompt effective s with
  | (Ok text, s1) =>
      outcome = (Ok text, s1) /\ gemini_calls s1 = gemini_calls s ++ [primary]
  | (Raise _, s1) =>
      let no_fallback :=
        outcome = (Raise (Exn ModelAPIError
                            ("Model " +:+ model +:+
                             " failed and no distinct fallback is available.")), s1)
        /\ gemini_calls s1 = gemini_calls s ++ [primary] in
      match as_model_name (effective !! "fallback_model") with
      | None =>
          match as_untyped_model (effective !! "fallback_model") with
          | None => no_fallback
          | Some untyped =>
              let hop := Build_GeminiCall (format_value E untyped) prompt system_prompt in
              match call_gemini_untyped E prompt untyped system_prompt effective s1 with
              | (Ok text, s2) =>
                  outcome = (Ok text, s2)
                  /\ gemini_calls s2 = gemini_calls s ++ [primary; hop]
              | (Raise _, s2) =>
                  outcome = (Raise (Exn ModelAPIError
                                      ("Fallback model " +:+ format_value E untyped
                                       +:+ " also failed.")), s2)
                  /\ gemini_calls s2 = gemini_calls s ++ [primary; hop]
              end
          end
      | Some fallback =>
          if String.eqb model fallback then no_fallback
          else
            match call_gemini E prompt fallback system_prompt effective s1 with
            | (Ok text, s2) =>
                outcome = (Ok text, s2)
                /\ gemini_calls s2
                   = gemini_calls s ++ [primary; Build_GeminiCall fallback prompt system_prompt]
            | (Raise _, s2) =>
                outcome = (Raise (Exn ModelAPIError
                                    ("Fallback model " +:+ fallback +:+ " also failed.")), s2)
                /\ gemini_calls s2
                   = gemini_calls s ++ [primary; Build_GeminiCall fallback prompt system_prompt]
            end
      end
  end.
Proof.
  intros Hmodel Hmock. cbv zeta.
  unfold call_model. rewrite Hmodel, Hmock. cbv iota.
  pose proof (call_gemini_records prompt model system_prompt (effective_config E config) s)
    as Hcalls.
  destruct (call_gemini E prompt model system_prompt (effective_config E config) s)
    as [[text|e] s1] eqn:Hprimary; rewrite try_except_run, Hprimary.
  - split; [reflexivity|exact Hcalls].
  - rewrite (call_gemini_raises _ _ _ _ _ _ _ Hprimary).
    simpl in Hcalls.
    destruct (as_model_name (effective_config E config !! "fallback_model")) as [fallback|].
    2:{ destruct (as_untyped_model (effective_config E config !! "fallback_model"))
          as [untyped|]; [|split; [reflexivity|exact Hcalls]].
        pose proof (call_gemini_untyped_records prompt untyped system_prompt
                      (effective_config E config) s1) as Hcalls2.
        destruct (call_gemini_untyped E prompt untyped system_prompt
                    (effective_config E config) s1)
          as [[text|e2] s2] eqn:Hfallback; rewrite try_except_run, Hfallback;
          simpl in Hcalls2.
        - split; [reflexivity|]. rewrite Hcalls2, Hcalls, <- app_assoc. reflexivity.
        - rewrite (call_gemini_untyped_raises _ _ _ _ _ _ _ Hfallback).
          split; [reflexivity|]. rewrite Hcalls2, Hcalls, <- app_assoc. reflexivity. }
    destruct (String.eqb model fallback); [split; [reflexivity|exact Hcalls]|].
    pose proof (call_gemini_records prompt fallback system_prompt (effective_config E config) s1)
      as Hcalls2.
    destruct (call_gemini E prompt fallback system_prompt (effective_config E config) s1)
      as [[text|e2] s2] eqn:Hfallback; rewrite try_except_run, Hfallback; simpl in Hcalls2.
    + split; [reflexivity|]. rewrite Hcalls2, Hcalls, <- app_assoc. reflexivity.
    + rewrite (call_gemini_raises _ _ _ _ _ _ _ Hfallback).
      split; [reflexivity|]. rewrite Hcalls2, Hcalls, <- app_assoc. reflexivity.
Qed.

End RouterFacts.

(** The dry run at work: the role [critic.txt] resolves to the model of the
    [critic] role; the script of the backend is left untouched. *)
Lemma dry_run_witness :
  call_model routed_env "text" None (Some "be strict") None true (Some "critic.txt")
    (routed_state [SdkText "unused"])
  = (Ok "DRY_RUN_RESPONSE: This is a mocked response for model critic-pro.",
     routed_state [SdkText "unused"])
  /\ str_in "critic-pro" "DRY_RUN_RESPONSE: This is a mocked response for model critic-pro."
     = true.
Proof.
  apply (dry_run_never_calls_the_backend routed_env "text" None (Some "be strict") None
           (Some "critic.txt") "critic-pro" (routed_state [SdkText "unused"])).
  vm_compute. reflexivity.
Defined.

(** The fallback at work: the primary call fails, the one call of the
    configured fallback model answers. *)
Lemma fallback_witness :
  fst (call_model routed_env "text" (Some "primary-model") None None false None
         (routed_state [SdkRaise RetryError; SdkText "from the backup"]))
  = Ok "from the backup"
  /\ map call_model_name
       (gemini_calls
          (snd (call_model routed_env "text" (Some "primary-model") None None false None
                  (routed_state [SdkRaise RetryError; SdkText "from the backup"]))))
     = ["primary-model"; "backup-model"].
Proof.
  pose proof (fallback_is_attempted_exactly_once routed_env "text" (Some "primary-model")
                None None None "primary-model"
                (routed_state [SdkRaise RetryError; SdkText "from the backup"])
                eq_refl eq_refl) as H.
  remember (call_model routed_env "text" (Some "primary-model") None None false None
              (routed_state [SdkRaise RetryError; SdkText "from the backup"])) as outcome.
  clear Heqoutcome. vm_compute in H. destruct H as [-> _].
  split; reflexivity.
Defined.

(** The same when the configured fallback model is the number 7: it is no
    model name, so it is not the model that failed, and it is tried. *)
Lemma untyped_fallback_is_tried :
  fst (call_model untyped_fallback_env "text" (Some "primary-model") None None false None
         (fresh_state untyped_fallback_env [SdkRaise RetryError; SdkText "from the other"]
            true ∅ (Doubles.demo_config 1 true false)))
  = Ok "from the other"
  /\ map call_model_name
       (gemini_calls
          (snd (call_model untyped_fallback_env "text" (Some "primary-model") None None false
                  None
                  (fresh_state untyped_fallback_env
                     [SdkRaise RetryError; SdkText "from the other"]
                     true ∅ (Doubles.demo_config 1 true false)))))
     = ["primary-model"; "<int>"].
Proof. vm_compute. split; reflexivity. Qed.

(** ** Concurrent calls: results come back in the order of the arguments *)

Section GatherFacts.
Context {W : Type} (E : Env W) {A : Type} (I : State W -> Prop).

Lemma omap_id_Some (l : list A) : omap id (Some <$> l) = l.
Proof. induction l as [|x l IH]; simpl; [reflexivity|]. f_equal. exact IH. Qed.

(** The slots of the tasks that have completed hold their answers; once no
    task is pending, the slots are the answers in the order of the tasks,
    whatever the scheduler picked. *)
Lemma gather_go_fills (answers : list A) :
  forall n picks (pending : list (nat * M W A)) (slots : list (option A)) s,
    I s ->
    length pending = n ->
    NoDup (fst <$> pending) ->
    (forall i task, (i, task) ∈ pending ->
       exists a, answers !! i = Some a /\ returns_while I task a) ->
    length slots = length answers ->
    (forall j, j ∉ fst <$> pending -> slots !! j = Some <$> answers !! j) ->
    exists s', gather_go n picks pending slots s = (Ok (Some <$> answers), s') /\ I s'.
Proof.
  induction n as [|n IH]; intros picks pending slots s Hs Hn Hnodup Htasks Hlen Hslots.
  - destruct pending; [|discriminate]. exists s. split; [|exact Hs].
    simpl. unfold ret. do 2 f_equal.
    apply list_eq. intros j. rewrite list_lookup_fmap. apply Hslots. simpl. apply not_elem_of_nil.
  - cbn [gather_go].
    set (k := hd 0 picks `mod` length pending).
    assert (Hk : k < length pending).
    { apply Nat.mod_upper_bound. lia. }
    destruct (lookup_lt_is_Some_2 pending k Hk) as [[i task] Hpick].
    rewrite Hpick.
    pose proof (take_drop_middle _ _ _ Hpick) as Hsplit.
    pose proof (delete_take_drop pending k) as Hdel.
    set (pre := take k pending) in *. set (post := drop (S k) pending) in *.
    rewrite <- Hsplit in Hnodup, Htasks, Hslots.
    rewrite fmap_app, fmap_cons in Hnodup, Hslots. simpl in Hnodup, Hslots.
    apply NoDup_app in Hnodup as (Hpre & Hdisj & Hpost).
    apply NoDup_cons in Hpost as [Hi_post Hpost].
    destruct (Htasks i task) as (a & Ha & Hreturns).
    { apply elem_of_app. right. apply list_elem_of_here. }
    destruct (Hreturns s Hs) as (s1 & Hrun & Hs1).
    rewrite bind_run, Hrun.
    apply IH.
    + exact Hs1.
    + rewrite length_delete by (rewrite Hpick; eauto). lia.
    + rewrite Hdel, fmap_app. apply NoDup_app. repeat split; [exact Hpre| |exact Hpost].
      intros x Hx Hx'. apply (Hdisj x Hx). apply list_elem_of_further, Hx'.
    + intros j t Hj. apply Htasks. rewrite Hdel in Hj.
      apply elem_of_app in Hj as [Hj|Hj]; apply elem_of_app; [left; exact Hj|].
      right. apply list_elem_of_further, Hj.
    + rewrite length_insert. exact Hlen.
    + intros j Hj. rewrite Hdel, fmap_app in Hj. apply not_elem_of_app in Hj as [Hj1 Hj2].
      destruct (decide (i = j)) as [<-|Hne].
      * rewrite list_lookup_insert_eq, Ha; [reflexivity|].
        rewrite Hlen. eapply lookup_lt_Some, Ha.
      * rewrite list_lookup_insert_ne by exact Hne. apply Hslots.
        apply not_elem_of_app. split; [exact Hj1|].
        apply not_elem_of_cons. split; [congruence|exact Hj2].
Qed.

Lemma gather_in_order (tasks : list (M W A)) (answers : list A) :
  Forall2 (returns_while I) tasks answers ->
  forall s, I s -> exists s', gather E tasks s = (Ok answers, s') /\ I s'.
Proof.
  intros Hall s Hs. unfold gather. rewrite bind_run. unfold gets at 1.
  destruct (gather_go_fills answers (length tasks) (completion_picks E (sdk s))
              (imap (fun i task => (i, task)) tasks) (replicate (length tasks) None) s)
    as (s' & Hgo & Hs').
  - exact Hs.
  - apply length_imap.
  - rewrite fmap_imap.
    rewrite (imap_ext _ (fun j _ => j)) by reflexivity.
    rewrite (imap_seq_0 tasks (fun j => j)), list_fmap_id. apply NoDup_seq.
  - intros i task Hin. apply elem_of_lookup_imap_1 in Hin as (j & t & Heq & Hj).
    inversion Heq; subst. eapply Forall2_lookup_l; eassumption.
  - rewrite length_replicate. eapply Forall2_length, Hall.
  - intros j Hj. rewrite fmap_imap in Hj.
    rewrite (imap_ext _ (fun j _ => j)) in Hj by reflexivity.
    rewrite (imap_seq_0 tasks (fun j => j)), list_fmap_id in Hj.
    assert (Hge : length tasks <= j).
    { destruct (decide (j < length tasks)) as [Hlt|]; [|lia].
      exfalso. apply Hj, elem_of_seq. lia. }
    rewrite (proj1 (lookup_replicate_None _ _ _) Hge).
    rewrite lookup_ge_None_2; [reflexivity|].
    rewrite <- (Forall2_length _ _ _ Hall). exact Hge.
  - rewrite bind_run, Hgo. exists s'. split; [|exact Hs'].
    unfold ret. rewrite omap_id_Some. reflexivity.
Qed.

End GatherFacts.

(** What [_critique] joins the critiques with is a blank line: [join] with
    two line feeds puts the texts one after the other, each but the last
    followed by two line feeds. *)
Lemma join_with_blank_lines (texts : list string) :
  join (nl +:+ nl) texts = separated_by_blank_lines texts.
Proof.
  induction texts as [|text rest IH]; [reflexivity|].
  destruct rest as [|next rest]; [reflexivity|].
  change (join (nl +:+ nl) (text :: next :: rest))
    with (text +:+ (nl +:+ nl) +:+ join (nl +:+ nl) (next :: rest)).
  rewrite IH. reflexivity.
Qed.

Section CritiqueFacts.
Context {W : Type} (E : Env W) (self : Loop).

(** C8: the critique of a round is the concatenation of the critiques of the
    roles, in the order of the resolved configuration, with a blank line
    between one role and the next ([separated_by_blank_lines]: after every
    critique but the last come two line feeds, and nothing else is added).
    When the call for each role answers with the text [answer role] (in
    every state that satisfies an invariant [I] of these calls), the critique
    is this text whatever the scheduler decides about the order in which the
    calls complete ([completion_picks E] is arbitrary), and the log entry
    records the roles in the same order. *)
Theorem critique_joins_roles_in_configuration_order
    (I : State W -> Prop) (current_text : string) (round_num : Z)
    (resolved_roles : list string) (answer : string -> string) (s : State W) :
  roles_to_use self = Ok resolved_roles ->
  (forall role, role ∈ resolved_roles ->
     returns_while I (_get_critique E self current_text role) (answer role)) ->
  I s ->
  exists s',
    _critique E self current_text round_num s
    = (Ok (separated_by_blank_lines (map answer resolved_roles),
           {| critique_round := round_num;
              critique_model_used := critic_model (run_config self);
              critique_role_prompt_file_used := resolved_roles;
              critique_text := separated_by_blank_lines (map answer resolved_roles) |}),
       s')
    /\ I s'.
Proof.
  intros Hroles Hanswers Hs. unfold _critique. rewrite Hroles.
  destruct (gather_in_order E I (map (_get_critique E self current_text) resolved_roles)
              (map answer resolved_roles)) with (s := s) as (s' & Hgather & Hs').
  - clear Hroles. induction resolved_roles as [|role rest IH]; simpl; constructor.
    + apply Hanswers. apply list_elem_of_here.
    + apply IH. intros r Hr. apply Hanswers. apply list_elem_of_further, Hr.
  - exact Hs.
  - exists s'. split; [|exact Hs']. rewrite bind_run, Hgather.
    unfold ret. rewrite join_with_blank_lines. reflexivity.
Qed.

End CritiqueFacts.

Lemma critique_order_witness :
  exists s',
    _critique out_of_order_env three_critics "draft" 1
      (fresh_state out_of_order_env tt true ∅ (run_config three_critics))
    = (Ok ("style.txt: draft"
           +:+ String "010"%char (String "010"%char
                 ("logic.txt: draft"
                  +:+ String "010"%char (String "010"%char "facts.txt: draft"))),
           {| critique_round := 1;
              critique_model_used := "critic-model";
              critique_role_prompt_file_used := ["style.txt"; "logic.txt"; "facts.txt"];
              critique_text :=
                "style.txt: draft"
                +:+ String "010"%char (String "010"%char
                      ("logic.txt: draft"
                       +:+ String "010"%char (String "010"%char "facts.txt: draft"))) |}),
       s')
    /\ is_initialized s' = true.
Proof.
  apply (critique_joins_roles_in_configuration_order out_of_order_env three_critics
           (fun s => is_initialized s = true) "draft" 1
           ["style.txt"; "logic.txt"; "facts.txt"] (fun role => role +:+ ": draft")).
  - reflexivity.
  - intros role _ s Hs. eexists. unfold _get_critique, load_role_template.
    change (read_prompt out_of_order_env role) with (Found role).
    rewrite bind_run. unfold ret at 1.
    erewrite call_model_answers by (reflexivity || exact Hs).
    split; [reflexivity|exact Hs].
  - reflexivity.
Defined.

(** ** The loop controller *)

Section Frames.
Context {W : Type} (E : Env W).

Lemma keeps_ret {A} (a : A) : keeps_logs (ret a : M W A).
Proof. intros s. split; reflexivity. Qed.

Lemma keeps_raise {A} e : keeps_logs (raise e : M W A).
Proof. intros s. split; reflexivity. Qed.

Lemma keeps_gets {A} (f : State W -> A) : keeps_logs (gets f).
Proof. intros s. split; reflexivity. Qed.

Lemma keeps_bind {A B} (m : M W A) (k : A -> M W B) :
  keeps_logs m -> (forall a, keeps_logs (k a)) -> keeps_logs (bind m k).
Proof.
  intros Hm Hk s. rewrite bind_run. specialize (Hm s).
  destruct (m s) as [[a|e] s1]; simpl in Hm.
  - destruct (Hk a s1) as [H1 H2]. destruct Hm as [H3 H4]. split; congruence.
  - exact Hm.
Qed.

Lemma keeps_try_except {A} (m : M W A) (handler : exn -> M W A) :
  keeps_logs m -> (forall e, keeps_logs (handler e)) -> keeps_logs (try_except m handler).
Proof.
  intros Hm Hh s. rewrite try_except_run. specialize (Hm s).
  destruct (m s) as [[a|e] s1]; simpl in Hm.
  - exact Hm.
  - destruct (Hh e s1) as [H1 H2]. destruct Hm as [H3 H4]. split; congruence.
Qed.

Lemma keeps_call_gemini prompt model system_prompt config :
  keeps_logs (call_gemini E prompt model system_prompt config).
Proof.
  intros s. unfold call_gemini, bind, modify, gets, raise. simpl.
  destruct (is_initialized s); simpl; [|split; reflexivity].
  destruct (generate_content E (sdk s) model system_prompt prompt config) as [[text|[]] w];
    split; reflexivity.
Qed.

Lemma keeps_call_gemini_untyped prompt model system_prompt config :
  keeps_logs (call_gemini_untyped E prompt model system_prompt config).
Proof.
  intros s. unfold call_gemini_untyped, bind, modify, gets, raise. simpl.
  destruct (is_initialized s); simpl; [|split; reflexivity].
  destruct (generate_content_untyped E (sdk s) model system_prompt prompt config)
    as [[text|[]] w]; split; reflexivity.
Qed.

Lemma keeps_call_model prompt model_name system_prompt config dry role :
  keeps_logs (call_model E prompt model_name system_prompt config dry role).
Proof.
  unfold call_model.
  destruct (model_to_use E model_name config role) as [model|].
  2:{ destruct (untyped_model_to_use E model_name config role); [|apply keeps_raise].
      destruct dry; [apply keeps_ret|apply keeps_raise]. }
  destruct dry; [apply keeps_ret|].
  destruct (String.prefix "mock" model); [apply keeps_ret|].
  apply keeps_try_except; [apply keeps_call_gemini|].
  intros e. destruct (exn_cls e); try apply keeps_raise.
  destruct (as_model_name _) as [fallback|].
  2:{ destruct (as_untyped_model _); [|apply keeps_raise].
      apply keeps_try_except; [apply keeps_call_gemini_untyped|].
      intros e2. destruct (exn_cls e2); apply keeps_raise. }
  destruct (String.eqb model fallback); [apply keeps_raise|].
  apply keeps_try_except; [apply keeps_call_gemini|].
  intros e2. destruct (exn_cls e2); apply keeps_raise.
Qed.

Lemma keeps_gather_go {A} n : forall picks (pending : list (nat * M W A)) slots,
  Forall (fun p => keeps_logs (snd p)) pending ->
  keeps_logs (gather_go n picks pending slots).
Proof.
  induction n as [|n IH]; intros picks pending slots Hall; [apply keeps_ret|].
  cbn [gather_go].
  destruct (pending !! (hd 0 picks `mod` length pending)) as [[i task]|] eqn:Hpick;
    [|apply keeps_ret].
  apply keeps_bind.
  - exact (Forall_lookup_1 _ _ _ _ Hall Hpick).
  - intros a. apply IH, Forall_delete, Hall.
Qed.

Lemma keeps_gather {A} (tasks : list (M W A)) :
  Forall keeps_logs tasks -> keeps_logs (gather E tasks).
Proof.
  intros Hall. unfold gather. apply keeps_bind; [apply keeps_gets|]. intros picks.
  apply keeps_bind; [|intros; apply keeps_ret].
  apply keeps_gather_go. apply Forall_lookup_2. intros j [i task] Hj.
  apply list_lookup_imap_Some in Hj as (t & Ht & Heq). inversion Heq; subst. simpl.
  exact (Forall_lookup_1 _ _ _ _ Hall Ht).
Qed.

Variable self : Loop.

Lemma keeps_load_role_template file_name : keeps_logs (load_role_template E file_name).
Proof.
  unfold load_role_template. destruct (read_prompt E file_name);
    [apply keeps_ret|apply keeps_raise|apply keeps_raise].
Qed.

Lemma keeps_get_critique text role : keeps_logs (_get_critique E self text role).
Proof.
  unfold _get_critique. apply keeps_bind; [apply keeps_load_role_template|].
  intros; apply keeps_call_model.
Qed.

Lemma keeps_critique text round_num : keeps_logs (_critique E self text round_num).
Proof.
  unfold _critique. destruct (roles_to_use self) as [roles|e]; [|apply keeps_raise].
  apply keeps_bind; [|intros; apply keeps_ret].
  apply keeps_gather. apply Forall_forall. intros task Hin.
  apply list_elem_of_In, in_map_iff in Hin as (role & <- & _).
  apply keeps_get_critique.
Qed.

Lemma keeps_refine text critique round_num :
  keeps_logs (_refine E self text critique round_num).
Proof.
  unfold _refine. apply keeps_bind; [apply keeps_call_model|intros; apply keeps_ret].
Qed.

Lemma keeps_get_meta_critique critique : keeps_logs (_get_meta_critique E self critique).
Proof.
  unfold _get_meta_critique.
  destruct (nonempty (meta_critic_template self)); [|apply keeps_ret].
  apply keeps_try_except; [|intros; apply keeps_ret].
  apply keeps_bind; [apply keeps_call_model|].
  intros response. destruct (json_loads E response); apply keeps_ret.
Qed.

Lemma keeps_is_critique_actionable critique :
  keeps_logs (_is_critique_actionable E self critique).
Proof.
  unfold _is_critique_actionable. apply keeps_bind; [apply keeps_get_meta_critique|].
  intros [a|s|items|entries]; try apply keeps_raise. apply keeps_ret.
Qed.

Lemma keeps_generate prompt content : keeps_logs (_generate E self prompt content).
Proof.
  unfold _generate. apply keeps_bind; [|intros; apply keeps_ret].
  destruct (nonempty content); [apply keeps_ret|apply keeps_call_model].
Qed.

Lemma keeps_brainstorm_from n : forall text, keeps_logs (brainstorm_from E self n text).
Proof.
  induction n as [|n IH]; intros text; [apply keeps_ret|].
  cbn [brainstorm_from]. apply keeps_bind; [apply keeps_load_role_template|].
  intros template. apply keeps_bind; [apply keeps_call_model|]. intros; apply IH.
Qed.

Lemma keeps_run_brainstormer_loop text : keeps_logs (_run_brainstormer_loop E self text).
Proof.
  unfold _run_brainstormer_loop.
  destruct (strategy self) as [[names|role_names rounds others]|]; [| |apply keeps_ret].
  - destruct (bool_decide _); [apply keeps_brainstorm_from|apply keeps_ret].
  - destruct (bool_decide _); [apply keeps_brainstorm_from|apply keeps_ret].
Qed.

End Frames.

Lemma keeps_logs_run {W A} (m : M W A) (s s1 : State W) r :
  keeps_logs m -> m s = (r, s1) -> run_log s1 = run_log s /\ files s1 = files s.
Proof. intros Hm Hrun. specialize (Hm s). rewrite Hrun in Hm. exact Hm. Qed.

Lemma round_numbers_S first n :
  round_numbers first (S n) = (first + 1)%Z :: round_numbers (first + 1) n.
Proof.
  unfold round_numbers. cbn [seq map]. f_equal.
  rewrite <- seq_shift, map_map. apply map_ext. intros j. lia.
Qed.

Section LoopFacts.
Context {W : Type} (E : Env W) (self : Loop).

Lemma critique_log_fields text round_num (s s1 : State W) c clog :
  _critique E self text round_num s = (Ok (c, clog), s1) ->
  critique_round clog = round_num /\ critique_text clog = c.
Proof.
  unfold _critique. destruct (roles_to_use self) as [roles|e]; [|discriminate].
  rewrite bind_run. destruct (gather E _ s) as [[texts|e] s']; [|discriminate].
  unfold ret. intros H; inversion H; subst. split; reflexivity.
Qed.

Lemma refine_log_fields text critique round_num (s s1 : State W) r rlog :
  _refine E self text critique round_num s = (Ok (r, rlog), s1) ->
  refinement_round rlog = round_num /\ refinement_text rlog = r.
Proof.
  unfold _refine. rewrite bind_run.
  destruct (call_model E _ _ _ _ _ _ s) as [[text'|e] s']; [|discriminate].
  unfold ret. intros H; inversion H; subst. split; reflexivity.
Qed.

(** A complete round is a pass through the body of the loop that ends with the
    refined text, with one critique and one refinement more in the log. *)
Lemma complete_round_body i text (s : State W) text' s' :
  complete_round E self i text s = Some (text', s') ->
  round_body E self i text s = (Ok (NextRound text'), s') /\
  exists c r,
    critiques (run_log s') = critiques (run_log s) ++ [c] /\
    critique_round c = (i + 1)%Z /\
    refinements (run_log s') = refinements (run_log s) ++ [r] /\
    refinement_round r = (i + 1)%Z /\
    refinement_text r = text' /\
    reason_for_stopping (run_log s') = reason_for_stopping (run_log s) /\
    files s' = files s.
Proof.
  unfold complete_round.
  destruct (_critique E self text (i + 1) s) as [[[c clog]|e] s1] eqn:Hc; [|discriminate].
  destruct (keeps_logs_run _ _ _ _ (keeps_critique E self text (i + 1)) Hc) as [Hl1 Hf1].
  destruct (critique_log_fields _ _ _ _ _ _ Hc) as [Hround _].
  destruct (disable_meta_critic (run_config self)) eqn:Hd.
  - cbn [truthy].
    destruct (_refine E self text c (i + 1) (record_critique clog s1))
      as [[[r rlog]|e] s3] eqn:Hr; [|discriminate].
    intros Hgate. inversion Hgate; subst text' s'.
    destruct (keeps_logs_run _ _ _ _ (keeps_refine E self text c (i + 1)) Hr) as [Hl3 Hf3].
    destruct (refine_log_fields _ _ _ _ _ _ _ Hr) as [Hrr Hrt].
    split.
    + unfold round_body. rewrite try_except_run, bind_run, Hc. cbn [fst snd].
      rewrite bind_run. unfold update_run_log at 1, modify at 1.
      change (with_run_log (append_critique clog (run_log s1)) s1)
        with (record_critique clog s1).
      rewrite bind_run, Hd. unfold ret at 1. cbv iota.
      rewrite bind_run, Hr. cbn [fst snd].
      rewrite bind_run. unfold update_run_log, modify, ret. reflexivity.
    + exists clog, rlog. cbn [record_refinement with_run_log run_log files].
      rewrite Hl3, Hf3. cbn [record_critique with_run_log run_log files].
      rewrite Hl1, Hf1. cbn. repeat split; assumption.
  - destruct (_is_critique_actionable E self c (record_critique clog s1))
      as [[v|e] s2] eqn:Hg; [|discriminate].
    destruct (truthy v) eqn:Hv; [|discriminate].
    destruct (_refine E self text c (i + 1) s2) as [[[r rlog]|e] s3] eqn:Hr; [|discriminate].
    intros Hgate. inversion Hgate; subst text' s'.
    destruct (keeps_logs_run _ _ _ _ (keeps_is_critique_actionable E self c) Hg) as [Hl2 Hf2].
    destruct (keeps_logs_run _ _ _ _ (keeps_refine E self text c (i + 1)) Hr) as [Hl3 Hf3].
    destruct (refine_log_fields _ _ _ _ _ _ _ Hr) as [Hrr Hrt].
    split.
    + unfold round_body. rewrite try_except_run, bind_run, Hc. cbn [fst snd].
      rewrite bind_run. unfold update_run_log at 1, modify at 1.
      change (with_run_log (append_critique clog (run_log s1)) s1)
        with (record_critique clog s1).
      rewrite bind_run, Hd, bind_run, Hg. unfold ret at 1. rewrite Hv. cbn [negb].
      rewrite bind_run, Hr. cbn [fst snd].
      rewrite bind_run. unfold update_run_log, modify, ret. reflexivity.
    + exists clog, rlog. cbn [record_refinement with_run_log run_log files].
      rewrite Hl3, Hl2, Hf3, Hf2. cbn [record_critique with_run_log run_log files].
      rewrite Hl1, Hf1. cbn. repeat split; assumption.
Qed.

(** [n] complete rounds are [n] iterations of the loop. *)
Lemma rounds_from_complete n : forall i text (s : State W) text' s',
  complete_rounds E self n i text s = Some (text', s') ->
  (forall m, rounds_from E self (n + m) i text s
             = rounds_from E self m (i + Z.of_nat n) text' s') /\
  exists cs rs,
    critiques (run_log s') = critiques (run_log s) ++ cs /\
    map critique_round cs = round_numbers i n /\
    refinements (run_log s') = refinements (run_log s) ++ rs /\
    map refinement_round rs = round_numbers i n /\
    last (map refinement_text rs) = match n with O => None | S _ => Some text' end /\
    reason_for_stopping (run_log s') = reason_for_stopping (run_log s) /\
    files s' = files s.
Proof.
  induction n as [|n IH]; intros i text s text' s' Hrounds.
  - inversion Hrounds; subst. split.
    + intros m. rewrite Z.add_0_r. reflexivity.
    + exists [], []. rewrite !app_nil_r. repeat split; reflexivity.
  - cbn [complete_rounds] in Hrounds.
    destruct (complete_round E self i text s) as [[t1 s1]|] eqn:Hround; [|discriminate].
    destruct (complete_round_body _ _ _ _ _ Hround)
      as (Hbody & c & r & Hc & Hcr & Hr & Hrr & Hrt & Hreason & Hfiles).
    destruct (IH _ _ _ _ _ Hrounds)
      as (Hrest & cs & rs & Hcs & Hcsr & Hrs & Hrsr & Hlast & Hreason' & Hfiles').
    split.
    + intros m. cbn [Nat.add rounds_from]. rewrite bind_run, Hbody, Hrest.
      f_equal. lia.
    + exists (c :: cs), (r :: rs).
      rewrite Hcs, Hc, Hrs, Hr, <- !app_assoc, round_numbers_S.
      cbn [map app]. rewrite Hcsr, Hrsr, Hcr, Hrr, Hreason', Hreason, Hfiles', Hfiles.
      repeat split; try reflexivity.
      destruct n as [|n].
      * inversion Hrounds; subst.
        destruct rs; [|discriminate Hrsr]. simpl. congruence.
      * destruct rs as [|r' rs]; [discriminate Hlast|].
        change (map refinement_text (r :: r' :: rs))
          with (refinement_text r :: map refinement_text (r' :: rs)).
        cbn [map] in *. exact Hlast.
Qed.

(** A critique that the gate finds not actionable ends the round, and the
    loop, with the text the round started from. *)
Lemma round_body_stops i text (s s1 s2 : State W) c clog v :
  disable_meta_critic (run_config self) = false ->
  _critique E self text (i + 1) s = (Ok (c, clog), s1) ->
  _is_critique_actionable E self c (record_critique clog s1) = (Ok v, s2) ->
  truthy v = false ->
  round_body E self i text s
  = (Ok (Return text),
     with_run_log
       (set_reason_for_stopping
          ("Non-actionable critique received in round " +:+ str_of_Z (i + 1) +:+ ".")
          (run_log s2)) s2).
Proof.
  intros Hd Hc Hv Hfalse.
  unfold round_body. rewrite try_except_run, bind_run, Hc. cbn [fst snd].
  rewrite bind_run. unfold update_run_log at 1, modify at 1.
  change (with_run_log (append_critique clog (run_log s1)) s1) with (record_critique clog s1).
  rewrite bind_run, Hd, bind_run, Hv. unfold ret at 1. rewrite Hfalse. cbn [negb].
  rewrite bind_run. unfold update_run_log, modify, ret. reflexivity.
Qed.

End LoopFacts.

Section RunFacts.
Context {W : Type} (E : Env W) (self : Loop).

Lemma log_current_run_appends (s : State W) :
  exists s',
    log_current_run E self s = (Ok tt, s') /\
    run_log s' = run_log s /\
    log_lines (log_file (logger self)) s' = S (log_lines (log_file (logger self)) s).
Proof.
  unfold log_current_run. rewrite bind_run. unfold gets at 1. unfold log_run, modify.
  eexists. split; [reflexivity|]. split; [reflexivity|].
  unfold log_lines. cbn [files with_files].
  rewrite lookup_insert_eq. unfold default at 1. cbn [from_option id].
  rewrite length_app. simpl. lia.
Qed.

(** A run whose opening and whose round loop both return: [run] returns the
    loop's text and the closed log, having written the log once. *)
Lemma run_returns prompt content (s0 : State W) t1 s2 final_text s3 :
  opening E self prompt content (started prompt s0) = (Ok t1, s2) ->
  _run_critique_refine_loop E self t1 s2 = (Ok final_text, s3) ->
  exists s',
    run E self prompt content s0
    = (Ok (final_text, closed_log E self (time_time E (sdk s0)) final_text s3), s') /\
    log_lines (log_file (logger self)) s' = S (log_lines (log_file (logger self)) s3).
Proof.
  intros Hopen Hloop.
  unfold opening in Hopen. rewrite bind_run in Hopen.
  destruct (_generate E self prompt content (started prompt s0)) as [[p|e] s1] eqn:Hgen;
    [|discriminate].
  rewrite bind_run in Hopen. unfold update_run_log at 1, modify at 1 in Hopen.
  set (closed := closed_log E self (time_time E (sdk s0)) final_text s3).
  destruct (log_current_run_appends (with_run_log closed s3)) as (s' & Hlog & Hrl & Hlines).
  exists s'. split; [|exact Hlines].
  unfold run. rewrite bind_run. unfold update_run_log at 1, modify at 1.
  change (with_run_log (set_original_user_prompt prompt (run_log s0)) s0)
    with (started prompt s0).
  rewrite bind_run. unfold gets at 1.
  change (time_time E (sdk (started prompt s0))) with (time_time E (sdk s0)).
  rewrite bind_run. unfold try_finally. rewrite try_except_run.
  rewrite bind_run, Hgen.
  rewrite bind_run. unfold update_run_log at 1, modify at 1.
  rewrite bind_run, Hopen.
  rewrite bind_run, Hloop.
  rewrite bind_run. unfold gets at 1.
  rewrite bind_run.
  assert (Hclose :
            forall (sa : State W),
              run_log sa = (if String.eqb (reason_for_stopping (run_log s3)) ""
                            then set_reason_for_stopping
                                   ("Max rounds (" +:+ str_of_Z (max_rounds (run_config self))
                                    +:+ ") reached.") (run_log s3)
                            else run_log s3) ->
              sdk sa = sdk s3 -> is_initialized sa = is_initialized s3 ->
              gemini_calls sa = gemini_calls s3 -> files sa = files s3 ->
              (update_run_log (set_final_output final_text) ;;;
               end_time <- gets (fun s => time_time E (sdk s)) ;;
               update_run_log (set_runtime (end_time - time_time E (sdk s0)))) sa
              = (Ok tt, with_run_log closed s3)).
  { intros sa Hrl' Hsdk Hinit Hcalls Hfiles.
    rewrite bind_run. unfold update_run_log at 1, modify at 1.
    rewrite bind_run. unfold gets at 1. unfold update_run_log, modify.
    unfold with_run_log. cbn [sdk is_initialized gemini_calls files run_log].
    rewrite Hrl', Hsdk, Hinit, Hcalls, Hfiles. reflexivity. }
  destruct (String.eqb (reason_for_stopping (run_log s3)) "") eqn:Hreason.
  - unfold update_run_log at 1, modify at 1.
    rewrite Hclose; [|cbn; reflexivity..].
    rewrite Hlog. rewrite bind_run. unfold gets at 1. unfold ret.
    rewrite Hrl. reflexivity.
  - unfold ret at 1.
    rewrite Hclose; [|cbn; reflexivity..].
    rewrite Hlog. rewrite bind_run. unfold gets at 1. unfold ret.
    rewrite Hrl. reflexivity.
Qed.

End RunFacts.

Section RunClaims.
Context {W : Type} (E : Env W) (self : Loop).

(** The opening of a run adds the generation record to the log and nothing
    else. *)
Lemma opening_log prompt content (s s2 : State W) t1 :
  opening E self prompt content s = (Ok t1, s2) ->
  critiques (run_log s2) = critiques (run_log s) /\
  refinements (run_log s2) = refinements (run_log s) /\
  reason_for_stopping (run_log s2) = reason_for_stopping (run_log s) /\
  files s2 = files s.
Proof.
  unfold opening. rewrite bind_run.
  destruct (_generate E self prompt content s) as [[p|e] s1] eqn:Hgen; [|discriminate].
  destruct (keeps_logs_run _ _ _ _ (keeps_generate E self prompt content) Hgen) as [Hl1 Hf1].
  rewrite bind_run. unfold update_run_log at 1, modify at 1.
  intros Hbrain.
  destruct (keeps_logs_run _ _ _ _ (keeps_run_brainstormer_loop E self (fst p)) Hbrain)
    as [Hl2 Hf2].
  rewrite Hl2, Hf2. cbn [with_run_log run_log files]. rewrite Hl1, Hf1.
  repeat split; reflexivity.
Qed.

(** C2: with the meta-critic disabled and every critique and refinement call
    returning, a run on a fresh loop instance with [max_rounds = N >= 0]
    performs exactly [N] rounds.  If the opening of the run (generation and
    brainstorming) returns and the [N] rounds that follow are complete, [run]
    returns the text of the last round; the log holds [N] critique records
    and [N] refinement records, numbered [1, ..., N] in this order, the last
    refinement record holds the returned text, and the reason for stopping is
    the string [Max rounds (N) reached.] *)
Theorem max_rounds_rounds_then_max_rounds_reached
    (w : W) (initialized : bool) (fs : gmap string (list value))
    (prompt : string) (content : option string) (N : Z)
    (t1 : string) (s2 : State W) (final_text : string) (sN : State W) :
  max_rounds (run_config self) = N ->
  (0 <= N)%Z ->
  disable_meta_critic (run_config self) = true ->
  opening E self prompt content
    (started prompt (fresh_state E w initialized fs (run_config self))) = (Ok t1, s2) ->
  complete_rounds E self (Z.to_nat N) 0 t1 s2 = Some (final_text, sN) ->
  exists l s',
    run E self prompt content (fresh_state E w initialized fs (run_config self))
    = (Ok (final_text, l), s') /\
    final_output l = final_text /\
    reason_for_stopping l = "Max rounds (" +:+ str_of_Z N +:+ ") reached." /\
    map critique_round (critiques l) = round_numbers 0 (Z.to_nat N) /\
    map refinement_round (refinements l) = round_numbers 0 (Z.to_nat N) /\
    Z.of_nat (length (critiques l)) = N /\
    Z.of_nat (length (refinements l)) = N /\
    last (map refinement_text (refinements l))
    = match Z.to_nat N with O => None | S _ => Some final_text end.
Proof.
  intros HN Hpos Hmeta Hopen Hrounds.
  destruct (opening_log _ _ _ _ _ Hopen) as (Hc0 & Hr0 & Hreason0 & _).
  destruct (rounds_from_complete E self _ _ _ _ _ _ Hrounds)
    as (Hloop & cs & rs & Hcs & Hcsr & Hrs & Hrsr & Hlast & Hreason & _).
  specialize (Hloop 0). rewrite Nat.add_0_r in Hloop.
  assert (Hloop' : _run_critique_refine_loop E self t1 s2 = (Ok final_text, sN)).
  { unfold _run_critique_refine_loop. rewrite HN, Hloop. reflexivity. }
  destruct (run_returns E self _ _ _ _ _ _ _ Hopen Hloop') as (s' & Hrun & _).
  eexists _, s'. split; [exact Hrun|].
  unfold closed_log. rewrite Hreason, Hreason0, HN. cbn.
  rewrite Hcs, Hc0, Hrs, Hr0. cbn.
  assert (Hlen : forall {A} (f : A -> Z) (l : list A) n,
             map f l = round_numbers 0 n -> length l = n).
  { intros A f l n Heq. rewrite <- (length_map f l), Heq. unfold round_numbers.
    rewrite length_map, length_seq. reflexivity. }
  repeat split; try assumption.
  - rewrite (Hlen _ _ _ _ Hcsr). apply Z2Nat.id. exact Hpos.
  - rewrite (Hlen _ _ _ _ Hrsr). apply Z2Nat.id. exact Hpos.
Qed.


End RunClaims.

Lemma max_rounds_witness :
  exists l s',
    run plain_env two_round_loop "write a draft" None
      (fresh_state plain_env two_round_script true ∅ (run_config two_round_loop))
    = (Ok ("draft [refined] [refined]", l), s') /\
    final_output l = "draft [refined] [refined]" /\
    reason_for_stopping l = "Max rounds (2) reached." /\
    map critique_round (critiques l) = [1; 2]%Z /\
    map refinement_round (refinements l) = [1; 2]%Z /\
    Z.of_nat (length (critiques l)) = 2%Z /\
    Z.of_nat (length (refinements l)) = 2%Z /\
    last (map refinement_text (refinements l)) = Some "draft [refined] [refined]".
Proof.
  eapply (max_rounds_rounds_then_max_rounds_reached plain_env two_round_loop
            two_round_script true ∅ "write a draft" None 2 "draft" _
            "draft [refined] [refined]" _).
  - reflexivity.
  - lia.
  - reflexivity.
  - vm_compute. reflexivity.
  - vm_compute. reflexivity.
Defined.


(** ** Where the code departs from its specification *)

(** *** How often [run] writes the log *)

Section LogWrites.
Context {W : Type} (E : Env W) (self : Loop).

Lemma keeps_logs_files {A} (m : M W A) : keeps_logs m -> keeps_files m.
Proof. intros Hm s. apply Hm. Qed.

Lemma keeps_files_ret {A} (a : A) : keeps_files (ret a : M W A).
Proof. intros s. reflexivity. Qed.

Lemma keeps_files_raise {A} e : keeps_files (raise e : M W A).
Proof. intros s. reflexivity. Qed.

Lemma keeps_files_gets {A} (f : State W -> A) : keeps_files (gets f).
Proof. intros s. reflexivity. Qed.

Lemma keeps_files_update_run_log f : keeps_files (update_run_log f : M W unit).
Proof. intros s. reflexivity. Qed.

Lemma keeps_files_bind {A B} (m : M W A) (k : A -> M W B) :
  keeps_files m -> (forall a, keeps_files (k a)) -> keeps_files (bind m k).
Proof.
  intros Hm Hk s. rewrite bind_run. specialize (Hm s).
  destruct (m s) as [[a|e] s1]; simpl in Hm; [|exact Hm].
  rewrite (Hk a s1). exact Hm.
Qed.

Lemma keeps_files_try_except {A} (m : M W A) (handler : exn -> M W A) :
  keeps_files m -> (forall e, keeps_files (handler e)) -> keeps_files (try_except m handler).
Proof.
  intros Hm Hh s. rewrite try_except_run. specialize (Hm s).
  destruct (m s) as [[a|e] s1]; simpl in Hm; [exact Hm|].
  rewrite (Hh e s1). exact Hm.
Qed.

Lemma keeps_files_round_body i text : keeps_files (round_body E self i text).
Proof.
  unfold round_body. apply keeps_files_try_except.
  - apply keeps_files_bind; [apply keeps_logs_files, keeps_critique|]. intros p.
    apply keeps_files_bind; [apply keeps_files_update_run_log|]. intros _.
    apply keeps_files_bind.
    + destruct (disable_meta_critic (run_config self)); [apply keeps_files_ret|].
      apply keeps_files_bind; [apply keeps_logs_files, keeps_is_critique_actionable|].
      intros; apply keeps_files_ret.
    + intros [|].
      * apply keeps_files_bind; [apply keeps_files_update_run_log|].
        intros; apply keeps_files_ret.
      * apply keeps_files_bind; [apply keeps_logs_files, keeps_refine|]. intros q.
        apply keeps_files_bind; [apply keeps_files_update_run_log|].
        intros; apply keeps_files_ret.
  - intros e. destruct (exn_cls e); try apply keeps_files_raise;
      (apply keeps_files_bind; [apply keeps_files_update_run_log|]);
      intros; apply keeps_files_ret.
Qed.

Lemma keeps_files_rounds_from n : forall i text, keeps_files (rounds_from E self n i text).
Proof.
  induction n as [|n IH]; intros i text; [apply keeps_files_ret|].
  cbn [rounds_from]. apply keeps_files_bind; [apply keeps_files_round_body|].
  intros [t|t]; [apply IH|apply keeps_files_ret].
Qed.

Lemma keeps_files_run_try_block start_time prompt content :
  keeps_files (run_try_block E self start_time prompt content).
Proof.
  unfold run_try_block.
  apply keeps_files_bind; [apply keeps_logs_files, keeps_generate|]. intros p.
  apply keeps_files_bind; [apply keeps_files_update_run_log|]. intros _.
  apply keeps_files_bind; [apply keeps_logs_files, keeps_run_brainstormer_loop|]. intros t.
  apply keeps_files_bind; [apply keeps_files_rounds_from|]. intros final_text.
  apply keeps_files_bind; [apply keeps_files_gets|]. intros reason.
  apply keeps_files_bind.
  { destruct (String.eqb reason ""); [apply keeps_files_update_run_log|apply keeps_files_ret]. }
  intros _. apply keeps_files_bind; [apply keeps_files_update_run_log|]. intros _.
  apply keeps_files_bind; [apply keeps_files_gets|]. intros end_time.
  apply keeps_files_update_run_log.
Qed.

Lemma log_current_run_lines (s : State W) :
  fst (log_current_run E self s) = Ok tt /\
  log_lines (log_file (logger self)) (snd (log_current_run E self s))
  = S (log_lines (log_file (logger self)) s).
Proof.
  destruct (log_current_run_appends E self s) as (s' & Hrun & _ & Hlines).
  rewrite Hrun. split; [reflexivity|exact Hlines].
Qed.

(** How many lines one call of [run] adds to the log file: one when it
    returns, one when it lets an exception through, except that a
    [TemplateNotFoundError] or a [TimeoutError] is logged twice, once by the
    handler that names these two classes and once more by the [finally]
    clause. *)
Lemma run_log_lines prompt content (s : State W) :
  log_lines (log_file (logger self)) (snd (run E self prompt content s))
  = log_lines (log_file (logger self)) s
    + match fst (run E self prompt content s) with
      | Ok _ => 1
      | Raise e =>
          match exn_cls e with
          | TemplateNotFoundError | TimeoutError => 2
          | _ => 1
          end
      end.
Proof.
  destruct (run E self prompt content s) as [r s'] eqn:Hrun. cbn [fst snd].
  revert Hrun.
  unfold run. rewrite bind_run. unfold update_run_log at 1, modify at 1.
  rewrite bind_run. unfold gets at 1.
  set (s1 := with_run_log (set_original_user_prompt prompt (run_log s)) s).
  change (log_lines (log_file (logger self)) s) with (log_lines (log_file (logger self)) s1).
  rewrite bind_run. unfold try_finally. rewrite try_except_run.
  pose proof (keeps_files_run_try_block (time_time E (sdk s1)) prompt content s1) as Hkeep.
  unfold run_try_block in Hkeep.
  match goal with
  | |- context [match ?body s1 with _ => _ end] =>
      change (files (snd (body s1)) = files s1) in Hkeep;
      destruct (body s1) as [[[]|e] s2]
  end; cbn [snd] in Hkeep.
  - destruct (log_current_run_lines s2) as [Hok Hlines].
    destruct (log_current_run E self s2) as [[[]|e'] s3]; [|discriminate Hok].
    cbn [fst snd] in *. rewrite bind_run. unfold gets at 1, ret.
    intros Hrun. inversion Hrun; subst r s'.
    rewrite Hlines. unfold log_lines. rewrite Hkeep. lia.
  - assert (Hdouble : forall sa : State W, files sa = files s1 ->
              exists sb,
                (update_run_log (set_reason_for_stopping ("Error: " +:+ exn_msg e)) ;;;
                 update_run_log (set_final_output "") ;;;
                 log_current_run E self ;;;
                 raise e : M W unit) sa = (Raise e, sb) /\
                log_lines (log_file (logger self)) sb
                = S (log_lines (log_file (logger self)) s1)).
    { intros sa Hsa.
      rewrite bind_run. unfold update_run_log at 1, modify at 1.
      rewrite bind_run. unfold update_run_log at 1, modify at 1.
      rewrite bind_run.
      match goal with
      | |- context [log_current_run E self ?st] =>
          destruct (log_current_run_lines st) as [Hok Hlines];
          destruct (log_current_run E self st) as [[[]|e'] sb]; [|discriminate Hok]
      end.
      exists sb. split; [reflexivity|]. cbn [snd] in Hlines. rewrite Hlines.
      unfold log_lines. cbn [files with_run_log]. rewrite Hsa. reflexivity. }
    assert (Hsingle : forall sa : State W, files sa = files s1 ->
              exists sb,
                (now <- gets (fun s => now_isoformat E (sdk s)) ;;
                 update_run_log (set_reason_for_stopping
                                   ("[" +:+ now +:+ "] Error during critique/refine loop: "
                                    +:+ exn_msg e)) ;;;
                 update_run_log (set_final_output "") ;;;
                 raise e : M W unit) sa = (Raise e, sb) /\
                log_lines (log_file (logger self)) sb = log_lines (log_file (logger self)) s1).
    { intros sa Hsa. eexists. split; [reflexivity|].
      unfold log_lines. cbn. rewrite Hsa. reflexivity. }
    destruct (exn_cls e) eqn:Hcls.
    all: first [ destruct (Hdouble s2 Hkeep) as (sb & Hsb & Hlines); rewrite Hsb
               | destruct (Hsingle s2 Hkeep) as (sb & Hsb & Hlines); rewrite Hsb ].
    all: clear Hsb;
      destruct (log_current_run_lines sb) as [Hok Hlines'];
      (destruct (log_current_run E self sb) as [[[]|e'] s3]; [|discriminate Hok]);
      cbn [fst snd] in *; intros Hrun; inversion Hrun; subst r s';
      rewrite Hcls, Hlines', Hlines; lia.
Qed.

End LogWrites.

(** C1 (a defect of the code): a run that ends with a [TemplateNotFoundError]
    writes its log entry twice.  One of the two critic roles has no prompt
    file; the round loop lets the error through, the first handler of [run]
    logs and raises again, and the [finally] clause logs once more. *)
Theorem missing_template_is_logged_twice :
  let outcome :=
    run missing_prompt_env two_critics "write a draft" (Some "draft")
      (fresh_state missing_prompt_env [SdkText "sound"] true ∅ (run_config two_critics)) in
  fst outcome
  = Raise (Exn TemplateNotFoundError "Prompt template not found at prompts/style.txt")
  /\ log_lines "logs/run.jsonl" (snd outcome) = 2
  /\ (files (snd outcome) !! "logs/run.jsonl"
      = Some [run_log_value (run_log (snd outcome)); run_log_value (run_log (snd outcome))]).
Proof. vm_compute. repeat split; reflexivity. Qed.

(** *** The verdict of the meta-critic *)

Section VerdictFacts.
Context {W : Type} (E : Env W) (self : Loop).

(** A response of the meta-critic that is valid JSON but no JSON object (a
    list, a number, a string, [true], [null]) is returned by
    [_get_meta_critique] as it was parsed, and [_is_critique_actionable]
    raises an [AttributeError] on it: the check that a response is a
    dictionary is only made for responses that are no strings. *)
Lemma unreadable_verdict_raises critique (s s1 : State W) template response parsed :
  nonempty (meta_critic_template self) = Some template ->
  call_model E critique (Some (meta_critic_model (run_config self)))
    (meta_critic_template self) (Some (full_config (run_config self)))
    (dry_run (run_config self)) (Some "meta_critic") s = (Ok response, s1) ->
  json_loads E response = Some parsed ->
  (forall entries, parsed <> PyDict entries) ->
  _is_critique_actionable E self critique s
  = (Raise (Exn AttributeError
              ("'" +:+ type_name parsed +:+ "' object has no attribute 'get'")), s1).
Proof.
  intros Htemplate Hcall Hjson Hshape.
  unfold _is_critique_actionable, _get_meta_critique.
  rewrite Htemplate, bind_run, try_except_run, bind_run, Hcall, Hjson.
  unfold ret at 1.
  destruct parsed as [a|str|items|entries]; try reflexivity.
  exfalso. exact (Hshape entries eq_refl).
Qed.

(** A JSON object whose [actionable] entry is no boolean is taken by its
    truth value: any non-empty string counts as actionable. *)
Lemma verdict_by_truth_value critique (s s1 : State W) template response entries verdict :
  nonempty (meta_critic_template self) = Some template ->
  call_model E critique (Some (meta_critic_model (run_config self)))
    (meta_critic_template self) (Some (full_config (run_config self)))
    (dry_run (run_config self)) (Some "meta_critic") s = (Ok response, s1) ->
  json_loads E response = Some (PyDict entries) ->
  dict_get "actionable" entries = Some verdict ->
  _is_critique_actionable E self critique s = (Ok verdict, s1).
Proof.
  intros Htemplate Hcall Hjson Hverdict.
  unfold _is_critique_actionable, _get_meta_critique.
  rewrite Htemplate, bind_run, try_except_run, bind_run, Hcall, Hjson.
  unfold ret at 1. rewrite Hverdict. reflexivity.
Qed.

End VerdictFacts.

(** C4 (a defect of the code): the meta-critic answers with the JSON text of
    an empty list.  The verdict check raises an [AttributeError] instead of
    answering that the critique is not actionable; the round loop catches it
    as an unexpected error, and the run ends with that error as its reason,
    not with a non-actionable critique. *)
Theorem json_list_verdict_escapes_the_verdict_check :
  let s :=
    fresh_state plain_env [SdkText "[]"] true ∅ (run_config gated_loop) in
  fst (_is_critique_actionable plain_env gated_loop "tighten the opening" s)
  = Raise (Exn AttributeError "'list' object has no attribute 'get'")
  /\
  let outcome :=
    run plain_env gated_loop "write a draft" (Some "draft")
      (fresh_state plain_env [SdkText "tighten the opening"; SdkText "[]"] true ∅
         (run_config gated_loop)) in
  exists l,
    fst outcome = Ok ("draft", l) /\
    reason_for_stopping l = "Error in round 1: 'list' object has no attribute 'get'".
Proof. vm_compute. split; [reflexivity|]. eexists. split; reflexivity. Qed.

(** *** Provided content *)

Section GenerateFacts.
Context {W : Type} (E : Env W) (self : Loop).

(** Content that is supplied and not empty is used as it is, without any
    call, and the log says so. *)
Lemma generate_uses_provided_content prompt content (s : State W) :
  content <> "" ->
  _generate E self prompt (Some content) s
  = (Ok (content,
         {| gen_text := content; gen_model_used := "N/A (provided content for review)" |}),
     s).
Proof.
  intros Hne. unfold _generate. cbn [nonempty].
  destruct (String.eqb content "") eqn:Heq.
  - apply String.eqb_eq in Heq. contradiction.
  - reflexivity.
Qed.

(** Without content the generator role is called, and the log names the
    generator model. *)
Lemma generate_calls_the_generator prompt (s : State W) :
  _generate E self prompt None s
  = match call_model E ("User prompt: " +:+ prompt)
            (Some (generator_model (run_config self))) None
            (Some (full_config (run_config self))) (dry_run (run_config self))
            (Some "generator") s with
    | (Ok text, s') =>
        (Ok (text, {| gen_text := text;
                      gen_model_used := generator_model (run_config self) |}), s')
    | (Raise e, s') => (Raise e, s')
    end.
Proof. unfold _generate. cbn [nonempty]. rewrite bind_run. reflexivity. Qed.

End GenerateFacts.

(** C6 (a defect of the code): content that is supplied but empty.  [_generate]
    tests the content for truth when it chooses between the content and the
    generator, and for [None] when it fills in [model_used]: for the empty
    string the generator is called and its text is used, while the log
    records that the content was provided. *)
Theorem empty_content_calls_the_generator :
  let outcome :=
    _generate plain_env two_round_loop "write a draft" (Some "")
      (fresh_state plain_env [SdkText "generated text"] true ∅ (run_config two_round_loop)) in
  fst outcome
  = Ok ("generated text",
        {| gen_text := "generated text";
           gen_model_used := "N/A (provided content for review)" |})
  /\ gemini_calls (snd outcome)
     = [{| call_model_name := "gen-model";
           call_prompt := "User prompt: write a draft";
           call_system_prompt := None |}].
Proof. vm_compute. split; reflexivity. Qed.

(** ** Every run: what it returns, raises and writes *)

Section RunOutcomeFacts.
Context {W : Type} (E : Env W) (self : Loop).

Lemma log_current_run_writes (s : State W) :
  log_current_run E self s = (Ok tt, write_log E self s).
Proof. reflexivity. Qed.

(** [run], by the outcome of its [try] block. *)
Lemma run_by_cases prompt content (s : State W) :
  run E self prompt content s
  = match run_try_block E self (time_time E (sdk s)) prompt content (started prompt s) with
    | (Ok _, s2) =>
        (Ok (final_output (run_log s2), run_log s2), write_log E self s2)
    | (Raise e, s2) =>
        (Raise e,
         match exn_cls e with
         | TemplateNotFoundError | TimeoutError =>
             write_log E self (write_log E self (with_run_log (failure_log E e s2) s2))
         | _ => write_log E self (with_run_log (failure_log E e s2) s2)
         end)
    end.
Proof.
  unfold run. rewrite bind_run. unfold update_run_log at 1, modify at 1.
  rewrite bind_run. unfold gets at 1.
  change (with_run_log (set_original_user_prompt prompt (run_log s)) s) with (started prompt s).
  change (time_time E (sdk (started prompt s))) with (time_time E (sdk s)).
  rewrite bind_run. unfold try_finally. rewrite try_except_run.
  fold (run_try_block E self (time_time E (sdk s)) prompt content).
  destruct (run_try_block E self (time_time E (sdk s)) prompt content (started prompt s))
    as [[[]|e] s2].
  - rewrite log_current_run_writes. reflexivity.
  - unfold failure_log. destruct (exn_cls e); reflexivity.
Qed.

End RunOutcomeFacts.

Section RunOutcomeFacts2.
Context {W : Type} (E : Env W) (self : Loop).

(** The [try] block of [run], by the outcomes of the opening and of the round
    loop. *)
Lemma run_try_block_by_cases start_time prompt content (s1 : State W) :
  run_try_block E self start_time prompt content s1
  = match opening E self prompt content s1 with
    | (Ok t1, s2) =>
        match _run_critique_refine_loop E self t1 s2 with
        | (Ok final_text, s3) =>
            (Ok tt, with_run_log (closed_log E self start_time final_text s3) s3)
        | (Raise e, s3) => (Raise e, s3)
        end
    | (Raise e, s2) => (Raise e, s2)
    end.
Proof.
  unfold run_try_block, opening. rewrite !bind_run.
  destruct (_generate E self prompt content s1) as [[p|e] s1a]; [|reflexivity].
  rewrite !bind_run. unfold update_run_log, modify.
  rewrite bind_run.
  destruct (_run_brainstormer_loop E self (fst p) _) as [[t1|e] s2]; [|reflexivity].
  rewrite bind_run.
  destruct (_run_critique_refine_loop E self t1 s2) as [[final_text|e] s3]; [|reflexivity].
  rewrite bind_run. unfold gets at 1. rewrite bind_run.
  unfold closed_log.
  destruct (String.eqb (reason_for_stopping (run_log s3)) ""); reflexivity.
Qed.

Lemma closed_log_fields start_time final_text (s : State W) :
  final_output (closed_log E self start_time final_text s) = final_text /\
  reason_for_stopping (closed_log E self start_time final_text s) <> "" /\
  runtime (closed_log E self start_time final_text s)
  = Some (time_time E (sdk s) - start_time)%Z /\
  critiques (closed_log E self start_time final_text s) = critiques (run_log s) /\
  refinements (closed_log E self start_time final_text s) = refinements (run_log s).
Proof.
  unfold closed_log.
  destruct (String.eqb (reason_for_stopping (run_log s)) "") eqn:Hreason; cbn.
  - repeat split; try reflexivity. discriminate.
  - repeat split; try reflexivity. intros Heq. rewrite Heq in Hreason. discriminate.
Qed.

(** X1: whatever its outcome, [run] changes no file but the log file of its
    logger, and only appends to it: one copy of the final run log, as
    [log_run] writes it, when it returns or raises any other exception, and
    two copies when it raises [TemplateNotFoundError] or
    [asyncio.TimeoutError]. *)
Theorem run_appends_its_final_log_and_writes_nothing_else
    (prompt : string) (content : option string) (s : State W) :
  let outcome := run E self prompt content s in
  let path := log_file (logger self) in
  let entry := entry_to_log E (logger self) (run_log_value (run_log (snd outcome))) in
  files (snd outcome)
  = <[path := default [] (files s !! path)
              ++ match fst outcome with
                 | Ok _ => [entry]
                 | Raise e =>
                     match exn_cls e with
                     | TemplateNotFoundError | TimeoutError => [entry; entry]
                     | _ => [entry]
                     end
                 end]> (files s).
Proof.
  cbv zeta. rewrite run_by_cases.
  pose proof (keeps_files_run_try_block E self (time_time E (sdk s)) prompt content
                (started prompt s)) as Hkeep.
  change (files (started prompt s)) with (files s) in Hkeep.
  destruct (run_try_block E self (time_time E (sdk s)) prompt content (started prompt s))
    as [[[]|e] s2]; cbn [fst snd] in *.
  - unfold write_log. cbn [files with_files run_log]. rewrite Hkeep. reflexivity.
  - destruct (exn_cls e); unfold write_log; cbn [files with_files with_run_log run_log];
      rewrite ?lookup_insert_eq, ?insert_insert_eq, Hkeep; cbn [default from_option id];
      rewrite <- ?app_assoc; reflexivity.
Qed.

(** X2: when [run] returns, the log it returns is the run log of the
    instance, the text it returns is the [final_output] of that log,
    [reason_for_stopping] is not empty, [runtime] is set, and the
    last line of the log file is this log as [log_run] writes it. *)
Theorem a_returned_run_is_closed
    (prompt : string) (content : option string) (s : State W)
    (out : string) (l : RunLog) (s' : State W) :
  run E self prompt content s = (Ok (out, l), s') ->
  l = run_log s' /\
  out = final_output l /\
  reason_for_stopping l <> "" /\
  (exists t, runtime l = Some t) /\
  last (default [] (files s' !! log_file (logger self)))
  = Some (entry_to_log E (logger self) (run_log_value l)).
Proof.
  rewrite run_by_cases, run_try_block_by_cases.
  destruct (opening E self prompt content (started prompt s)) as [[t1|e] s2];
    [|discriminate].
  destruct (_run_critique_refine_loop E self t1 s2) as [[final_text|e] s3]; [|discriminate].
  intros H. inversion H; subst out l s'. clear H.
  destruct (closed_log_fields (time_time E (sdk s)) final_text s3)
    as (Hout & Hreason & Hruntime & _).
  cbn [with_run_log run_log write_log with_files files].
  repeat split.
  - exact Hreason.
  - eexists. exact Hruntime.
  - rewrite lookup_insert_eq. cbn [default from_option id]. apply last_snoc.
Qed.

End RunOutcomeFacts2.

Section RoundEnds.
Context {W : Type} (E : Env W) (self : Loop).

(** The handlers of the round loop, for an exception caught in state [sa]. *)
Lemma round_handler_ends i text (l : RunLog) (cs : list CritiqueLog) e (sa : State W) r s' :
  critiques (run_log sa) = critiques l ++ cs ->
  map critique_round cs = round_numbers i (length cs) ->
  length cs <= 1 ->
  refinements (run_log sa) = refinements l ->
  reason_for_stopping (run_log sa) = reason_for_stopping l ->
  match exn_cls e with
  | TimeoutError =>
      update_run_log (set_reason_for_stopping ("Timeout in round " +:+ str_of_Z (i + 1))) ;;;
      ret (Return text)
  | TemplateNotFoundError | ValueError => raise e
  | _ =>
      update_run_log (set_reason_for_stopping
                        ("Error in round " +:+ str_of_Z (i + 1) +:+ ": " +:+ exn_msg e)) ;;;
      ret (Return text)
  end sa = (r, s') ->
  round_end i text l (run_log s') r /\ files s' = files sa.
Proof.
  intros Hc Hnum Hlen Hr Hreason.
  destruct (exn_cls e) eqn:Hcls; intros H; inversion H; subst r s'; clear H;
    (split; [|reflexivity]).
  all: try (eapply round_stopped; [exact Hc|exact Hnum|exact Hlen|exact Hr|]; cbn;
            first [apply stop_timeout | apply stop_error]).
  all: eapply round_raised; [|exact Hc|exact Hnum|exact Hlen|exact Hr|exact Hreason];
    rewrite Hcls; auto.
Qed.

Lemma round_body_ends i text (s : State W) r s' :
  round_body E self i text s = (r, s') ->
  round_end i text (run_log s) (run_log s') r /\ files s' = files s.
Proof.
  unfold round_body. rewrite try_except_run, bind_run.
  destruct (_critique E self text (i + 1) s) as [[[c clog]|e] s1] eqn:Hc.
  2:{ destruct (keeps_logs_run _ _ _ _ (keeps_critique E self text (i + 1)) Hc) as [Hl1 Hf1].
      intros H. rewrite <- Hf1.
      apply (round_handler_ends i text (run_log s) [] e s1 r s'); rewrite ?Hl1, ?app_nil_r;
        try reflexivity; [cbn; lia|exact H]. }
  destruct (keeps_logs_run _ _ _ _ (keeps_critique E self text (i + 1)) Hc) as [Hl1 Hf1].
  destruct (critique_log_fields _ _ _ _ _ _ _ _ Hc) as [Hround _].
  cbn [fst snd]. rewrite bind_run. unfold update_run_log at 1, modify at 1.
  change (with_run_log (append_critique clog (run_log s1)) s1) with (record_critique clog s1).
  assert (Hnum : map critique_round [clog] = round_numbers i (length [clog])).
  { cbn. rewrite Hround. unfold round_numbers. cbn. reflexivity. }
  assert (Hcs : critiques (run_log (record_critique clog s1)) = critiques (run_log s) ++ [clog]).
  { cbn. rewrite Hl1. reflexivity. }
  assert (Hrs : refinements (run_log (record_critique clog s1)) = refinements (run_log s)).
  { cbn. rewrite Hl1. reflexivity. }
  assert (Hreason : reason_for_stopping (run_log (record_critique clog s1))
                    = reason_for_stopping (run_log s)).
  { cbn. rewrite Hl1. reflexivity. }
  assert (Hfiles : files (record_critique clog s1) = files s) by exact Hf1.
  generalize dependent (record_critique clog s1). intros sc Hcs Hrs Hreason Hfiles.
  (* the refinement step, under the handlers of the round *)
  assert (Hrefine : forall sg,
            run_log sg = run_log sc -> files sg = files sc ->
            (let (r0, s0) :=
               (q <- _refine E self text c (i + 1) ;;
                update_run_log (append_refinement (snd q)) ;;;
                ret (NextRound (fst q))) sg in
             match r0 with
             | Ok a => (Ok a, s0)
             | Raise e0 =>
                 match exn_cls e0 with
                 | TimeoutError =>
                     update_run_log
                       (set_reason_for_stopping ("Timeout in round " +:+ str_of_Z (i + 1))) ;;;
                     ret (Return text)
                 | TemplateNotFoundError | ValueError => raise e0
                 | _ =>
                     update_run_log
                       (set_reason_for_stopping
                          ("Error in round " +:+ str_of_Z (i + 1) +:+ ": " +:+ exn_msg e0)) ;;;
                     ret (Return text)
                 end s0
             end) = (r, s') ->
            round_end i text (run_log s) (run_log s') r /\ files s' = files s).
  { intros sg Hlg Hfg. rewrite bind_run.
    destruct (_refine E self text c (i + 1) sg) as [[[rt rlog]|e] s3] eqn:Href.
    - destruct (keeps_logs_run _ _ _ _ (keeps_refine E self text c (i + 1)) Href) as [Hl3 Hf3].
      destruct (refine_log_fields _ _ _ _ _ _ _ _ _ Href) as [Hrr Hrt].
      cbn [fst snd]. intros H. inversion H; subst r s'; clear H.
      split; [|cbn; congruence].
      rewrite <- Hrt. eapply round_refined with (c := clog); cbn; rewrite ?Hl3, ?Hlg;
        try assumption.
      rewrite Hrs. reflexivity.
    - destruct (keeps_logs_run _ _ _ _ (keeps_refine E self text c (i + 1)) Href) as [Hl3 Hf3].
      intros H.
      destruct (round_handler_ends i text (run_log s) [clog] e s3 r s') as [Hend Hf];
        rewrite ?Hl3, ?Hlg; try assumption; [cbn; lia|].
      split; [exact Hend|congruence]. }
  rewrite bind_run.
  destruct (disable_meta_critic (run_config self)).
  - unfold ret at 1. cbv iota. apply Hrefine; reflexivity.
  - rewrite bind_run.
    destruct (_is_critique_actionable E self c sc) as [[v|e] s2] eqn:Hg.
    + destruct (keeps_logs_run _ _ _ _ (keeps_is_critique_actionable E self c) Hg) as [Hl2 Hf2].
      unfold ret at 1. destruct (truthy v); cbn [negb].
      * apply Hrefine; assumption.
      * rewrite bind_run. unfold update_run_log, modify, ret.
        intros H. inversion H; subst r s'; clear H. split; [|cbn; congruence].
        eapply round_stopped with (cs := [clog]); cbn; rewrite ?Hl2; try assumption;
          [lia|apply stop_not_actionable].
    + destruct (keeps_logs_run _ _ _ _ (keeps_is_critique_actionable E self c) Hg) as [Hl2 Hf2].
      intros H.
      destruct (round_handler_ends i text (run_log s) [clog] e s2 r s') as [Hend Hf];
        rewrite ?Hl2; try assumption; [cbn; lia|].
      split; [exact Hend|congruence].
Qed.

End RoundEnds.

Lemma early_stop_is_no_other_reason k reason :
  early_stop k reason -> reason <> "" /\ forall x, reason <> "Max rounds (" +:+ x.
Proof. intros []; split; try discriminate; intros x; discriminate. Qed.

Lemma text_after_cons text r rs :
  text_after text (r :: rs) = text_after (refinement_text r) rs.
Proof. unfold text_after. rewrite last_cons. destruct (last rs); reflexivity. Qed.

Section LoopEnds.
Context {W : Type} (E : Env W) (self : Loop).

(** How the round loop can end, and what it leaves in the run log. *)
Lemma rounds_from_ends n : forall i text (s : State W) r s',
  rounds_from E self n i text s = (r, s') ->
  exists cs rs,
    critiques (run_log s') = critiques (run_log s) ++ cs /\
    refinements (run_log s') = refinements (run_log s) ++ rs /\
    map critique_round cs = round_numbers i (length cs) /\
    map refinement_round rs = round_numbers i (length rs) /\
    length rs <= length cs <= S (length rs) /\
    length cs <= n /\
    files s' = files s /\
    match r with
    | Ok t =>
        t = text_after text rs /\
        ((length rs = n /\ reason_for_stopping (run_log s') = reason_for_stopping (run_log s))
         \/ (length rs < n /\
             early_stop (i + Z.of_nat (length rs) + 1) (reason_for_stopping (run_log s'))))
    | Raise e =>
        (exn_cls e = ValueError \/ exn_cls e = TemplateNotFoundError) /\
        length rs < n /\
        reason_for_stopping (run_log s') = reason_for_stopping (run_log s)
    end.
Proof.
  induction n as [|n IH]; intros i text s r s' Hrun.
  - inversion Hrun; subst. exists [], []. rewrite !app_nil_r. cbn.
    repeat split; try reflexivity; try lia. left. split; reflexivity.
  - cbn [rounds_from] in Hrun. rewrite bind_run in Hrun.
    destruct (round_body E self i text s) as [rb s1] eqn:Hbody.
    destruct (round_body_ends E self _ _ _ _ _ Hbody) as [Hend Hf1].
    inversion Hend as [c rl Hc Hcr Hr Hrr Hreason Heq
                      |cs Hc Hnum Hlen Hr Hstop Heq
                      |e cs Hcls Hc Hnum Hlen Hr Hreason Heq]; subst rb.
    + destruct (IH _ _ _ _ _ Hrun)
        as (cs & rs & Hcs & Hrs & Hcn & Hrn & Hle & Hlen & Hf & Hres).
      exists (c :: cs), (rl :: rs).
      rewrite Hcs, Hc, Hrs, Hr, <- !app_assoc. cbn [app length map].
      rewrite !round_numbers_S, Hcn, Hrn, Hcr, Hrr.
      repeat split; try reflexivity; try lia; try congruence.
      destruct r as [t|e].
      * destruct Hres as [Ht Hcases]. split; [rewrite text_after_cons; exact Ht|].
        destruct Hcases as [[Hall Hsame]|[Hfew Hstop]].
        -- left. split; [lia|congruence].
        -- right. split; [lia|].
           replace (i + Z.of_nat (S (length rs)) + 1)%Z
             with (i + 1 + Z.of_nat (length rs) + 1)%Z by lia.
           exact Hstop.
      * destruct Hres as (Hcls & Hfew & Hsame). repeat split; [exact Hcls|lia|congruence].
    + inversion Hrun; subst r s'. exists cs, [].
      rewrite app_nil_r. cbn [length map].
      repeat split; try assumption; try reflexivity; try lia.
      right. split; [lia|]. rewrite Z.add_0_r. exact Hstop.
    + inversion Hrun; subst r s'. exists cs, [].
      rewrite app_nil_r. cbn [length map].
      repeat split; try assumption; try reflexivity; try lia.
Qed.

(** X3: [_run_critique_refine_loop] lets only [ValueError] and
    [TemplateNotFoundError] escape: every other exception of a round, a
    timeout included, ends the loop with a return. *)
Theorem the_round_loop_raises_only_configuration_errors
    (initial_text : string) (s : State W) (e : exn) (s' : State W) :
  _run_critique_refine_loop E self initial_text s = (Raise e, s') ->
  exn_cls e = ValueError \/ exn_cls e = TemplateNotFoundError.
Proof.
  unfold _run_critique_refine_loop. intros Hrun.
  destruct (rounds_from_ends _ _ _ _ _ _ Hrun) as (cs & rs & _ & _ & _ & _ & _ & _ & _ & Hres).
  apply Hres.
Qed.

(** A fresh instance that has opened and run its round loop. *)
Lemma fresh_run_ends w initialized fs prompt content t1 (s2 : State W) r s3 :
  opening E self prompt content
    (started prompt (fresh_state E w initialized fs (run_config self))) = (Ok t1, s2) ->
  _run_critique_refine_loop E self t1 s2 = (r, s3) ->
  let N := Z.to_nat (max_rounds (run_config self)) in
  map critique_round (critiques (run_log s3))
  = round_numbers 0 (length (critiques (run_log s3))) /\
  map refinement_round (refinements (run_log s3))
  = round_numbers 0 (length (refinements (run_log s3))) /\
  length (refinements (run_log s3)) <= length (critiques (run_log s3))
  <= S (length (refinements (run_log s3))) /\
  length (critiques (run_log s3)) <= N /\
  match r with
  | Ok t =>
      t = text_after t1 (refinements (run_log s3)) /\
      ((length (refinements (run_log s3)) = N /\ reason_for_stopping (run_log s3) = "")
       \/ (length (refinements (run_log s3)) < N /\
           early_stop (Z.of_nat (length (refinements (run_log s3))) + 1)
             (reason_for_stopping (run_log s3))))
  | Raise e =>
      (exn_cls e = ValueError \/ exn_cls e = TemplateNotFoundError) /\
      length (refinements (run_log s3)) < N /\
      reason_for_stopping (run_log s3) = ""
  end.
Proof.
  intros Hopen Hloop N.
  destruct (opening_log _ _ _ _ _ _ _ Hopen) as (Hc0 & Hr0 & Hreason0 & _).
  cbn in Hc0, Hr0, Hreason0.
  unfold _run_critique_refine_loop in Hloop.
  destruct (rounds_from_ends _ _ _ _ _ _ Hloop)
    as (cs & rs & Hcs & Hrs & Hcn & Hrn & Hle & Hlen & _ & Hres).
  rewrite Hc0 in Hcs. rewrite Hr0 in Hrs. cbn [app] in Hcs, Hrs.
  rewrite Hreason0 in Hres. rewrite Hcs, Hrs.
  repeat split; try assumption; try lia.
Qed.

End LoopEnds.

Section ReturnedRuns.
Context {W : Type} (E : Env W) (self : Loop).

(** A run returns when its opening and its round loop do, and then with the
    closed log. *)
Lemma returned_run prompt content (s : State W) out l s' :
  run E self prompt content s = (Ok (out, l), s') ->
  exists t1 s2 s3,
    opening E self prompt content (started prompt s) = (Ok t1, s2) /\
    _run_critique_refine_loop E self t1 s2 = (Ok out, s3) /\
    l = closed_log E self (time_time E (sdk s)) out s3.
Proof.
  rewrite run_by_cases, run_try_block_by_cases.
  destruct (opening E self prompt content (started prompt s)) as [[t1|e] s2] eqn:Hopen;
    [|discriminate].
  destruct (_run_critique_refine_loop E self t1 s2) as [[final_text|e] s3] eqn:Hloop;
    [|discriminate].
  intros H.
  destruct (closed_log_fields E self (time_time E (sdk s)) final_text s3) as (Hout & _).
  cbn [run_log with_run_log] in H. rewrite Hout in H.
  inversion H; subst. exists t1, s2, s3. repeat split; assumption.
Qed.

(** X4: on a fresh instance, the text [run] returns is the text of the last
    refinement in the log it returns, and the text after generation and
    brainstorming when that log holds no refinement. *)
Theorem the_returned_text_is_the_last_refinement
    (w : W) (initialized : bool) (fs : gmap string (list value))
    (prompt : string) (content : option string)
    (t1 : string) (s2 : State W) (out : string) (l : RunLog) (s' : State W) :
  opening E self prompt content
    (started prompt (fresh_state E w initialized fs (run_config self))) = (Ok t1, s2) ->
  run E self prompt content (fresh_state E w initialized fs (run_config self))
  = (Ok (out, l), s') ->
  out = match last (refinements l) with
        | Some r => refinement_text r
        | None => t1
        end.
Proof.
  intros Hopen Hrun.
  destruct (returned_run _ _ _ _ _ _ Hrun) as (t1' & s2' & s3 & Hopen' & Hloop & ->).
  rewrite Hopen in Hopen'. inversion Hopen'; subst t1' s2'.
  destruct (fresh_run_ends E self _ _ _ _ _ _ _ _ _ Hopen Hloop)
    as (_ & _ & _ & _ & Ht & _).
  destruct (closed_log_fields E self (time_time E (sdk (fresh_state E w initialized fs
                                                          (run_config self)))) out s3)
    as (_ & _ & _ & _ & ->).
  rewrite Ht at 1. unfold text_after. destruct (last (refinements (run_log s3))); reflexivity.
Qed.

(** X5: on a fresh instance whose [run] returns, the critique records carry
    the round numbers 1, 2, ... in order and so do the refinement records;
    there are as many critiques as refinements or one more, and at most
    [max_rounds] of them. *)
Theorem round_records_are_numbered_consecutively
    (w : W) (initialized : bool) (fs : gmap string (list value))
    (prompt : string) (content : option string)
    (out : string) (l : RunLog) (s' : State W) :
  run E self prompt content (fresh_state E w initialized fs (run_config self))
  = (Ok (out, l), s') ->
  map critique_round (critiques l) = round_numbers 0 (length (critiques l)) /\
  map refinement_round (refinements l) = round_numbers 0 (length (refinements l)) /\
  length (refinements l) <= length (critiques l) <= S (length (refinements l)) /\
  length (critiques l) <= Z.to_nat (max_rounds (run_config self)).
Proof.
  intros Hrun.
  destruct (returned_run _ _ _ _ _ _ Hrun) as (t1 & s2 & s3 & Hopen & Hloop & ->).
  destruct (fresh_run_ends E self _ _ _ _ _ _ _ _ _ Hopen Hloop)
    as (Hcn & Hrn & Hle & Hlen & _).
  destruct (closed_log_fields E self (time_time E (sdk (fresh_state E w initialized fs
                                                          (run_config self)))) out s3)
    as (_ & _ & _ & -> & ->).
  repeat split; try assumption; lia.
Qed.

(** X6: on a fresh instance whose [run] returns, [reason_for_stopping] is
    ['Max rounds (N) reached.'] exactly when all [max_rounds] rounds were
    refined; otherwise fewer were, and the reason is one of the three the
    loop records for the round after the last refinement: a non-actionable
    critique, a timeout, or an error. *)
Theorem the_reason_for_stopping_tells_how_the_loop_ended
    (w : W) (initialized : bool) (fs : gmap string (list value))
    (prompt : string) (content : option string)
    (out : string) (l : RunLog) (s' : State W) :
  run E self prompt content (fresh_state E w initialized fs (run_config self))
  = (Ok (out, l), s') ->
  let N := max_rounds (run_config self) in
  let refined := length (refinements l) in
  (reason_for_stopping l = "Max rounds (" +:+ str_of_Z N +:+ ") reached."
   <-> refined = Z.to_nat N) /\
  (refined <> Z.to_nat N ->
   refined < Z.to_nat N /\ early_stop (Z.of_nat refined + 1) (reason_for_stopping l)).
Proof.
  intros Hrun N refined. subst refined.
  destruct (returned_run _ _ _ _ _ _ Hrun) as (t1 & s2 & s3 & Hopen & Hloop & ->).
  destruct (fresh_run_ends E self _ _ _ _ _ _ _ _ _ Hopen Hloop)
    as (_ & _ & _ & _ & _ & Hcases).
  destruct (closed_log_fields E self (time_time E (sdk (fresh_state E w initialized fs
                                                          (run_config self)))) out s3)
    as (_ & _ & _ & _ & ->).
  unfold closed_log.
  destruct Hcases as [[Hall Hreason]|[Hfew Hstop]].
  - rewrite Hreason. cbn. fold N. split; [split; [intros _; exact Hall|reflexivity]|].
    intros Hne. contradiction.
  - destruct (early_stop_is_no_other_reason _ _ Hstop) as [Hne Hmax].
    destruct (String.eqb (reason_for_stopping (run_log s3)) "") eqn:Heq.
    { apply String.eqb_eq in Heq. contradiction. }
    cbn. split; [split|].
    + intros Heq'. exfalso. exact (Hmax _ Heq').
    + intros Heq'. fold N in Hfew. lia.
    + intros _. split; [exact Hfew|exact Hstop].
Qed.

End ReturnedRuns.

Section FailingRounds.
Context {W : Type} (E : Env W) (self : Loop).

(** After [earlier] complete rounds the loop is at the body of the next. *)
Lemma loop_after_complete_rounds earlier t1 (s2 : State W) text sk :
  (Z.of_nat earlier + 1 <= max_rounds (run_config self))%Z ->
  complete_rounds E self earlier 0 t1 s2 = Some (text, sk) ->
  _run_critique_refine_loop E self t1 s2
  = match round_body E self (Z.of_nat earlier) text sk with
    | (Ok (NextRound t), s) =>
        rounds_from E self (Z.to_nat (max_rounds (run_config self)) - S earlier)
          (Z.of_nat earlier + 1) t s
    | (Ok (Return t), s) => (Ok t, s)
    | (Raise e, s) => (Raise e, s)
    end.
Proof.
  intros Hk Hrounds.
  destruct (rounds_from_complete E self _ _ _ _ _ _ Hrounds) as (Hloop & _).
  unfold _run_critique_refine_loop.
  replace (Z.to_nat (max_rounds (run_config self)))
    with (earlier + S (Z.to_nat (max_rounds (run_config self)) - S earlier)) at 1 by lia.
  rewrite Hloop. cbn [rounds_from]. rewrite bind_run, Z.add_0_l.
  destruct (round_body E self (Z.of_nat earlier) text sk) as [[[t|t]|e] s]; reflexivity.
Qed.

(** A round whose critique raises is left to the handlers of the loop. *)
Lemma round_body_when_the_critique_raises i text (s s1 : State W) e :
  _critique E self text (i + 1) s = (Raise e, s1) ->
  round_body E self i text s
  = match exn_cls e with
    | TimeoutError =>
        (Ok (Return text),
         with_run_log (set_reason_for_stopping ("Timeout in round " +:+ str_of_Z (i + 1))
                         (run_log s1)) s1)
    | TemplateNotFoundError | ValueError => (Raise e, s1)
    | _ =>
        (Ok (Return text),
         with_run_log (set_reason_for_stopping
                         ("Error in round " +:+ str_of_Z (i + 1) +:+ ": " +:+ exn_msg e)
                         (run_log s1)) s1)
    end.
Proof.
  intros Hc. unfold round_body. rewrite try_except_run, bind_run, Hc.
  destruct (exn_cls e); reflexivity.
Qed.

(** X7: if after some complete rounds the critique step of round [k] raises
    an exception that is no timeout, no [ValueError] and no
    [TemplateNotFoundError] (a failure of the backend, say), [run] does not
    fail: it returns the text of the last complete round, with the reason
    ['Error in round k: <message>'] and the records of the complete rounds
    only. *)
Theorem a_failing_critic_ends_the_run_with_the_text_so_far
    (w : W) (initialized : bool) (fs : gmap string (list value))
    (prompt : string) (content : option string) (earlier : nat)
    (t1 : string) (s2 : State W) (text : string) (sk : State W)
    (e : exn) (sk1 : State W) :
  (Z.of_nat earlier + 1 <= max_rounds (run_config self))%Z ->
  opening E self prompt content
    (started prompt (fresh_state E w initialized fs (run_config self))) = (Ok t1, s2) ->
  complete_rounds E self earlier 0 t1 s2 = Some (text, sk) ->
  _critique E self text (Z.of_nat earlier + 1) sk = (Raise e, sk1) ->
  exn_cls e <> TimeoutError ->
  exn_cls e <> TemplateNotFoundError ->
  exn_cls e <> ValueError ->
  exists l s',
    run E self prompt content (fresh_state E w initialized fs (run_config self))
    = (Ok (text, l), s') /\
    final_output l = text /\
    reason_for_stopping l
    = "Error in round " +:+ str_of_Z (Z.of_nat earlier + 1) +:+ ": " +:+ exn_msg e /\
    length (critiques l) = earlier /\
    length (refinements l) = earlier.
Proof.
  intros Hk Hopen Hrounds Hcritique Hto Htnf Hve.
  destruct (opening_log _ _ _ _ _ _ _ Hopen) as (Hc0 & Hr0 & _).
  destruct (rounds_from_complete E self _ _ _ _ _ _ Hrounds)
    as (_ & cs & rs & Hcs & Hcsr & Hrs & Hrsr & _).
  destruct (keeps_logs_run _ _ _ _ (keeps_critique E self text _) Hcritique) as [Hl1 _].
  set (stopped := with_run_log
                    (set_reason_for_stopping
                       ("Error in round " +:+ str_of_Z (Z.of_nat earlier + 1) +:+ ": "
                        +:+ exn_msg e) (run_log sk1)) sk1).
  assert (Hloop : _run_critique_refine_loop E self t1 s2 = (Ok text, stopped)).
  { rewrite (loop_after_complete_rounds _ _ _ _ _ Hk Hrounds).
    rewrite (round_body_when_the_critique_raises _ _ _ _ _ Hcritique).
    destruct (exn_cls e); try reflexivity; contradiction. }
  destruct (run_returns E self _ _ _ _ _ _ _ Hopen Hloop) as (s' & Hrun & _).
  eexists _, s'. split; [exact Hrun|].
  unfold closed_log, stopped.
  cbn [with_run_log run_log reason_for_stopping set_reason_for_stopping].
  assert (Hne : String.eqb ("Error in round " +:+ str_of_Z (Z.of_nat earlier + 1) +:+ ": "
                            +:+ exn_msg e) "" = false) by reflexivity.
  rewrite Hne.
  cbn [final_output reason_for_stopping critiques refinements
       set_runtime set_final_output set_reason_for_stopping].
  rewrite Hl1, Hcs, Hc0, Hrs, Hr0.
  cbn [fresh_state started with_run_log run_log set_original_user_prompt initial_run_log
       critiques refinements app].
  assert (Hlen : forall {A} (f : A -> Z) (l : list A) n,
             map f l = round_numbers 0 n -> length l = n).
  { intros A f l n Heq. rewrite <- (length_map f l), Heq. unfold round_numbers.
    rewrite length_map, length_seq. reflexivity. }
  repeat split; try reflexivity.
  - apply (Hlen _ _ _ _ Hcsr).
  - apply (Hlen _ _ _ _ Hrsr).
Qed.

(** X8: if the critique step of a round raises a [ValueError], [run] raises
    it.  The log then has an empty [final_output], the reason
    ['[<time>] Error during critique/refine loop: <message>'] and the
    refinements of the earlier rounds, and the log file has got exactly one
    line more: this log. *)
Theorem a_configuration_error_in_a_round_fails_the_run
    (w : W) (initialized : bool) (fs : gmap string (list value))
    (prompt : string) (content : option string) (earlier : nat)
    (t1 : string) (s2 : State W) (text : string) (sk : State W)
    (e : exn) (sk1 : State W) :
  (Z.of_nat earlier + 1 <= max_rounds (run_config self))%Z ->
  opening E self prompt content
    (started prompt (fresh_state E w initialized fs (run_config self))) = (Ok t1, s2) ->
  complete_rounds E self earlier 0 t1 s2 = Some (text, sk) ->
  _critique E self text (Z.of_nat earlier + 1) sk = (Raise e, sk1) ->
  exn_cls e = ValueError ->
  exists s',
    run E self prompt content (fresh_state E w initialized fs (run_config self))
    = (Raise e, s') /\
    final_output (run_log s') = "" /\
    reason_for_stopping (run_log s')
    = "[" +:+ now_isoformat E (sdk s') +:+ "] Error during critique/refine loop: "
      +:+ exn_msg e /\
    length (refinements (run_log s')) = earlier /\
    files s' !! log_file (logger self)
    = Some (default [] (fs !! log_file (logger self))
            ++ [entry_to_log E (logger self) (run_log_value (run_log s'))]).
Proof.
  intros Hk Hopen Hrounds Hcritique Hcls.
  destruct (opening_log _ _ _ _ _ _ _ Hopen) as (_ & Hr0 & _ & Hf0).
  destruct (rounds_from_complete E self _ _ _ _ _ _ Hrounds)
    as (_ & cs & rs & _ & _ & Hrs & Hrsr & _ & _ & Hfk).
  destruct (keeps_logs_run _ _ _ _ (keeps_critique E self text _) Hcritique) as [Hl1 Hf1].
  assert (Hloop : _run_critique_refine_loop E self t1 s2 = (Raise e, sk1)).
  { rewrite (loop_after_complete_rounds _ _ _ _ _ Hk Hrounds).
    rewrite (round_body_when_the_critique_raises _ _ _ _ _ Hcritique), Hcls. reflexivity. }
  eexists. split.
  { rewrite run_by_cases, run_try_block_by_cases, Hopen, Hloop, Hcls. reflexivity. }
  unfold failure_log, write_log. rewrite Hcls.
  cbn [with_run_log with_files run_log files sdk final_output reason_for_stopping refinements
       set_final_output set_reason_for_stopping].
  rewrite lookup_insert_eq, Hf1, Hfk, Hf0, Hl1, Hrs, Hr0.
  cbn [fresh_state started with_run_log run_log files set_original_user_prompt initial_run_log
       refinements app].
  repeat split; try reflexivity.
  rewrite <- (length_map refinement_round rs), Hrsr. unfold round_numbers.
  rewrite length_map, length_seq. reflexivity.
Qed.

End FailingRounds.

(** The gated scenario once more: the run stops in round 2. *)
Lemma returned_run_witness :
  exists out l s',
    run plain_env gated_loop "write a draft" None
      (fresh_state plain_env gated_script true ∅ (run_config gated_loop))
    = (Ok (out, l), s') /\
    l = run_log s' /\
    out = final_output l /\
    reason_for_stopping l <> "" /\
    (exists t, runtime l = Some t) /\
    last (default [] (files s' !! log_file (logger gated_loop)))
    = Some (entry_to_log plain_env (logger gated_loop) (run_log_value l)).
Proof.
  eexists _, _, _. split; [vm_compute; reflexivity|].
  eapply (a_returned_run_is_closed plain_env gated_loop "write a draft" None
            (fresh_state plain_env gated_script true ∅ (run_config gated_loop))).
  vm_compute. reflexivity.
Defined.

Lemma round_loop_raises_witness :
  exn_cls (Exn TemplateNotFoundError "Prompt template not found at prompts/style.txt")
  = ValueError
  \/ exn_cls (Exn TemplateNotFoundError "Prompt template not found at prompts/style.txt")
     = TemplateNotFoundError.
Proof.
  eapply (the_round_loop_raises_only_configuration_errors missing_prompt_env two_critics
            "draft"
            (fresh_state missing_prompt_env [SdkText "sound"] true ∅ (run_config two_critics))).
  vm_compute. reflexivity.
Defined.

Lemma configuration_error_witness :
  exists s',
    run plain_env no_critic_loop "write a draft" (Some "draft")
      (fresh_state plain_env [] true ∅ (run_config no_critic_loop))
    = (Raise (Exn ValueError "No critic role specified in the configuration."), s') /\
    final_output (run_log s') = "" /\
    reason_for_stopping (run_log s')
    = "[" +:+ now_isoformat plain_env (sdk s') +:+ "] Error during critique/refine loop: "
      +:+ "No critic role specified in the configuration." /\
    length (refinements (run_log s')) = 0 /\
    files s' !! log_file (logger no_critic_loop)
    = Some (default [] ((∅ : gmap string (list value)) !! log_file (logger no_critic_loop))
            ++ [entry_to_log plain_env (logger no_critic_loop)
                  (run_log_value (run_log s'))]).
Proof.
  eapply (a_configuration_error_in_a_round_fails_the_run plain_env no_critic_loop
            [] true ∅ "write a draft" (Some "draft") 0 "draft" _ "draft" _
            (Exn ValueError "No critic role specified in the configuration.") _).
  - vm_compute. discriminate.
  - vm_compute. reflexivity.
  - vm_compute. reflexivity.
  - vm_compute. reflexivity.
  - reflexivity.
Defined.

Lemma last_refinement_witness :
  exists out l s',
    run plain_env gated_loop "write a draft" None
      (fresh_state plain_env gated_script true ∅ (run_config gated_loop))
    = (Ok (out, l), s') /\
    out = "draft, tightened" /\
    out = match last (refinements l) with
          | Some r => refinement_text r
          | None => "draft"
          end.
Proof.
  eexists _, _, _. split; [vm_compute; reflexivity|]. split; [reflexivity|].
  eapply (the_returned_text_is_the_last_refinement plain_env gated_loop gated_script true ∅
            "write a draft" None "draft").
  - vm_compute. reflexivity.
  - vm_compute. reflexivity.
Defined.

Lemma numbered_records_witness :
  exists out l s',
    run plain_env gated_loop "write a draft" None
      (fresh_state plain_env gated_script true ∅ (run_config gated_loop))
    = (Ok (out, l), s') /\
    map critique_round (critiques l) = round_numbers 0 (length (critiques l)) /\
    map refinement_round (refinements l) = round_numbers 0 (length (refinements l)) /\
    length (refinements l) <= length (critiques l) <= S (length (refinements l)) /\
    length (critiques l) <= Z.to_nat (max_rounds (run_config gated_loop)).
Proof.
  eexists _, _, _. split; [vm_compute; reflexivity|].
  eapply (round_records_are_numbered_consecutively plain_env gated_loop gated_script true ∅
            "write a draft" None).
  vm_compute. reflexivity.
Defined.

Lemma reason_for_stopping_witness :
  exists out l s',
    run plain_env gated_loop "write a draft" None
      (fresh_state plain_env gated_script true ∅ (run_config gated_loop))
    = (Ok (out, l), s') /\
    (reason_for_stopping l
     = "Max rounds (" +:+ str_of_Z (max_rounds (run_config gated_loop)) +:+ ") reached."
     <-> length (refinements l) = Z.to_nat (max_rounds (run_config gated_loop))) /\
    (length (refinements l) <> Z.to_nat (max_rounds (run_config gated_loop)) ->
     length (refinements l) < Z.to_nat (max_rounds (run_config gated_loop)) /\
     early_stop (Z.of_nat (length (refinements l)) + 1) (reason_for_stopping l)).
Proof.
  eexists _, _, _. split; [vm_compute; reflexivity|].
  eapply (the_reason_for_stopping_tells_how_the_loop_ended plain_env gated_loop gated_script
            true ∅ "write a draft" None).
  vm_compute. reflexivity.
Defined.

(** A backend failure in the first round: the run returns the provided text. *)
Lemma failing_critic_witness :
  exists l s',
    run plain_env two_round_loop "write a draft" (Some "draft")
      (fresh_state plain_env [SdkRaise RetryError] true ∅ (run_config two_round_loop))
    = (Ok ("draft", l), s') /\
    final_output l = "draft" /\
    reason_for_stopping l
    = "Error in round 1: Model critic-model failed and no distinct fallback is available." /\
    length (critiques l) = 0 /\
    length (refinements l) = 0.
Proof.
  eapply (a_failing_critic_ends_the_run_with_the_text_so_far plain_env two_round_loop
            [SdkRaise RetryError] true ∅ "write a draft" (Some "draft") 0 "draft" _ "draft" _
            (Exn ModelAPIError
               "Model critic-model failed and no distinct fallback is available.") _).
  - vm_compute. discriminate.
  - vm_compute. reflexivity.
  - vm_compute. reflexivity.
  - vm_compute. reflexivity.
  - vm_compute. discriminate.
  - vm_compute. discriminate.
  - vm_compute. discriminate.
Defined.

(** ** Dry runs *)

Section DryRuns.
Context {W : Type} (E : Env W).

Lemma backend_ret {A} (a : A) : keeps_backend (ret a : M W A).
Proof. intros s. split; reflexivity. Qed.

Lemma backend_raise {A} e : keeps_backend (raise e : M W A).
Proof. intros s. split; reflexivity. Qed.

Lemma backend_gets {A} (f : State W -> A) : keeps_backend (gets f).
Proof. intros s. split; reflexivity. Qed.

Lemma backend_update_run_log f : keeps_backend (update_run_log f : M W unit).
Proof. intros s. split; reflexivity. Qed.

Lemma backend_bind {A B} (m : M W A) (k : A -> M W B) :
  keeps_backend m -> (forall a, keeps_backend (k a)) -> keeps_backend (bind m k).
Proof.
  intros Hm Hk s. rewrite bind_run. specialize (Hm s).
  destruct (m s) as [[a|e] s1]; simpl in Hm.
  - destruct (Hk a s1) as [H1 H2]. destruct Hm as [H3 H4]. split; congruence.
  - exact Hm.
Qed.

Lemma backend_try_except {A} (m : M W A) (handler : exn -> M W A) :
  keeps_backend m -> (forall e, keeps_backend (handler e)) ->
  keeps_backend (try_except m handler).
Proof.
  intros Hm Hh s. rewrite try_except_run. specialize (Hm s).
  destruct (m s) as [[a|e] s1]; simpl in Hm.
  - exact Hm.
  - destruct (Hh e s1) as [H1 H2]. destruct Hm as [H3 H4]. split; congruence.
Qed.

Lemma backend_dry_call_model prompt model_name system_prompt config role :
  keeps_backend (call_model E prompt model_name system_prompt config true role).
Proof.
  unfold call_model.
  destruct (model_to_use E model_name config role); [apply backend_ret|].
  destruct (untyped_model_to_use E model_name config role);
    [apply backend_ret|apply backend_raise].
Qed.

Lemma backend_gather_go {A} n : forall picks (pending : list (nat * M W A)) slots,
  Forall (fun p => keeps_backend (snd p)) pending ->
  keeps_backend (gather_go n picks pending slots).
Proof.
  induction n as [|n IH]; intros picks pending slots Hall; [apply backend_ret|].
  cbn [gather_go].
  destruct (pending !! (hd 0 picks `mod` length pending)) as [[i task]|] eqn:Hpick;
    [|apply backend_ret].
  apply backend_bind.
  - exact (Forall_lookup_1 _ _ _ _ Hall Hpick).
  - intros a. apply IH, Forall_delete, Hall.
Qed.

Lemma backend_gather {A} (tasks : list (M W A)) :
  Forall keeps_backend tasks -> keeps_backend (gather E tasks).
Proof.
  intros Hall. unfold gather. apply backend_bind; [apply backend_gets|]. intros picks.
  apply backend_bind; [|intros; apply backend_ret].
  apply backend_gather_go. apply Forall_lookup_2. intros j [i task] Hj.
  apply list_lookup_imap_Some in Hj as (t & Ht & Heq). inversion Heq; subst. simpl.
  exact (Forall_lookup_1 _ _ _ _ Hall Ht).
Qed.

Lemma backend_load_role_template file_name : keeps_backend (load_role_template E file_name).
Proof.
  unfold load_role_template. destruct (read_prompt E file_name);
    [apply backend_ret|apply backend_raise|apply backend_raise].
Qed.

Variable self : Loop.
Hypothesis Hdry : dry_run (run_config self) = true.

Lemma backend_get_critique text role : keeps_backend (_get_critique E self text role).
Proof.
  unfold _get_critique. apply backend_bind; [apply backend_load_role_template|].
  intros. rewrite Hdry. apply backend_dry_call_model.
Qed.

Lemma backend_critique text round_num : keeps_backend (_critique E self text round_num).
Proof.
  unfold _critique. destruct (roles_to_use self) as [roles|e]; [|apply backend_raise].
  apply backend_bind; [|intros; apply backend_ret].
  apply backend_gather. apply Forall_forall. intros task Hin.
  apply list_elem_of_In, in_map_iff in Hin as (role & <- & _).
  apply backend_get_critique.
Qed.

Lemma backend_refine text critique round_num :
  keeps_backend (_refine E self text critique round_num).
Proof.
  unfold _refine. rewrite Hdry.
  apply backend_bind; [apply backend_dry_call_model|intros; apply backend_ret].
Qed.

Lemma backend_is_critique_actionable critique :
  keeps_backend (_is_critique_actionable E self critique).
Proof.
  unfold _is_critique_actionable, _get_meta_critique. rewrite Hdry.
  apply backend_bind.
  - destruct (nonempty (meta_critic_template self)); [|apply backend_ret].
    apply backend_try_except; [|intros; apply backend_ret].
    apply backend_bind; [apply backend_dry_call_model|].
    intros response. destruct (json_loads E response); apply backend_ret.
  - intros [a|str|items|entries]; try apply backend_raise. apply backend_ret.
Qed.

Lemma backend_generate prompt content : keeps_backend (_generate E self prompt content).
Proof.
  unfold _generate. rewrite Hdry. apply backend_bind; [|intros; apply backend_ret].
  destruct (nonempty content); [apply backend_ret|apply backend_dry_call_model].
Qed.

Lemma backend_brainstorm_from n : forall text, keeps_backend (brainstorm_from E self n text).
Proof.
  induction n as [|n IH]; intros text; [apply backend_ret|].
  cbn [brainstorm_from]. apply backend_bind; [apply backend_load_role_template|].
  intros template. rewrite Hdry.
  apply backend_bind; [apply backend_dry_call_model|]. intros; apply IH.
Qed.

Lemma backend_run_brainstormer_loop text :
  keeps_backend (_run_brainstormer_loop E self text).
Proof.
  unfold _run_brainstormer_loop.
  destruct (strategy self) as [[names|role_names rounds others]|]; [| |apply backend_ret].
  - destruct (bool_decide _); [apply backend_brainstorm_from|apply backend_ret].
  - destruct (bool_decide _); [apply backend_brainstorm_from|apply backend_ret].
Qed.

Lemma backend_round_body i text : keeps_backend (round_body E self i text).
Proof.
  unfold round_body. apply backend_try_except.
  - apply backend_bind; [apply backend_critique|]. intros p.
    apply backend_bind; [apply backend_update_run_log|]. intros _.
    apply backend_bind.
    + destruct (disable_meta_critic (run_config self)); [apply backend_ret|].
      apply backend_bind; [apply backend_is_critique_actionable|].
      intros; apply backend_ret.
    + intros [|].
      * apply backend_bind; [apply backend_update_run_log|].
        intros; apply backend_ret.
      * apply backend_bind; [apply backend_refine|]. intros q.
        apply backend_bind; [apply backend_update_run_log|].
        intros; apply backend_ret.
  - intros e. destruct (exn_cls e); try apply backend_raise;
      (apply backend_bind; [apply backend_update_run_log|]);
      intros; apply backend_ret.
Qed.

Lemma backend_rounds_from n : forall i text, keeps_backend (rounds_from E self n i text).
Proof.
  induction n as [|n IH]; intros i text; [apply backend_ret|].
  cbn [rounds_from]. apply backend_bind; [apply backend_round_body|].
  intros [t|t]; [apply IH|apply backend_ret].
Qed.

Lemma backend_run_try_block start_time prompt content :
  keeps_backend (run_try_block E self start_time prompt content).
Proof.
  unfold run_try_block.
  apply backend_bind; [apply backend_generate|]. intros p.
  apply backend_bind; [apply backend_update_run_log|]. intros _.
  apply backend_bind; [apply backend_run_brainstormer_loop|]. intros t.
  apply backend_bind; [apply backend_rounds_from|]. intros final_text.
  apply backend_bind; [apply backend_gets|]. intros reason.
  apply backend_bind.
  { destruct (String.eqb reason ""); [apply backend_update_run_log|apply backend_ret]. }
  intros _. apply backend_bind; [apply backend_update_run_log|]. intros _.
  apply backend_bind; [apply backend_gets|]. intros end_time.
  apply backend_update_run_log.
Qed.

End DryRuns.

Section DryRunClaims.
Context {W : Type} (E : Env W) (self : Loop).

(** X9: with [dry_run] set, a whole [run] (generation, brainstorming, every
    round, the meta-critic) makes no call of [call_gemini] and leaves the
    world behind the SDK as it was, whatever the outcome of the run. *)
Theorem a_dry_run_never_reaches_the_backend
    (prompt : string) (content : option string) (s : State W) :
  dry_run (run_config self) = true ->
  gemini_calls (snd (run E self prompt content s)) = gemini_calls s /\
  sdk (snd (run E self prompt content s)) = sdk s.
Proof.
  intros Hdry. rewrite run_by_cases.
  destruct (backend_run_try_block E self Hdry (time_time E (sdk s)) prompt content
              (started prompt s)) as [Hsdk Hcalls].
  cbn [started with_run_log sdk gemini_calls] in Hsdk, Hcalls.
  destruct (run_try_block E self (time_time E (sdk s)) prompt content (started prompt s))
    as [[[]|e] s2]; cbn [fst snd] in *.
  - split; assumption.
  - destruct (exn_cls e); split; assumption.
Qed.

(** In a dry run the meta-critic's model is not asked: what is read as its
    verdict is the marker of the dry run. *)
Lemma dry_verdict critique (s : State W) template :
  dry_run (run_config self) = true ->
  nonempty (meta_critic_template self) = Some template ->
  meta_critic_model (run_config self) <> "" ->
  json_loads E (dry_run_response (meta_critic_model (run_config self))) = None ->
  _is_critique_actionable E self critique s
  = (Ok (Atom (PyBool (str_in "ACTIONABLE"
                         (dry_run_response (meta_critic_model (run_config self)))))), s).
Proof.
  intros Hdry Htemplate Hmodel Hjson.
  unfold _is_critique_actionable, _get_meta_critique.
  rewrite Htemplate, bind_run, try_except_run, bind_run.
  unfold call_model, model_to_use. cbn [nonempty].
  destruct (String.eqb (meta_critic_model (run_config self)) "") eqn:Heq.
  { apply String.eqb_eq in Heq. contradiction. }
  rewrite Hdry. unfold ret at 1. rewrite Hjson. reflexivity.
Qed.

Lemma dry_round_never_refines i text (s : State W) template t s' :
  dry_run (run_config self) = true ->
  disable_meta_critic (run_config self) = false ->
  nonempty (meta_critic_template self) = Some template ->
  meta_critic_model (run_config self) <> "" ->
  json_loads E (dry_run_response (meta_critic_model (run_config self))) = None ->
  str_in "ACTIONABLE" (dry_run_response (meta_critic_model (run_config self))) = false ->
  round_body E self i text s <> (Ok (NextRound t), s').
Proof.
  intros Hdry Hgate Htemplate Hmodel Hjson Hword.
  unfold round_body. rewrite try_except_run, bind_run.
  destruct (_critique E self text (i + 1) s) as [[[c clog]|e] s1].
  - cbn [fst snd]. rewrite bind_run. unfold update_run_log at 1, modify at 1.
    rewrite bind_run, Hgate, bind_run.
    rewrite (dry_verdict _ _ _ Hdry Htemplate Hmodel Hjson), Hword.
    unfold ret at 1. cbn [truthy negb]. discriminate.
  - destruct (exn_cls e); discriminate.
Qed.

Lemma dry_rounds_never_refine n template :
  dry_run (run_config self) = true ->
  disable_meta_critic (run_config self) = false ->
  nonempty (meta_critic_template self) = Some template ->
  meta_critic_model (run_config self) <> "" ->
  json_loads E (dry_run_response (meta_critic_model (run_config self))) = None ->
  str_in "ACTIONABLE" (dry_run_response (meta_critic_model (run_config self))) = false ->
  forall i text (s : State W) r s',
    rounds_from E self n i text s = (r, s') ->
    refinements (run_log s') = refinements (run_log s).
Proof.
  intros Hdry Hgate Htemplate Hmodel Hjson Hword i text s r s' Hrun.
  destruct n as [|n]; [inversion Hrun; reflexivity|].
  cbn [rounds_from] in Hrun. rewrite bind_run in Hrun.
  destruct (round_body E self i text s) as [rb s1] eqn:Hbody.
  destruct (round_body_ends E self _ _ _ _ _ Hbody) as [Hend _].
  destruct rb as [[t|t]|e].
  - exfalso. exact (dry_round_never_refines _ _ _ _ _ _ Hdry Hgate Htemplate Hmodel Hjson
                      Hword Hbody).
  - inversion Hrun; subst. inversion Hend; assumption.
  - inversion Hrun; subst. inversion Hend; assumption.
Qed.

(** X10: a dry run with the meta-critic enabled never refines.  The mocked
    response is read as the verdict; when it is no JSON and does not hold the
    word [ACTIONABLE] (which depends on the name of the meta-critic model
    only), a run that returns gives back the text after the opening, its log
    has no refinement, and for [max_rounds >= 1] it stopped early in round 1. *)
Theorem a_dry_run_with_the_meta_critic_never_refines
    (w : W) (initialized : bool) (fs : gmap string (list value))
    (prompt : string) (content : option string) (template : string)
    (t1 : string) (s2 : State W) (out : string) (l : RunLog) (s' : State W) :
  dry_run (run_config self) = true ->
  disable_meta_critic (run_config self) = false ->
  nonempty (meta_critic_template self) = Some template ->
  meta_critic_model (run_config self) <> "" ->
  json_loads E (dry_run_response (meta_critic_model (run_config self))) = None ->
  str_in "ACTIONABLE" (dry_run_response (meta_critic_model (run_config self))) = false ->
  opening E self prompt content
    (started prompt (fresh_state E w initialized fs (run_config self))) = (Ok t1, s2) ->
  run E self prompt content (fresh_state E w initialized fs (run_config self))
  = (Ok (out, l), s') ->
  refinements l = [] /\
  out = t1 /\
  ((1 <= max_rounds (run_config self))%Z -> early_stop 1 (reason_for_stopping l)).
Proof.
  intros Hdry Hgate Htemplate Hmodel Hjson Hword Hopen Hrun.
  destruct (returned_run _ _ _ _ _ _ _ _ Hrun) as (t1' & s2' & s3 & Hopen' & Hloop & ->).
  rewrite Hopen in Hopen'. inversion Hopen'; subst t1' s2'.
  destruct (opening_log _ _ _ _ _ _ _ Hopen) as (_ & Hr0 & _).
  pose proof (dry_rounds_never_refine _ _ Hdry Hgate Htemplate Hmodel Hjson Hword
                _ _ _ _ _ Hloop) as Hrs.
  rewrite Hr0 in Hrs. cbn in Hrs.
  destruct (fresh_run_ends E self _ _ _ _ _ _ _ _ _ Hopen Hloop)
    as (_ & _ & _ & _ & Ht & Hcases).
  destruct (closed_log_fields E self (time_time E (sdk (fresh_state E w initialized fs
                                                          (run_config self)))) out s3)
    as (_ & _ & _ & _ & Hrefs).
  rewrite Hrs in Ht, Hcases, Hrefs. cbn in Ht, Hcases.
  repeat split; [exact Hrefs|exact Ht|].
  intros Hmax. destruct Hcases as [[Hall _]|[_ Hstop]]; [lia|].
  unfold closed_log.
  destruct (early_stop_is_no_other_reason _ _ Hstop) as [Hne _].
  destruct (String.eqb (reason_for_stopping (run_log s3)) "") eqn:Heq.
  { apply String.eqb_eq in Heq. contradiction. }
  exact Hstop.
Qed.

End DryRunClaims.

Lemma dry_run_backend_witness :
  gemini_calls
    (snd (run plain_env dry_loop "write a draft" None
            (fresh_state plain_env [SdkText "unused"] true ∅ (run_config dry_loop))))
  = [] /\
  sdk (snd (run plain_env dry_loop "write a draft" None
              (fresh_state plain_env [SdkText "unused"] true ∅ (run_config dry_loop))))
  = [SdkText "unused"].
Proof.
  apply (a_dry_run_never_reaches_the_backend plain_env dry_loop "write a draft" None
           (fresh_state plain_env [SdkText "unused"] true ∅ (run_config dry_loop))).
  reflexivity.
Defined.

Lemma dry_gate_witness :
  exists out l s',
    run plain_env dry_gated_loop "write a draft" None
      (fresh_state plain_env [] true ∅ (run_config dry_gated_loop))
    = (Ok (out, l), s') /\
    refinements l = [] /\
    out = "DRY_RUN_RESPONSE: This is a mocked response for model gen-model." /\
    ((1 <= max_rounds (run_config dry_gated_loop))%Z -> early_stop 1 (reason_for_stopping l)).
Proof.
  eexists _, _, _. split; [vm_compute; reflexivity|].
  eapply (a_dry_run_with_the_meta_critic_never_refines plain_env dry_gated_loop
            [] true ∅ "write a draft" None "judge").
  - reflexivity.
  - reflexivity.
  - reflexivity.
  - vm_compute. discriminate.
  - vm_compute. reflexivity.
  - vm_compute. reflexivity.
  - vm_compute. reflexivity.
  - vm_compute. reflexivity.
Defined.

(** ** The verdict of the meta-critic, and the roles that are queried *)

Section VerdictReading.
Context {W : Type} (E : Env W) (self : Loop).

(** X11: when the answer of the meta-critic is no JSON, the verdict is
    whether the answer holds the upper-case word [ACTIONABLE] anywhere; so an
    answer such as ['NOT ACTIONABLE'] counts as actionable. *)
Theorem a_verdict_that_is_no_json_is_read_by_keyword
    (critique : string) (s s1 : State W) (template response : string) :
  nonempty (meta_critic_template self) = Some template ->
  call_model E critique (Some (meta_critic_model (run_config self)))
    (meta_critic_template self) (Some (full_config (run_config self)))
    (dry_run (run_config self)) (Some "meta_critic") s = (Ok response, s1) ->
  json_loads E response = None ->
  _is_critique_actionable E self critique s
  = (Ok (Atom (PyBool (str_in "ACTIONABLE" response))), s1) /\
  (forall before after : string,
     response = before +:+ "ACTIONABLE" +:+ after ->
     _is_critique_actionable E self critique s = (Ok (Atom (PyBool true)), s1)).
Proof.
  intros Htemplate Hcall Hjson.
  assert (Hverdict : _is_critique_actionable E self critique s
                     = (Ok (Atom (PyBool (str_in "ACTIONABLE" response))), s1)).
  { unfold _is_critique_actionable, _get_meta_critique.
    rewrite Htemplate, bind_run, try_except_run, bind_run, Hcall, Hjson. reflexivity. }
  split; [exact Hverdict|].
  intros before after ->. rewrite Hverdict, str_in_middle. reflexivity.
Qed.

(** When the call of the meta-critic's model fails, the verdict is that the
    critique is not actionable. *)
Lemma failed_verdict critique (s s1 : State W) template e :
  nonempty (meta_critic_template self) = Some template ->
  call_model E critique (Some (meta_critic_model (run_config self)))
    (meta_critic_template self) (Some (full_config (run_config self)))
    (dry_run (run_config self)) (Some "meta_critic") s = (Raise e, s1) ->
  _is_critique_actionable E self critique s = (Ok (Atom (PyBool false)), s1).
Proof.
  intros Htemplate Hcall.
  unfold _is_critique_actionable, _get_meta_critique.
  rewrite Htemplate, bind_run, try_except_run, bind_run, Hcall. reflexivity.
Qed.

(** X12: when the call of the meta-critic's model fails, the round does not
    fail: the critique stays on record, and the round ends the loop with the
    text unchanged and the reason
    ['Non-actionable critique received in round k.']. *)
Theorem a_failing_meta_critic_is_recorded_as_a_non_actionable_critique
    (i : Z) (text : string) (s : State W) (c : string) (clog : CritiqueLog) (s1 : State W)
    (template : string) (e : exn) (s2 : State W) :
  disable_meta_critic (run_config self) = false ->
  nonempty (meta_critic_template self) = Some template ->
  _critique E self text (i + 1) s = (Ok (c, clog), s1) ->
  call_model E c (Some (meta_critic_model (run_config self)))
    (meta_critic_template self) (Some (full_config (run_config self)))
    (dry_run (run_config self)) (Some "meta_critic") (record_critique clog s1)
  = (Raise e, s2) ->
  round_body E self i text s
  = (Ok (Return text),
     with_run_log
       (set_reason_for_stopping
          ("Non-actionable critique received in round " +:+ str_of_Z (i + 1) +:+ ".")
          (run_log s2)) s2).
Proof.
  intros Hgate Htemplate Hcritique Hcall.
  apply (round_body_stops E self i text s s1 s2 c clog (Atom (PyBool false)) Hgate Hcritique).
  - exact (failed_verdict _ _ _ _ _ Htemplate Hcall).
  - reflexivity.
Qed.

(** X13: with a strategy that is a non-empty mapping without a [roles]
    entry, [_critique] queries no role and no model: it returns the empty
    critique with an empty list of role files and changes nothing, and the
    critic roles of the run configuration are not consulted. *)
Theorem a_mapping_strategy_without_roles_silences_the_critic
    (rounds : option Z) (others : list (string * value))
    (text : string) (round_num : Z) (s : State W) :
  strategy self = Some (StrategyDict None rounds others) ->
  strategy_truthy (strategy self) = true ->
  _critique E self text round_num s
  = (Ok ("", {| critique_round := round_num;
                critique_model_used := critic_model (run_config self);
                critique_role_prompt_file_used := [];
                critique_text := "" |}), s).
Proof.
  intros Hstrategy Htruthy. unfold _critique, roles_to_use.
  rewrite Htruthy, Hstrategy. reflexivity.
Qed.

End VerdictReading.

Lemma keyword_verdict_witness :
  exists s1,
    _is_critique_actionable plain_env gated_loop "tighten the opening"
      (fresh_state plain_env [SdkText "NOT ACTIONABLE"] true ∅ (run_config gated_loop))
    = (Ok (Atom (PyBool (str_in "ACTIONABLE" "NOT ACTIONABLE"))), s1) /\
    (forall before after : string,
       "NOT ACTIONABLE" = before +:+ "ACTIONABLE" +:+ after ->
       _is_critique_actionable plain_env gated_loop "tighten the opening"
         (fresh_state plain_env [SdkText "NOT ACTIONABLE"] true ∅ (run_config gated_loop))
       = (Ok (Atom (PyBool true)), s1)).
Proof.
  eexists.
  eapply (a_verdict_that_is_no_json_is_read_by_keyword plain_env gated_loop
            "tighten the opening" _ _ "judge" "NOT ACTIONABLE").
  - reflexivity.
  - vm_compute. reflexivity.
  - reflexivity.
Defined.

Lemma failing_meta_critic_witness :
  exists s2,
    round_body plain_env gated_loop 0 "draft"
      (fresh_state plain_env [SdkText "tighten the opening"; SdkRaise RetryError] true ∅
         (run_config gated_loop))
    = (Ok (Return "draft"),
       with_run_log
         (set_reason_for_stopping
            ("Non-actionable critique received in round " +:+ str_of_Z (0 + 1) +:+ ".")
            (run_log s2)) s2).
Proof.
  eexists.
  eapply (a_failing_meta_critic_is_recorded_as_a_non_actionable_critique plain_env gated_loop
            0 "draft" _ "tighten the opening" _ _ "judge"
            (Exn ModelAPIError "Model meta-model failed and no distinct fallback is available.")).
  - reflexivity.
  - reflexivity.
  - vm_compute. reflexivity.
  - vm_compute. reflexivity.
Defined.

Lemma roleless_strategy_witness :
  _critique plain_env roleless_strategy_loop "draft" 1
    (fresh_state plain_env [SdkText "unused"] true ∅ (run_config roleless_strategy_loop))
  = (Ok ("", {| critique_round := 1;
                critique_model_used := "critic-model";
                critique_role_prompt_file_used := [];
                critique_text := "" |}),
     fresh_state plain_env [SdkText "unused"] true ∅ (run_config roleless_strategy_loop)).
Proof.
  apply (a_mapping_strategy_without_roles_silences_the_critic plain_env roleless_strategy_loop
           (Some 2%Z) [] "draft" 1).
  - reflexivity.
  - reflexivity.
Defined.

(** ** The edges of the router *)

Section RouterEdges.
Context {W : Type} (E : Env W).

Lemma call_gemini_uninitialised prompt model system_prompt config (s : State W) :
  is_initialized s = false ->
  call_gemini E prompt model system_prompt config s
  = (Raise (Exn ModelAPIError
              "Model router has not been initialized. Call initialize() first."),
     with_gemini_calls (gemini_calls s ++ [Build_GeminiCall model prompt system_prompt]) s).
Proof.
  intros Hinit. unfold call_gemini. rewrite bind_run. unfold modify at 1.
  rewrite bind_run. unfold gets at 1. cbn [is_initialized with_gemini_calls].
  rewrite Hinit. reflexivity.
Qed.

Lemma call_gemini_untyped_uninitialised prompt model system_prompt config (s : State W) :
  is_initialized s = false ->
  call_gemini_untyped E prompt model system_prompt config s
  = (Raise (Exn ModelAPIError
              "Model router has not been initialized. Call initialize() first."),
     with_gemini_calls
       (gemini_calls s ++ [Build_GeminiCall (format_value E model) prompt system_prompt]) s).
Proof.
  intros Hinit. unfold call_gemini_untyped. rewrite bind_run. unfold modify at 1.
  rewrite bind_run. unfold gets at 1. cbn [is_initialized with_gemini_calls].
  rewrite Hinit. reflexivity.
Qed.

(** X14: on a router that was not initialised, [call_model] (no dry run, no
    mock model) raises a [ModelAPIError] without reaching the SDK, also when
    a fallback model is configured, and the router stays uninitialised. *)
Theorem an_uninitialised_router_fails_every_call_without_the_sdk
    (prompt : string) (model_name system_prompt : option string)
    (config : option (gmap string value)) (role : option string)
    (model : string) (s : State W) :
  is_initialized s = false ->
  model_to_use E model_name config role = Some model ->
  String.prefix "mock" model = false ->
  exists msg s',
    call_model E prompt model_name system_prompt config false role s
    = (Raise (Exn ModelAPIError msg), s') /\
    sdk s' = sdk s /\
    is_initialized s' = false.
Proof.
  intros Hinit Hmodel Hmock.
  unfold call_model. rewrite Hmodel, Hmock. cbv iota.
  rewrite try_except_run, (call_gemini_uninitialised _ _ _ _ _ Hinit). cbn [exn_cls].
  destruct (as_model_name (effective_config E config !! "fallback_model")) as [fallback|].
  2:{ destruct (as_untyped_model (effective_config E config !! "fallback_model"))
        as [untyped|]; [|eexists _, _; split; [reflexivity|split; [reflexivity|exact Hinit]]].
      rewrite try_except_run, call_gemini_untyped_uninitialised by exact Hinit.
      cbn [exn_cls].
      eexists _, _; split; [reflexivity|split; [reflexivity|exact Hinit]]. }
  destruct (String.eqb model fallback);
    [eexists _, _; split; [reflexivity|split; [reflexivity|exact Hinit]]|].
  rewrite try_except_run, call_gemini_uninitialised by exact Hinit. cbn [exn_cls].
  eexists _, _; split; [reflexivity|split; [reflexivity|exact Hinit]].
Qed.

(** X15: a role that the roles configuration lists without a [model] entry
    is not routed to the default model: [call_model] without a model name
    raises [ValueError('No model name provided or configured.')] for it, dry
    run or not, and changes nothing. *)
Theorem a_role_without_a_model_is_not_routed_to_the_default_model
    (prompt : string) (system_prompt : option string)
    (config : option (gmap string value)) (dry : bool)
    (role : string) (role_config : gmap string value) (s : State W) :
  role <> "" ->
  str_replace ".txt" "" role <> "" ->
  cfg_roles (get_config E) !! str_replace ".txt" "" role = Some role_config ->
  role_config !! "model" = None ->
  call_model E prompt None system_prompt config dry (Some role) s
  = (Raise (Exn ValueError "No model name provided or configured."), s).
Proof.
  intros Hrole Hname Hlisted Hmodel.
  unfold call_model, model_to_use, untyped_model_to_use. cbn [nonempty].
  destruct (String.eqb role "") eqn:Heq; [apply String.eqb_eq in Heq; contradiction|].
  destruct (String.eqb (str_replace ".txt" "" role) "") eqn:Heq';
    [apply String.eqb_eq in Heq'; contradiction|].
  rewrite Hlisted, Hmodel. reflexivity.
Qed.


End RouterEdges.

Section RouterSetupFacts.
Context {W : Type} (E : Env W).
Variable genai_configure : W -> string -> option string * W.

(** X17: after [initialize] the router is initialised exactly if it was
    before or the call returned: a failed [initialize] leaves an earlier
    initialisation in force.  An empty key fails before the SDK is asked, and
    every failure is a [ModelAPIError]. *)
Theorem initialize_sets_the_flag_exactly_when_it_returns
    (api_key : string) (s : State W) :
  let outcome := initialize genai_configure api_key s in
  is_initialized (snd outcome)
  = (is_initialized s || match fst outcome with Ok _ => true | Raise _ => false end) /\
  (api_key = "" ->
   outcome = (Raise (Exn ModelAPIError "Google Gemini API key is required for initialization."),
              s)) /\
  match fst outcome with
  | Ok _ => True
  | Raise e => exn_cls e = ModelAPIError
  end.
Proof.
  cbv zeta. unfold initialize.
  destruct (String.eqb api_key "") eqn:Hkey.
  - cbn. rewrite orb_false_r. repeat split.
  - destruct (genai_configure (sdk s) api_key) as [[why|] w]; cbn.
    + rewrite orb_false_r. repeat split. intros ->. discriminate.
    + rewrite orb_true_r. repeat split. intros ->. discriminate.
Qed.

End RouterSetupFacts.

Lemma uninitialised_router_witness :
  exists msg s',
    call_model routed_env "text" (Some "primary-model") None None false None
      (fresh_state routed_env [SdkText "unused"] false ∅ (Doubles.demo_config 1 true false))
    = (Raise (Exn ModelAPIError msg), s') /\
    sdk s' = [SdkText "unused"] /\
    is_initialized s' = false.
Proof.
  apply (an_uninitialised_router_fails_every_call_without_the_sdk routed_env "text"
           (Some "primary-model") None None None "primary-model"
           (fresh_state routed_env [SdkText "unused"] false ∅
              (Doubles.demo_config 1 true false)));
    reflexivity.
Defined.

Lemma modelless_role_witness :
  call_model modelless_role_env "text" None None None false (Some "critic.txt")
    (fresh_state modelless_role_env [SdkText "unused"] true ∅ (Doubles.demo_config 1 true false))
  = (Raise (Exn ValueError "No model name provided or configured."),
     fresh_state modelless_role_env [SdkText "unused"] true ∅ (Doubles.demo_config 1 true false)).
Proof.
  apply (a_role_without_a_model_is_not_routed_to_the_default_model modelless_role_env "text"
           None None false "critic.txt" (<["temperature" := Atom (PyInt 0)]> ∅)).
  - discriminate.
  - vm_compute. discriminate.
  - vm_compute. reflexivity.
  - vm_compute. reflexivity.
Defined.


(** *** What of a configuration reaches the SDK *)

Section GenerationConfigFacts.
Variables category threshold : Type.
Variable HarmCategory : string -> option category.
Variable HarmBlockThreshold : string -> option threshold.

Lemma gen_config_params_spec (config : gmap string value) key v :
  (key, v) ∈ gen_config_params config <-> key ∈ generation_keys /\ config !! key = Some v.
Proof.
  unfold gen_config_params. rewrite list_elem_of_omap. split.
  - intros (k & Hk & Hv). destruct (config !! k) as [x|] eqn:Hx; [|discriminate].
    cbn in Hv. inversion Hv; subst. split; assumption.
  - intros [Hk Hv]. exists key. split; [exact Hk|]. rewrite Hv. reflexivity.
Qed.

(** X18: of a configuration only the four sampling parameters
    [temperature], [max_output_tokens], [top_k] and [top_p] reach the
    [GenerationConfig] of the SDK, each with its configured value, and no
    [GenerationConfig] is built exactly when none of the four is set. *)
Theorem only_the_sampling_parameters_reach_the_generation_config
    (config : option (gmap string value)) (kwargs : ModelKwargs category threshold) :
  _create_generation_config category threshold HarmCategory HarmBlockThreshold config
  = Some kwargs ->
  (forall key v,
     (key, v) ∈ default [] (generation_config kwargs)
     <-> key ∈ ["temperature"; "max_output_tokens"; "top_k"; "top_p"]
         /\ default ∅ config !! key = Some v) /\
  (generation_config kwargs = None
   <-> forall key, key ∈ ["temperature"; "max_output_tokens"; "top_k"; "top_p"] ->
                   default ∅ config !! key = None).
Proof.
  unfold _create_generation_config.
  destruct (match default ∅ config !! "safety_settings" with
            | Some (PyList settings) =>
                safety_settings_list category threshold HarmCategory HarmBlockThreshold settings
            | _ => Some []
            end) as [safety|]; [|discriminate].
  intros H. inversion H; subst kwargs; clear H. cbn [generation_config].
  pose proof (gen_config_params_spec (default ∅ config)) as Hspec.
  destruct (gen_config_params (default ∅ config)) as [|p params] eqn:Hparams.
  - split.
    + intros key v. cbn [default from_option id]. rewrite <- Hspec. reflexivity.
    + split; [|reflexivity]. intros _ key Hkey.
      destruct (default ∅ config !! key) as [v|] eqn:Hv; [|reflexivity].
      exfalso. apply (not_elem_of_nil (key, v)). apply Hspec. split; assumption.
  - split.
    + intros key v. cbn [default from_option id]. rewrite <- Hspec. reflexivity.
    + split; [discriminate|]. intros Hnone. exfalso.
      destruct p as [key v]. destruct (proj1 (Hspec key v)) as [Hkey Hv].
      { apply list_elem_of_here. }
      rewrite (Hnone key Hkey) in Hv. discriminate.
Qed.

Lemma safety_settings_list_valid (settings : list value) :
  Forall hashable_names settings ->
  safety_settings_list category threshold HarmCategory HarmBlockThreshold settings
  = Some (omap (valid_setting category threshold HarmCategory HarmBlockThreshold) settings).
Proof.
  induction settings as [|setting rest IH]; intros Hall; [reflexivity|].
  apply Forall_cons in Hall as [Hnames Hrest]. specialize (IH Hrest).
  cbn [safety_settings_list omap list_omap valid_setting].
  destruct setting as [a|s|items|entries]; try exact IH.
  change (omap (valid_setting category threshold HarmCategory HarmBlockThreshold)
            (PyDict entries :: rest))
    with (match valid_setting category threshold HarmCategory HarmBlockThreshold (PyDict entries)
          with
          | Some y => y :: omap (valid_setting category threshold HarmCategory
                                   HarmBlockThreshold) rest
          | None => omap (valid_setting category threshold HarmCategory HarmBlockThreshold) rest
          end).
  cbn [valid_setting hashable_names] in *.
  destruct (dict_get "category" entries) as [c|] eqn:Hc; [|exact IH].
  destruct (dict_get "threshold" entries) as [t|] eqn:Ht;
    [|destruct c; exact IH].
  pose proof (Hnames "category" c (or_introl eq_refl) Hc) as Hcn.
  pose proof (Hnames "threshold" t (or_intror eq_refl) Ht) as Htn.
  destruct c as [ca|cs|ci|ce]; try contradiction; cbn [lookup_enum]; try exact IH.
  destruct (HarmCategory cs) as [category_enum|]; [|destruct t; exact IH].
  destruct t as [ta|ts|ti|te]; try contradiction; cbn [lookup_enum]; try exact IH.
  destruct (HarmBlockThreshold ts) as [threshold_enum|]; [|exact IH].
  rewrite IH. reflexivity.
Qed.

(** X19: of the configured safety settings, exactly those reach the SDK, in
    their order, that are dictionaries whose [category] and [threshold] name
    members of the two enumerations of the SDK; the others are passed over,
    and [safety_settings] is [None] when none is left.  (No name is a list
    or a dictionary: such a name is a [TypeError].) *)
Theorem invalid_safety_settings_are_passed_over
    (config : gmap string value) (settings : list value) :
  config !! "safety_settings" = Some (PyList settings) ->
  Forall hashable_names settings ->
  exists kwargs,
    _create_generation_config category threshold HarmCategory HarmBlockThreshold (Some config)
    = Some kwargs /\
    default [] (safety_settings kwargs)
    = omap (valid_setting category threshold HarmCategory HarmBlockThreshold) settings /\
    (safety_settings kwargs = None
     <-> omap (valid_setting category threshold HarmCategory HarmBlockThreshold) settings = []).
Proof.
  intros Hsettings Hnames. unfold _create_generation_config.
  cbn [default from_option id]. rewrite Hsettings.
  rewrite (safety_settings_list_valid _ Hnames).
  eexists. split; [reflexivity|]. cbn [safety_settings].
  destruct (omap _ settings); split; try reflexivity; split; (reflexivity || discriminate).
Qed.

End GenerationConfigFacts.

Lemma sampling_parameters_witness :
  (forall key v,
     (key, v) ∈ default [] (Some [("temperature", Atom (PyInt 0)); ("top_k", Atom (PyInt 40))])
     <-> key ∈ ["temperature"; "max_output_tokens"; "top_k"; "top_p"]
         /\ default ∅ (Some sample_effective_config) !! key = Some v) /\
  (Some [("temperature", Atom (PyInt 0)); ("top_k", Atom (PyInt 40))] = None
   <-> forall key, key ∈ ["temperature"; "max_output_tokens"; "top_k"; "top_p"] ->
                   default ∅ (Some sample_effective_config) !! key = None).
Proof.
  apply (only_the_sampling_parameters_reach_the_generation_config nat nat
           category_double threshold_double (Some sample_effective_config)
           {| generation_config :=
                Some [("temperature", Atom (PyInt 0)); ("top_k", Atom (PyInt 40))];
              safety_settings := Some [(7, 4); (8, 3)] |}).
  vm_compute. reflexivity.
Defined.

Lemma safety_settings_witness :
  exists kwargs,
    _create_generation_config nat nat category_double threshold_double
      (Some sample_effective_config) = Some kwargs /\
    default [] (safety_settings kwargs)
    = omap (valid_setting nat nat category_double threshold_double)
        [PyDict [("category", Str "HARM_CATEGORY_HARASSMENT"); ("threshold", Str "BLOCK_NONE")];
         PyDict [("category", Str "HARM_CATEGORY_UNHEARD_OF"); ("threshold", Str "BLOCK_NONE")];
         PyDict [("category", Str "HARM_CATEGORY_HATE_SPEECH");
                 ("threshold", Str "BLOCK_ONLY_HIGH")]] /\
    (safety_settings kwargs = None
     <-> omap (valid_setting nat nat category_double threshold_double)
           [PyDict [("category", Str "HARM_CATEGORY_HARASSMENT");
                    ("threshold", Str "BLOCK_NONE")];
            PyDict [("category", Str "HARM_CATEGORY_UNHEARD_OF");
                    ("threshold", Str "BLOCK_NONE")];
            PyDict [("category", Str "HARM_CATEGORY_HATE_SPEECH");
                    ("threshold", Str "BLOCK_ONLY_HIGH")]] = []).
Proof.
  apply (invalid_safety_settings_are_passed_over nat nat category_double threshold_double
           sample_effective_config).
  - vm_compute. reflexivity.
  - repeat constructor; intros key name [->| ->] H; vm_compute in H; inversion H; exact I.
Defined.

(** ** The redactor at depth, and the logger of the loop *)

Section RedactorDepth.
Variable upper : string -> string.
Variable re_sub : string -> string -> string -> string.

(** X20: in what the redactor returns, every dictionary entry under a listed
    key holds the placeholder of its key, at every depth that is reached
    through dictionaries and lists; no value under a listed key survives,
    whatever the patterns are. *)
Theorem no_listed_key_survives_redaction_at_any_depth
    (keys : list string) (patterns : list (string * string)) (v : value) :
  masked_everywhere upper keys (_redact_dict_recursive upper re_sub keys patterns v) = true.
Proof.
  induction v as [a|s|items IH|entries IH] using value_ind'; try reflexivity.
  - cbn [_redact_dict_recursive masked_everywhere].
    rewrite forallb_forall. intros x Hx. apply in_map_iff in Hx as (y & <- & Hy).
    rewrite Forall_forall in IH. apply IH. apply list_elem_of_In. exact Hy.
  - cbn [_redact_dict_recursive masked_everywhere].
    rewrite forallb_forall. intros x Hx. apply in_map_iff in Hx as (kv & <- & Hkv).
    rewrite Forall_forall in IH.
    destruct (bool_decide (fst kv ∈ keys)) eqn:Hkey; cbn [fst snd]; rewrite Hkey.
    + apply String.eqb_refl.
    + apply IH. apply list_elem_of_In. exact Hkey || exact Hkv.
Qed.

Lemma redaction_by_nothing (v : value) : _redact_dict_recursive upper re_sub [] [] v = v.
Proof.
  induction v as [a|s|items IH|entries IH] using value_ind'; try reflexivity.
  - cbn [_redact_dict_recursive]. f_equal.
    induction IH as [|x l Hx _ IHl]; [reflexivity|]. cbn [map]. rewrite Hx, IHl. reflexivity.
  - cbn [_redact_dict_recursive]. f_equal.
    induction IH as [|[k x] l Hx _ IHl]; [reflexivity|]. cbn [map fst snd] in *.
    rewrite bool_decide_eq_false_2 by apply not_elem_of_nil.
    rewrite Hx, IHl. reflexivity.
Qed.

End RedactorDepth.

Section UnconfiguredRedaction.
Context {W : Type} (E : Env W).

(** X21: with [redact_logs] set but no [redaction_config] in the full
    configuration, the logger of the loop redacts by no key and no pattern:
    [log_run] appends the entry as it is. *)
Theorem redacting_logs_without_a_redaction_config_redacts_nothing
    (rc : RunConfig) (st : option Strategy) (log_entry : value) :
  full_config rc !! "redaction_config" = None ->
  log_run E (logger (CritiqueRefineLoop_init rc st)) log_entry
  = modify (fun s =>
              with_files (<[log_file_path rc :=
                              default [] (files s !! log_file_path rc) ++ [log_entry]]>
                            (files s)) s).
Proof.
  intros Hconfig. unfold log_run, CritiqueRefineLoop_init. cbn [logger log_file redact
    keys_to_redact redaction_patterns]. rewrite Hconfig. cbn [dict_get str_items rule_items].
  rewrite redaction_by_nothing. destruct (redact_logs rc); reflexivity.
Qed.

End UnconfiguredRedaction.

Lemma unconfigured_redaction_witness :
  log_run plain_env (logger (CritiqueRefineLoop_init redacting_config None))
    (PyDict [("api_key", Str "k-123")])
  = modify (fun s =>
              with_files (<["logs/run.jsonl" :=
                              default [] (files s !! "logs/run.jsonl")
                              ++ [PyDict [("api_key", Str "k-123")]]]>
                            (files s)) s).
Proof.
  apply (redacting_logs_without_a_redaction_config_redacts_nothing plain_env redacting_config
           None (PyDict [("api_key", Str "k-123")])).
  vm_compute. reflexivity.
Defined.

(** ** The review analyzer *)

Lemma length_append (a b : string) :
  String.length (a +:+ b) = String.length a + String.length b.
Proof.
  induction a as [|c a IH]; [reflexivity|].
  change (String c a +:+ b) with (String c (a +:+ b)). cbn [String.length Nat.add].
  f_equal. exact IH.
Qed.

Lemma length_substring_0 (n : nat) (s : string) :
  String.length (String.substring 0 n s) = Nat.min n (String.length s).
Proof.
  revert s. induction n as [|n IH]; intros s.
  - destruct s; reflexivity.
  - destruct s as [|c s]; [reflexivity|]. cbn. f_equal. apply IH.
Qed.

Lemma summary_length n text (t : string) :
  summary n (Str text) = Some t ->
  String.length t = Nat.min n (String.length text) + 3.
Proof.
  intros H. inversion H. rewrite length_append, length_substring_0. reflexivity.
Qed.

Lemma summary_bound n v (t : string) : summary n v = Some t -> String.length t <= n + 3.
Proof.
  destruct v as [a|s|items|entries]; try discriminate.
  intros H. rewrite (summary_length _ _ _ H). lia.
Qed.

Lemma summaries_bound n records (ts : list string) :
  summaries n records = Some ts -> Forall (fun t => String.length t <= n + 3) ts.
Proof.
  destruct records as [a|s|items|entries]; try discriminate; cbn [summaries].
  - destruct s; [|discriminate]. intros H; inversion H. constructor.
  - intros H. apply mapM_Some in H.
    induction H as [|c t items ts Hc _ IH]; constructor; [|exact IH].
    destruct c as [a|s|l|ce]; try discriminate. exact (summary_bound _ _ _ Hc).
  - destruct entries; [|discriminate]. intros H; inversion H. constructor.
Qed.

Section ReviewAnalyzerFacts.
Variable log_files : list string.
Variable read_log : string -> log_read.
Variable py_eq : value -> value -> bool.
Variable py_str : value -> string.

Lemma insights_of_bounded (files : list string) (insights : list Insight) :
  insights_of read_log files = Some insights ->
  length insights <= length files /\
  Forall (fun i =>
            String.length (final_output_summary i) <= 203 /\
            Forall (fun t => String.length t <= 103) (critiques_summary i) /\
            Forall (fun t => String.length t <= 103) (refinements_summary i)) insights.
Proof.
  revert insights. induction files as [|f rest IH]; intros insights.
  - intros H; inversion H. split; [cbn; lia|constructor].
  - cbn [insights_of].
    destruct (_load_log_file read_log f) as [[log_data|]|]; [| |discriminate].
    + destruct (truthy log_data).
      * destruct (insight log_data) as [i|] eqn:Hi; [|discriminate].
        destruct (insights_of read_log rest) as [more|]; [|discriminate].
        intros H; inversion H; subst insights. destruct (IH more eq_refl) as [Hlen Hall].
        split; [cbn; lia|]. constructor; [|exact Hall].
        unfold insight in Hi. destruct log_data as [a|s|l|entries]; try discriminate.
        destruct (summary 200 _) as [fo|] eqn:Hfo; [|discriminate].
        destruct (summaries 100 (default (PyList []) (dict_get "critiques" entries)))
          as [cs|] eqn:Hcs; [|discriminate].
        destruct (summaries 100 (default (PyList []) (dict_get "refinements" entries)))
          as [rs|] eqn:Hrs; [|discriminate].
        inversion Hi; subst i. cbn.
        repeat split;
          [exact (summary_bound _ _ _ Hfo)|exact (summaries_bound _ _ _ Hcs)
          |exact (summaries_bound _ _ _ Hrs)].
      * intros H. destruct (IH _ H) as [Hlen Hall]. split; [cbn; lia|exact Hall].
    + intros H. destruct (IH _ H) as [Hlen Hall]. split; [cbn; lia|exact Hall].
Qed.

(** X22: for [num_logs >= 0], [get_recent_insights] returns at most
    [num_logs] insights, and no more than there are log files; every
    [final_output_summary] has at most 203 characters and every critique or
    refinement summary at most 103. *)
Theorem the_insights_are_few_and_their_summaries_short
    (num_logs : Z) (insights : list Insight) :
  (0 <= num_logs)%Z ->
  get_recent_insights log_files read_log num_logs = Some insights ->
  (Z.of_nat (length insights) <= num_logs)%Z /\
  length insights <= length log_files /\
  Forall (fun i =>
            String.length (final_output_summary i) <= 203 /\
            Forall (fun t => String.length t <= 103) (critiques_summary i) /\
            Forall (fun t => String.length t <= 103) (refinements_summary i)) insights.
Proof.
  intros Hpos Hget. unfold get_recent_insights, py_prefix in Hget.
  destruct (num_logs <? 0)%Z eqn:Hneg; [apply Z.ltb_lt in Hneg; lia|].
  destruct (insights_of_bounded _ _ Hget) as [Hlen Hall].
  rewrite length_take in Hlen. repeat split; [lia|lia|exact Hall].
Qed.

(** X23: a summary is the text cut to 100 characters and followed by three
    dots, so the analysis takes a critique for short (a summary of fewer
    than 50 characters) exactly when its text has fewer than 47 characters. *)
Theorem a_critique_counts_as_short_below_47_characters
    (entries : list (string * value)) (critiques : list value) (texts : list string)
    (i : Insight) :
  dict_get "critiques" entries = Some (PyList critiques) ->
  Forall2 (fun c text => exists ce, c = PyDict ce /\ dict_get "text" ce = Some (Str text))
    critiques texts ->
  insight (PyDict entries) = Some i ->
  short_critiques_found [i] = true <-> exists text, text ∈ texts /\ String.length text < 47.
Proof.
  intros Hcritiques Htexts Hinsight.
  assert (Hsum : Forall2 (fun text t => summary 100 (Str text) = Some t)
                   texts (critiques_summary i)).
  { unfold insight in Hinsight. rewrite Hcritiques in Hinsight.
    destruct (summary 200 _) as [fo|]; [|discriminate].
    cbn [default from_option id summaries] in Hinsight.
    destruct (mapM _ critiques) as [cs|] eqn:Hcs; [|discriminate].
    destruct (summaries 100 _) as [rs|]; [|discriminate].
    inversion Hinsight; subst i. cbn [critiques_summary]. clear Hinsight.
    apply mapM_Some in Hcs. clear Hcritiques. revert texts Htexts.
    induction Hcs as [|c t critiques' cs' Hc _ IH]; intros texts Htexts.
    - inversion Htexts. constructor.
    - inversion Htexts as [|c' text critiques'' texts' (ce & -> & Htext) Hrest]; subst.
      constructor; [|exact (IH _ Hrest)].
      rewrite Htext in Hc. exact Hc. }
  unfold short_critiques_found. cbn [existsb]. rewrite orb_false_r.
  clear Hcritiques Htexts Hinsight.
  induction Hsum as [|text t texts' sums Hsummary _ IH].
  - cbn. split; [discriminate|]. intros (text & Hin & _). inversion Hin.
  - cbn [existsb]. rewrite orb_true_iff, IH, Nat.ltb_lt, (summary_length _ _ _ Hsummary).
    split.
    + intros [Hshort|(text' & Hin & Hshort)].
      * exists text. split; [apply list_elem_of_here|lia].
      * exists text'. split; [apply list_elem_of_further, Hin|exact Hshort].
    + intros (text' & Hin & Hshort). apply elem_of_cons in Hin as [->|Hin].
      * left. lia.
      * right. exists text'. split; assumption.
Qed.

End ReviewAnalyzerFacts.

(** *** Counting the reasons for stopping *)

Section StopReasons.
Variable py_eq : value -> value -> bool.
Hypothesis py_eq_refl : forall x, py_eq x x = true.
Hypothesis py_eq_sym : forall x y, py_eq x y = py_eq y x.
Hypothesis py_eq_trans : forall x y z, py_eq x y = true -> py_eq y z = true -> py_eq x z = true.

Lemma occurrences_snoc k seen x :
  occurrences py_eq k (seen ++ [x])
  = occurrences py_eq k seen + (if py_eq k x then 1 else 0).
Proof.
  unfold occurrences. rewrite filter_app, length_app. f_equal.
  rewrite filter_cons, filter_nil. destruct (py_eq k x) eqn:Hkx.
  - rewrite decide_True by reflexivity. reflexivity.
  - rewrite decide_False by discriminate. reflexivity.
Qed.

Lemma occurrences_none k seen :
  (forall y, y ∈ seen -> py_eq k y = false) -> occurrences py_eq k seen = 0.
Proof.
  unfold occurrences. induction seen as [|y seen IH]; intros Hnone; [reflexivity|].
  rewrite filter_cons, decide_False.
  - apply IH. intros z Hz. apply Hnone, list_elem_of_further, Hz.
  - rewrite (Hnone y) by apply list_elem_of_here. discriminate.
Qed.

Lemma occurrences_equivalent k x seen :
  py_eq k x = true -> occurrences py_eq k seen = occurrences py_eq x seen.
Proof.
  intros Hkx. unfold occurrences. f_equal. apply list_filter_iff. intros y. split; intros H.
  - apply (py_eq_trans x k y); [rewrite py_eq_sym; exact Hkx|exact H].
  - exact (py_eq_trans k x y Hkx H).
Qed.

Lemma count_up_new reason counts :
  Forall (fun kn => py_eq (fst kn) reason = false) counts ->
  count_up py_eq reason counts = counts ++ [(reason, 1)].
Proof.
  induction 1 as [|[k n] rest Hk _ IH]; [reflexivity|].
  cbn [count_up app]. cbn [fst] in Hk. rewrite Hk, IH. reflexivity.
Qed.

Lemma count_up_known reason pre k n post :
  Forall (fun kn => py_eq (fst kn) reason = false) pre ->
  py_eq k reason = true ->
  count_up py_eq reason (pre ++ (k, n) :: post) = pre ++ (k, S n) :: post.
Proof.
  intros Hpre Hk. induction Hpre as [|[k' n'] pre Hk' _ IH].
  - cbn [count_up app]. rewrite Hk. reflexivity.
  - cbn [count_up app]. cbn [fst] in Hk'. rewrite Hk', IH. reflexivity.
Qed.

Lemma first_match reason (counts : list (value * nat)) :
  Forall (fun kn => py_eq (fst kn) reason = false) counts
  \/ exists pre k n post,
       counts = pre ++ (k, n) :: post /\
       Forall (fun kn => py_eq (fst kn) reason = false) pre /\
       py_eq k reason = true.
Proof.
  induction counts as [|[k n] rest IH]; [left; constructor|].
  destruct (py_eq k reason) eqn:Hk.
  - right. exists [], k, n, rest. repeat split; [constructor|exact Hk].
  - destruct IH as [Hnone|(pre & k' & n' & post & -> & Hpre & Hk')].
    + left. constructor; assumption.
    + right. exists ((k, n) :: pre), k', n', post. repeat split; [|exact Hk'].
      constructor; assumption.
Qed.

Lemma pairwise_different_app keys keys' :
  pairwise_different py_eq (keys ++ keys') <->
  pairwise_different py_eq keys /\ pairwise_different py_eq keys' /\
  Forall (fun k => Forall (fun k' => py_eq k k' = false) keys') keys.
Proof.
  induction keys as [|k keys IH]; cbn [app pairwise_different].
  - split; [intros H; repeat split; [exact H|constructor]|intros (_ & H & _); exact H].
  - rewrite Forall_app, IH, Forall_cons. tauto.
Qed.

Lemma counts_of_step seen counts reason :
  counts_of py_eq seen counts ->
  counts_of py_eq (seen ++ [reason]) (count_up py_eq reason counts).
Proof.
  intros (Hdistinct & Hcounts & Hcovered).
  destruct (first_match reason counts) as [Hnone|(pre & k & n & post & -> & Hpre & Hk)].
  - rewrite (count_up_new _ _ Hnone).
    assert (Hfresh : occurrences py_eq reason seen = 0).
    { apply occurrences_none. intros y Hy.
      destruct (py_eq reason y) eqn:Hry; [|reflexivity].
      destruct (Hcovered y Hy) as (k & n & Hin & Hky).
      rewrite Forall_forall in Hnone. specialize (Hnone _ Hin). cbn [fst] in Hnone.
      rewrite (py_eq_trans k y reason Hky) in Hnone; [discriminate|].
      rewrite py_eq_sym. exact Hry. }
    repeat split.
    + rewrite map_app. apply pairwise_different_app. repeat split; [exact Hdistinct|constructor|].
      apply Forall_forall. intros k Hk. constructor; [|constructor].
      apply list_elem_of_In, in_map_iff in Hk as ([k' n'] & <- & Hin).
      rewrite Forall_forall in Hnone. apply (Hnone (k', n')), list_elem_of_In, Hin.
    + apply Forall_app. split.
      * rewrite Forall_forall in Hcounts, Hnone. rewrite Forall_forall. intros kn Hin.
        destruct (Hcounts kn Hin) as [Hn Hseen].
        rewrite occurrences_snoc, (Hnone kn Hin), Nat.add_0_r.
        split; [exact Hn|apply elem_of_app; left; exact Hseen].
      * constructor; [|constructor]. cbn [fst snd].
        rewrite occurrences_snoc, Hfresh, py_eq_refl.
        split; [reflexivity|apply elem_of_app; right; apply list_elem_of_here].
    + intros x Hx. apply elem_of_app in Hx as [Hx|Hx].
      * destruct (Hcovered x Hx) as (k & n & Hin & Hkx).
        exists k, n. split; [apply elem_of_app; left; exact Hin|exact Hkx].
      * apply list_elem_of_singleton in Hx as ->. exists reason, 1.
        split; [apply elem_of_app; right; apply list_elem_of_here|apply py_eq_refl].
  - rewrite (count_up_known _ _ _ _ _ Hpre Hk).
    assert (Hpost : Forall (fun kn => py_eq (fst kn) reason = false) post).
    { rewrite map_app in Hdistinct. apply pairwise_different_app in Hdistinct
        as (_ & Hmid & _). cbn [map pairwise_different fst] in Hmid.
      destruct Hmid as [Hmid _]. rewrite Forall_forall in Hmid. rewrite Forall_forall.
      intros [k' n'] Hin. cbn [fst].
      destruct (py_eq k' reason) eqn:Hk'; [|reflexivity].
      rewrite <- (Hmid k').
      - symmetry. apply (py_eq_trans k reason k' Hk). rewrite py_eq_sym. exact Hk'.
      - apply list_elem_of_In, in_map_iff. exists (k', n'). split; [reflexivity|].
        apply list_elem_of_In, Hin. }
    apply Forall_app in Hcounts as [Hcpre Hcmid]. apply Forall_cons in Hcmid as [Hck Hcpost].
    cbn [fst snd] in Hck. destruct Hck as [Hn Hkseen].
    repeat split.
    + rewrite map_app in *. exact Hdistinct.
    + apply Forall_app. split; [|constructor].
      * rewrite Forall_forall in Hcpre, Hpre. rewrite Forall_forall. intros kn Hin.
        destruct (Hcpre kn Hin) as [Hn' Hseen].
        rewrite occurrences_snoc, (Hpre kn Hin), Nat.add_0_r.
        split; [exact Hn'|apply elem_of_app; left; exact Hseen].
      * cbn [fst snd]. rewrite occurrences_snoc, Hk, <- Hn.
        split; [lia|apply elem_of_app; left; exact Hkseen].
      * rewrite Forall_forall in Hcpost, Hpost. rewrite Forall_forall. intros kn Hin.
        destruct (Hcpost kn Hin) as [Hn' Hseen].
        rewrite occurrences_snoc, (Hpost kn Hin), Nat.add_0_r.
        split; [exact Hn'|apply elem_of_app; left; exact Hseen].
    + intros x Hx. apply elem_of_app in Hx as [Hx|Hx].
      * destruct (Hcovered x Hx) as (k' & n' & Hin & Hkx).
        apply elem_of_app in Hin as [Hin|Hin].
        -- exists k', n'. split; [apply elem_of_app; left; exact Hin|exact Hkx].
        -- apply elem_of_cons in Hin as [Heq|Hin].
           ++ inversion Heq; subst k' n'. exists k, (S n).
              split; [apply elem_of_app; right; apply list_elem_of_here|exact Hkx].
           ++ exists k', n'.
              split; [apply elem_of_app; right; apply list_elem_of_further, Hin|exact Hkx].
      * apply list_elem_of_singleton in Hx as ->. exists k, (S n).
        split; [apply elem_of_app; right; apply list_elem_of_here|exact Hk].
Qed.

Lemma stop_reasons_count_spec reasons :
  counts_of py_eq reasons (stop_reasons_count py_eq reasons).
Proof.
  unfold stop_reasons_count.
  assert (Hgen : forall seen counts,
            counts_of py_eq seen counts ->
            counts_of py_eq (seen ++ reasons)
              (fold_left (fun counts reason => count_up py_eq reason counts) reasons counts)).
  { induction reasons as [|reason rest IH]; intros seen counts Hinv.
    - rewrite app_nil_r. exact Hinv.
    - cbn [fold_left]. replace (seen ++ reason :: rest) with ((seen ++ [reason]) ++ rest)
        by (rewrite <- app_assoc; reflexivity).
      apply IH, counts_of_step, Hinv. }
  apply (Hgen [] []). repeat split; [constructor|].
  intros x Hx. inversion Hx.
Qed.

Lemma max_by_count_spec rest : forall best,
  exists n,
    (max_by_count best rest, n) ∈ best :: rest /\
    snd best <= n /\
    Forall (fun kn => snd kn <= n) rest.
Proof.
  induction rest as [|[k m] rest IH]; intros [kb nb].
  - exists nb. repeat split; [apply list_elem_of_here|cbn; lia|constructor].
  - cbn [max_by_count snd]. destruct (nb <? m)%nat eqn:Hlt.
    + apply Nat.ltb_lt in Hlt. destruct (IH (k, m)) as (n & Hin & Hle & Hall).
      exists n. cbn [snd] in *. repeat split.
      * apply list_elem_of_further. exact Hin.
      * lia.
      * constructor; [exact Hle|exact Hall].
    + apply Nat.ltb_ge in Hlt. destruct (IH (kb, nb)) as (n & Hin & Hle & Hall).
      exists n. cbn [snd] in *. repeat split.
      * apply elem_of_cons in Hin as [Heq|Hin];
          [rewrite Heq; apply list_elem_of_here|do 2 apply list_elem_of_further; exact Hin].
      * exact Hle.
      * constructor; [cbn; lia|exact Hall].
Qed.

(** X24: the reason that is reported as the most common one is one of the
    reasons that were counted, and none of them occurs more often.
    Occurrences are counted up to [==], which is taken to be an equivalence
    on the reasons. *)
Theorem the_reported_stop_reason_is_a_most_frequent_one
    (reasons : list value) (reason : value) :
  most_common_stop_reason (stop_reasons_count py_eq reasons) = Some reason ->
  reason ∈ reasons /\
  forall other, other ∈ reasons ->
    occurrences py_eq other reasons <= occurrences py_eq reason reasons.
Proof.
  destruct (stop_reasons_count_spec reasons) as (_ & Hcounts & Hcovered).
  unfold most_common_stop_reason.
  destruct (stop_reasons_count py_eq reasons) as [|first rest]; [discriminate|].
  intros H; inversion H; subst reason; clear H.
  destruct (max_by_count_spec rest first) as (n & Hin & Hfirst & Hrest).
  rewrite Forall_forall in Hcounts.
  destruct (Hcounts _ Hin) as [Hn Hseen]. cbn [fst snd] in Hn, Hseen.
  split; [exact Hseen|].
  intros other Hother. destruct (Hcovered other Hother) as (k & m & Hkin & Hk).
  destruct (Hcounts _ Hkin) as [Hm _]. cbn [fst snd] in Hm.
  rewrite <- (occurrences_equivalent _ _ _ Hk), <- Hm, <- Hn.
  apply elem_of_cons in Hkin as [Heq|Hkin].
  - subst first. exact Hfirst.
  - rewrite Forall_forall in Hrest. exact (Hrest _ Hkin).
Qed.

End StopReasons.

Lemma insights_witness :
  exists insights,
    get_recent_insights ["log_of_d.json"; "log_of_b.json"; "log_of_a.json"; "log_of_c.json"]
      sample_logs 3 = Some insights /\
    (Z.of_nat (length insights) <= 3)%Z /\
    length insights <= 4 /\
    Forall (fun i =>
              String.length (final_output_summary i) <= 203 /\
              Forall (fun t => String.length t <= 103) (critiques_summary i) /\
              Forall (fun t => String.length t <= 103) (refinements_summary i)) insights.
Proof.
  eexists. split; [vm_compute; reflexivity|].
  eapply (the_insights_are_few_and_their_summaries_short
            ["log_of_d.json"; "log_of_b.json"; "log_of_a.json"; "log_of_c.json"]
            sample_logs 3).
  - lia.
  - vm_compute. reflexivity.
Defined.

Lemma short_critique_witness :
  exists i,
    insight (PyDict [("final_output", Str "another text");
                     ("reason_for_stopping", Str "Max rounds (2) reached.");
                     ("critiques", PyList [PyDict [("text", Str "Fine.")]])]) = Some i /\
    (short_critiques_found [i] = true
     <-> exists text, text ∈ ["Fine."] /\ String.length text < 47).
Proof.
  eexists. split; [vm_compute; reflexivity|].
  eapply (a_critique_counts_as_short_below_47_characters
            [("final_output", Str "another text");
             ("reason_for_stopping", Str "Max rounds (2) reached.");
             ("critiques", PyList [PyDict [("text", Str "Fine.")]])]
            [PyDict [("text", Str "Fine.")]] ["Fine."]).
  - reflexivity.
  - constructor; [|constructor]. eexists. split; reflexivity.
  - vm_compute. reflexivity.
Defined.

Lemma most_frequent_reason_witness :
  Str "Non-actionable critique received in round 1."
  ∈ [Str "Non-actionable critique received in round 1."; Str "Max rounds (2) reached.";
     Str "Non-actionable critique received in round 1."] /\
  forall other,
    other ∈ [Str "Non-actionable critique received in round 1."; Str "Max rounds (2) reached.";
             Str "Non-actionable critique received in round 1."] ->
    occurrences same_reason other
      [Str "Non-actionable critique received in round 1."; Str "Max rounds (2) reached.";
       Str "Non-actionable critique received in round 1."]
    <= occurrences same_reason (Str "Non-actionable critique received in round 1.")
         [Str "Non-actionable critique received in round 1."; Str "Max rounds (2) reached.";
          Str "Non-actionable critique received in round 1."].
Proof.
  apply (the_reported_stop_reason_is_a_most_frequent_one same_reason).
  - intros [a|s|l|d]; cbn; try reflexivity. apply String.eqb_refl.
  - intros [a|s|l|d] [a'|s'|l'|d']; cbn; try reflexivity. apply String.eqb_sym.
  - intros [a|s|l|d] [a'|s'|l'|d'] [a''|s''|l''|d'']; cbn; try (discriminate || reflexivity).
    intros H1 H2. apply String.eqb_eq in H1, H2. subst. apply String.eqb_refl.
  - vm_compute. reflexivity.
Defined.

(** ** The run configuration *)

(** *** Splitting what was joined *)

Lemma no_comma_cons c (s : string) :
  str_in "," (String c s) = false -> Ascii.eqb c "," = false /\ str_in "," s = false.
Proof.
  cbn [str_in String.prefix]. intros H. apply orb_false_iff in H as [Hhead Htail].
  split; [|exact Htail].
  destruct (ascii_dec "," c) as [<-|Hne].
  - destruct s; discriminate Hhead.
  - apply Ascii.eqb_neq. congruence.
Qed.

Lemma split_on_word (word : string) :
  str_in "," word = false -> split_on "," word = [word].
Proof.
  induction word as [|c word IH]; intros Hword; [reflexivity|].
  apply no_comma_cons in Hword as [Hc Hword]. cbn [split_on]. rewrite Hc, (IH Hword).
  reflexivity.
Qed.

Lemma split_on_first (word rest : string) :
  str_in "," word = false ->
  split_on "," (word +:+ "," +:+ rest) = word :: split_on "," rest.
Proof.
  induction word as [|c word IH]; intros Hword.
  - reflexivity.
  - apply no_comma_cons in Hword as [Hc Hword].
    change (String c word +:+ "," +:+ rest) with (String c (word +:+ "," +:+ rest)).
    cbn [split_on]. rewrite Hc, (IH Hword). reflexivity.
Qed.

Lemma split_join (words : list string) :
  words <> [] ->
  Forall (fun word => str_in "," word = false) words ->
  split_on "," (join "," words) = words.
Proof.
  intros Hne Hwords. induction Hwords as [|word rest Hword Hrest IH]; [contradiction|].
  destruct rest as [|next rest].
  - cbn [join]. exact (split_on_word _ Hword).
  - change (join "," (word :: next :: rest)) with (word +:+ "," +:+ join "," (next :: rest)).
    rewrite (split_on_first _ _ Hword), IH by discriminate. reflexivity.
Qed.

Lemma mapM_as_str (words : list string) : mapM as_str (map Str words) = Some words.
Proof.
  apply mapM_Some. induction words as [|word rest IH]; constructor; [reflexivity|exact IH].
Qed.

Section RunConfigurationFacts.
Context {W : Type} (E : Env W).
Variable critique_refine_config : gmap string value.
Variable strategies : gmap string value.
Variable logging_config : gmap string value.
Variable py_str : value -> string.
Variable now_stamp : W -> string.
Variable path_join : string -> string -> string.

(** The critic roles of the merged configuration, by the run arguments. *)
Lemma merged_config_critic_roles (run_args : RunArgs) (current_config : gmap string value) :
  merged_config critique_refine_config strategies py_str run_args = Ok current_config ->
  match nonempty (arg_multi_critic_roles run_args), nonempty (arg_critic_role run_args) with
  | Some multi_critic_roles, _ =>
      current_config !! "multi_critic_roles"
      = Some (PyList (map Str (split_on "," multi_critic_roles))) /\
      current_config !! "default_critic_role_prompt_file" = None
  | None, Some critic_role =>
      current_config !! "default_critic_role_prompt_file" = Some (Str critic_role) /\
      current_config !! "multi_critic_roles" = None
  | None, None => True
  end.
Proof.
  unfold merged_config.
  destruct (match nonempty (arg_strategy run_args) with
            | Some strategy => _
            | None => _
            end) as [config|e]; [|discriminate].
  intros H. inversion H; subst current_config; clear H.
  destruct (nonempty (arg_multi_critic_roles run_args)) as [multi|].
  - split.
    + rewrite lookup_delete_ne by discriminate. apply lookup_insert_eq.
    + apply lookup_delete_eq.
  - destruct (nonempty (arg_critic_role run_args)) as [critic_role|]; [|exact I].
    destruct (nonempty (arg_refiner_role run_args)) as [refiner_role|].
    + rewrite !lookup_insert_ne by discriminate. split.
      * rewrite lookup_delete_ne by discriminate. apply lookup_insert_eq.
      * apply lookup_delete_eq.
    + split.
      * rewrite lookup_delete_ne by discriminate. apply lookup_insert_eq.
      * apply lookup_delete_eq.
Qed.

(** X25: in the merged configuration the run arguments win over the strategy
    and over the configured defaults.  With [multi_critic_roles] given, the
    configuration holds the comma-separated names as the critic roles and no
    default critic role, also when a critic role was given as well; with a
    critic role alone, it holds that role and no [multi_critic_roles]; a
    refiner role that is given is the refiner role of the configuration. *)
Theorem the_run_arguments_decide_the_roles
    (run_args : RunArgs) (current_config : gmap string value) :
  merged_config critique_refine_config strategies py_str run_args = Ok current_config ->
  match nonempty (arg_multi_critic_roles run_args), nonempty (arg_critic_role run_args) with
  | Some multi_critic_roles, _ =>
      current_config !! "multi_critic_roles"
      = Some (PyList (map Str (split_on "," multi_critic_roles))) /\
      current_config !! "default_critic_role_prompt_file" = None
  | None, Some critic_role =>
      current_config !! "default_critic_role_prompt_file" = Some (Str critic_role) /\
      current_config !! "multi_critic_roles" = None
  | None, None => True
  end /\
  match nonempty (arg_refiner_role run_args) with
  | Some refiner_role =>
      current_config !! "default_refiner_role_prompt_file" = Some (Str refiner_role)
  | None => True
  end.
Proof.
  intros Hmerged. split; [exact (merged_config_critic_roles _ _ Hmerged)|].
  revert Hmerged. unfold merged_config.
  destruct (match nonempty (arg_strategy run_args) with
            | Some strategy => _
            | None => _
            end) as [config|e]; [|discriminate].
  intros H. inversion H; subst current_config; clear H.
  destruct (nonempty (arg_refiner_role run_args)) as [refiner_role|]; [|exact I].
  destruct (nonempty (arg_multi_critic_roles run_args)) as [multi|].
  - rewrite lookup_delete_ne, lookup_insert_ne by discriminate. apply lookup_insert_eq.
  - apply lookup_insert_eq.
Qed.

(** What [build_run_config] returns is read from the merged configuration. *)
Lemma build_run_config_returns run_args full_config (s s' : State W) rc :
  build_run_config E critique_refine_config strategies logging_config py_str now_stamp
    path_join run_args full_config s = (Ok (Some rc), s') ->
  exists current_config log_file_path redact_logs roles,
    merged_config critique_refine_config strategies py_str run_args = Ok current_config /\
    typed_run_config current_config log_file_path redact_logs full_config roles
      (arg_dry_run run_args) = Some rc /\
    redact_logs
    = (arg_redact_logs run_args
       || truthy (default (Atom (PyBool false)) (logging_config !! "redact_sensitive_data"))).
Proof.
  unfold build_run_config, prepare_run_environment. rewrite bind_run.
  destruct (merged_config critique_refine_config strategies py_str run_args)
    as [current_config|e]; [|discriminate].
  rewrite bind_run.
  destruct (try_except _ _ s) as [[[roles|]|e] s1]; try discriminate.
  unfold ret at 1.
  destruct (as_str (default (Str "logs") (logging_config !! "log_dir"))) as [log_dir|];
    [|discriminate].
  destruct (if arg_redact_logs run_args then Some true else _) as [redact_logs|] eqn:Hredact;
    [|discriminate].
  rewrite bind_run. unfold gets at 1, ret. cbn [env_config env_roles].
  intros H. injection H as Htyped Hs.
  exists current_config, (path_join log_dir ("run_" +:+ now_stamp (sdk s1) +:+ ".jsonl")),
    redact_logs, roles.
  split; [reflexivity|]. split; [exact Htyped|].
  destruct (arg_redact_logs run_args); [inversion Hredact; reflexivity|].
  destruct (logging_config !! "redact_sensitive_data") as [[[| b | |]| | |]|];
    inversion Hredact; subst; reflexivity.
Qed.

(** X26: the [RunConfig] that [build_run_config] returns redacts logs when
    the run arguments ask for it or [redact_sensitive_data] of the logging
    configuration is true; its [dry_run] is the flag of the arguments and its
    [full_config] the configuration that was passed in. *)
Theorem logs_are_redacted_when_the_arguments_or_the_configuration_ask
    (run_args : RunArgs) (loaded_config : gmap string value) (s s' : State W)
    (rc : RunConfig) :
  build_run_config E critique_refine_config strategies logging_config py_str now_stamp
    path_join run_args loaded_config s = (Ok (Some rc), s') ->
  redact_logs rc
  = (arg_redact_logs run_args
     || truthy (default (Atom (PyBool false)) (logging_config !! "redact_sensitive_data"))) /\
  dry_run rc = arg_dry_run run_args /\
  full_config rc = loaded_config.
Proof.
  intros Hbuild.
  destruct (build_run_config_returns _ _ _ _ _ Hbuild)
    as (current_config & path & redact & roles & _ & Htyped & Hredact).
  unfold typed_run_config in Htyped.
  repeat match type of Htyped with
         | match ?x with _ => _ end = _ => destruct x; [|discriminate]
         end.
  inversion Htyped; subst rc. cbn. repeat split. exact Hredact.
Qed.

(** X27: custom roles given to the tool, none of which holds a comma, reach
    the run configuration as they were given: they are joined with commas
    and split again, [multi_critic_roles] is the list of the roles, and
    no default critic role is set, whatever the strategy says. *)
Theorem the_custom_roles_of_the_tool_reach_the_loop
    (strategy_name : string) (role : string) (more : list string)
    (full_config : gmap string value) (s s' : State W) (rc : RunConfig) :
  Forall (fun role => str_in "," role = false) (role :: more) ->
  join "," (role :: more) <> "" ->
  build_run_config E critique_refine_config strategies logging_config py_str now_stamp
    path_join (tool_args strategy_name (Some (role :: more))) full_config s
  = (Ok (Some rc), s') ->
  multi_critic_roles rc = Some (role :: more) /\
  default_critic_role_prompt_file rc = None.
Proof.
  intros Hroles Hjoined Hbuild.
  destruct (build_run_config_returns _ _ _ _ _ Hbuild)
    as (current_config & path & redact & roles & Hmerged & Htyped & _).
  pose proof (merged_config_critic_roles _ _ Hmerged) as Hdecided.
  cbn [tool_args arg_multi_critic_roles arg_critic_role nonempty] in Hdecided.
  destruct (String.eqb (join "," (role :: more)) "") eqn:Heq;
    [apply String.eqb_eq in Heq; contradiction|].
  destruct Hdecided as [Hmulti Hdefault].
  rewrite split_join in Hmulti by (discriminate || exact Hroles).
  unfold typed_run_config in Htyped. rewrite Hmulti, Hdefault in Htyped.
  cbn [default from_option id as_optional_str as_optional_strs] in Htyped.
  rewrite mapM_as_str in Htyped. cbn [fmap option_fmap option_map] in Htyped.
  repeat match type of Htyped with
         | match ?x with _ => _ end = _ => destruct x; [|discriminate]
         end.
  inversion Htyped; subst rc. cbn. split; reflexivity.
Qed.

End RunConfigurationFacts.

Lemma run_arguments_witness :
  exists current_config,
    merged_config critique_refine_config_double strategies_double py_str_double crowded_args
    = Ok current_config /\
    (current_config !! "multi_critic_roles" = Some (PyList [Str "facts.txt"; Str "tone.txt"]) /\
     current_config !! "default_critic_role_prompt_file" = None) /\
    current_config !! "default_refiner_role_prompt_file" = Some (Str "gentle.txt").
Proof.
  eexists. split; [reflexivity|].
  exact (the_run_arguments_decide_the_roles critique_refine_config_double
           strategies_double py_str_double crowded_args _ eq_refl).
Defined.

Lemma redacted_logs_witness :
  exists rc s',
    build_run_config plain_env critique_refine_config_double strategies_double
      logging_config_double py_str_double now_stamp_double path_join_double
      crowded_args ∅ (server_state []) = (Ok (Some rc), s') /\
    redact_logs rc = true /\
    dry_run rc = true /\
    full_config rc = ∅ /\
    log_file_path rc = "logs/run_20240101_000000.jsonl".
Proof.
  eexists _, _. split; [vm_compute; reflexivity|].
  split; [|split; [|split]]; [| | |reflexivity];
    eapply (logs_are_redacted_when_the_arguments_or_the_configuration_ask plain_env
              critique_refine_config_double strategies_double logging_config_double
              py_str_double now_stamp_double path_join_double crowded_args ∅
              (server_state []));
    vm_compute; reflexivity.
Defined.

Lemma custom_roles_witness :
  exists rc s',
    build_run_config plain_env critique_refine_config_double strategies_double
      logging_config_double py_str_double now_stamp_double path_join_double
      (tool_args "deep" (Some ["facts.txt"; "tone.txt"])) ∅ (server_state [])
    = (Ok (Some rc), s') /\
    multi_critic_roles rc = Some ["facts.txt"; "tone.txt"] /\
    default_critic_role_prompt_file rc = None.
Proof.
  eexists _, _. split; [vm_compute; reflexivity|].
  eapply (the_custom_roles_of_the_tool_reach_the_loop plain_env
            critique_refine_config_double strategies_double logging_config_double
            py_str_double now_stamp_double path_join_double "deep" "facts.txt" ["tone.txt"]
            ∅ (server_state [])).
  - repeat constructor.
  - discriminate.
  - vm_compute. reflexivity.
Defined.

(** ** The server's tool *)

Section ServerFacts.
Context {W : Type} (E : Env W).
Variable critique_refine_config : gmap string value.
Variable strategies : gmap string value.
Variable logging_config : gmap string value.
Variable py_str : value -> string.
Variable now_stamp : W -> string.
Variable path_join : string -> string -> string.
Variable local_strategies : strategies_read.
Variable gemini_api_key : option string.
Variable loaded_config : gmap string value.

(** X28: once the run configuration is built, the tool does not raise.  A
    run that returns gives a result with the final text and no error; every
    exception of building the loop or of the run becomes a result with empty
    content and the text of the exception as its error.  [iterations], when
    given, replaces [max_rounds]. *)
Theorem the_tool_reports_a_failed_run_as_a_result
    (content_to_improve strategy_name : string) (custom_roles : option (list string))
    (iterations : option Z) (key : string) (s s1 : State W) (rc : RunConfig) :
  nonempty gemini_api_key = Some key ->
  build_run_config E critique_refine_config strategies logging_config py_str now_stamp
    path_join (tool_args strategy_name custom_roles) loaded_config s = (Ok (Some rc), s1) ->
  let run_config := match iterations with
                    | Some n => with_max_rounds n rc
                    | None => rc
                    end in
  let outcome :=
    run_critique_refine_loop E critique_refine_config strategies logging_config py_str
      now_stamp path_join local_strategies gemini_api_key loaded_config
      content_to_improve strategy_name custom_roles iterations s in
  match run_new_loop E local_strategies run_config strategy_name content_to_improve s1 with
  | (Ok (Some p), s2) =>
      outcome
      = (Ok (Some {| final_content := fst p;
                     run_log_note := "Critique-Refine loop completed successfully. "
                                     +:+ "Check logs for details.";
                     error := None |}), s2)
  | (Ok None, s2) => outcome = (Ok None, s2)
  | (Raise e, s2) =>
      outcome
      = (Ok (Some {| final_content := ""; run_log_note := ""; error := Some (exn_msg e) |}), s2)
  end.
Proof.
  intros Hkey Hbuild. cbv zeta. unfold run_critique_refine_loop.
  rewrite Hkey, bind_run, Hbuild, try_except_run, bind_run.
  destruct (run_new_loop E local_strategies _ strategy_name content_to_improve s1)
    as [[[p|]|e] s2]; reflexivity.
Qed.

(** X29: a strategy name that the strategies configuration does not know
    leaves the tool as a [ValueError], not as an error result:
    [build_run_config] is called outside the [try] block of the tool.
    Nothing was changed. *)
Theorem an_unknown_strategy_leaves_the_tool_as_an_exception
    (content_to_improve strategy_name : string) (custom_roles : option (list string))
    (iterations : option Z) (key : string) (s : State W) :
  nonempty gemini_api_key = Some key ->
  strategy_name <> "" ->
  truthy (default (Atom PyNone) (strategies !! strategy_name)) = false ->
  run_critique_refine_loop E critique_refine_config strategies logging_config py_str
    now_stamp path_join local_strategies gemini_api_key loaded_config
    content_to_improve strategy_name custom_roles iterations s
  = (Raise (Exn ValueError
              ("Strategy '" +:+ strategy_name +:+ "' not found in strategies.yaml.")), s).
Proof.
  intros Hkey Hname Hstrategy. unfold run_critique_refine_loop.
  rewrite Hkey, bind_run. unfold build_run_config, prepare_run_environment, merged_config.
  rewrite bind_run. cbn [tool_args arg_strategy nonempty].
  destruct (String.eqb strategy_name "") eqn:Heq;
    [apply String.eqb_eq in Heq; contradiction|].
  rewrite Hstrategy. reflexivity.
Qed.

End ServerFacts.

Lemma failed_run_witness :
  exists s2,
    run_critique_refine_loop plain_env critique_refine_config_double strategies_double
      logging_config_double py_str_double now_stamp_double path_join_double
      StrategiesNotFound (Some "key-123") ∅ "a text" "deep" None (Some 1%Z) (server_state [])
    = (Ok (Some {| final_content := "";
                   run_log_note := "";
                   error := Some ("Model gemini-1.5-flash failed and no distinct fallback "
                                  +:+ "is available.") |}), s2).
Proof.
  epose proof (the_tool_reports_a_failed_run_as_a_result plain_env
                 critique_refine_config_double strategies_double logging_config_double
                 py_str_double now_stamp_double path_join_double StrategiesNotFound
                 (Some "key-123") ∅ "a text" "deep" None (Some 1%Z) "key-123"
                 (server_state []) _ _ eq_refl ltac:(vm_compute; reflexivity)) as H.
  cbv zeta in H.
  remember (run_critique_refine_loop plain_env critique_refine_config_double strategies_double
              logging_config_double py_str_double now_stamp_double path_join_double
              StrategiesNotFound (Some "key-123") ∅ "a text" "deep" None (Some 1%Z)
              (server_state [])) as outcome.
  clear Heqoutcome. vm_compute in H. eexists. rewrite H. reflexivity.
Defined.

Lemma unknown_strategy_witness :
  run_critique_refine_loop plain_env critique_refine_config_double strategies_double
    logging_config_double py_str_double now_stamp_double path_join_double
    StrategiesNotFound (Some "key-123") ∅ "a text" "shallow" None None (server_state [])
  = (Raise (Exn ValueError ("Strategy '" +:+ "shallow" +:+ "' not found in strategies.yaml.")),
     server_state []).
Proof.
  apply (an_unknown_strategy_leaves_the_tool_as_an_exception plain_env
           critique_refine_config_double strategies_double logging_config_double
           py_str_double now_stamp_double path_join_double StrategiesNotFound
           (Some "key-123") ∅ "a text" "shallow" None None "key-123" (server_state [])).
  - reflexivity.
  - discriminate.
  - vm_compute. reflexivity.
Defined.

(** *** The text the tool starts the loop from *)

Section RunLogFrame.
Context {W : Type} (E : Env W).

(** The router does not read the run log and leaves it as it is: a call
    proceeds in the same way under every run log. *)
Lemma call_gemini_under_a_run_log prompt model system_prompt config l (s : State W) :
  call_gemini E prompt model system_prompt config (with_run_log l s)
  = (fst (call_gemini E prompt model system_prompt config s),
     with_run_log l (snd (call_gemini E prompt model system_prompt config s))).
Proof.
  destruct s as [w0 initialized calls fs rl].
  unfold call_gemini, bind, modify, gets, raise, with_run_log, with_gemini_calls, with_sdk.
  destruct initialized; simpl; [|reflexivity].
  destruct (generate_content E w0 model system_prompt prompt config)
    as [[text|[]] w]; reflexivity.
Qed.

Lemma call_gemini_untyped_under_a_run_log prompt model system_prompt config l
    (s : State W) :
  call_gemini_untyped E prompt model system_prompt config (with_run_log l s)
  = (fst (call_gemini_untyped E prompt model system_prompt config s),
     with_run_log l (snd (call_gemini_untyped E prompt model system_prompt config s))).
Proof.
  destruct s as [w0 initialized calls fs rl].
  unfold call_gemini_untyped, bind, modify, gets, raise, with_run_log, with_gemini_calls,
    with_sdk.
  destruct initialized; simpl; [|reflexivity].
  destruct (generate_content_untyped E w0 model system_prompt prompt config)
    as [[text|[]] w]; reflexivity.
Qed.

Lemma call_model_under_a_run_log prompt model_name system_prompt config dry role l
    (s : State W) :
  call_model E prompt model_name system_prompt config dry role (with_run_log l s)
  = (fst (call_model E prompt model_name system_prompt config dry role s),
     with_run_log l (snd (call_model E prompt model_name system_prompt config dry role s))).
Proof.
  unfold call_model.
  destruct (model_to_use E model_name config role) as [model|].
  2:{ destruct (untyped_model_to_use E model_name config role); [|reflexivity].
      destruct dry; reflexivity. }
  destruct dry; [reflexivity|].
  destruct (String.prefix "mock" model); [reflexivity|].
  rewrite !try_except_run, call_gemini_under_a_run_log.
  destruct (call_gemini E prompt model system_prompt (effective_config E config) s)
    as [[text|e] s1]; [reflexivity|]. cbn [fst snd].
  destruct (exn_cls e); try reflexivity.
  destruct (as_model_name (effective_config E config !! "fallback_model")) as [fallback|].
  2:{ destruct (as_untyped_model (effective_config E config !! "fallback_model"))
        as [untyped|]; [|reflexivity].
      rewrite !try_except_run, call_gemini_untyped_under_a_run_log.
      destruct (call_gemini_untyped E prompt untyped system_prompt
                  (effective_config E config) s1)
        as [[text|e2] s2]; [reflexivity|]. cbn [fst snd].
      destruct (exn_cls e2); reflexivity. }
  destruct (String.eqb model fallback); [reflexivity|].
  rewrite !try_except_run, call_gemini_under_a_run_log.
  destruct (call_gemini E prompt fallback system_prompt (effective_config E config) s1)
    as [[text|e2] s2]; [reflexivity|]. cbn [fst snd].
  destruct (exn_cls e2); reflexivity.
Qed.

End RunLogFrame.

Section BuildReadsOnly.
Context {W : Type} (E : Env W).
Variable critique_refine_config : gmap string value.
Variable strategies : gmap string value.
Variable logging_config : gmap string value.
Variable py_str : value -> string.
Variable now_stamp : W -> string.
Variable path_join : string -> string -> string.

Lemma reads_only_ret {A} (a : A) : reads_only (ret a : M W A).
Proof. intros s. reflexivity. Qed.

Lemma reads_only_raise {A} e : reads_only (raise e : M W A).
Proof. intros s. reflexivity. Qed.

Lemma reads_only_gets {A} (f : State W -> A) : reads_only (gets f).
Proof. intros s. reflexivity. Qed.

Lemma reads_only_bind {A B} (m : M W A) (k : A -> M W B) :
  reads_only m -> (forall a, reads_only (k a)) -> reads_only (bind m k).
Proof.
  intros Hm Hk s. rewrite bind_run. specialize (Hm s).
  destruct (m s) as [[a|e] s1]; cbn [snd] in *; subst s1; [apply Hk|reflexivity].
Qed.

Lemma reads_only_try_except {A} (m : M W A) (handler : exn -> M W A) :
  reads_only m -> (forall e, reads_only (handler e)) -> reads_only (try_except m handler).
Proof.
  intros Hm Hh s. rewrite try_except_run. specialize (Hm s).
  destruct (m s) as [[a|e] s1]; cbn [snd] in *; subst s1; [reflexivity|apply Hh].
Qed.

Lemma reads_only_load_named_template file_name :
  reads_only (load_named_template E file_name).
Proof.
  destruct file_name as [a|name|items|entries]; try apply reads_only_ret.
  cbn [load_named_template]. apply reads_only_bind; [|intros; apply reads_only_ret].
  unfold load_role_template.
  destruct (read_prompt E name); [apply reads_only_ret|apply reads_only_raise..].
Qed.

Lemma reads_only_load_roles current_config :
  reads_only (load_roles E critique_refine_config current_config).
Proof.
  unfold load_roles.
  apply reads_only_bind; [apply reads_only_load_named_template|].
  intros [critic_template|]; [|apply reads_only_ret].
  apply reads_only_bind; [apply reads_only_load_named_template|].
  intros [refiner_template|]; [|apply reads_only_ret].
  destruct (truthy _); [|apply reads_only_ret].
  apply reads_only_bind; [apply reads_only_load_named_template|].
  intros [meta_critic_template|]; apply reads_only_ret.
Qed.

(** Building a run configuration changes nothing: it reads the configuration,
    the prompt files and the clock. *)
Lemma reads_only_build_run_config run_args full_config :
  reads_only (build_run_config E critique_refine_config strategies logging_config py_str
                now_stamp path_join run_args full_config).
Proof.
  unfold build_run_config. apply reads_only_bind.
  - unfold prepare_run_environment.
    destruct (merged_config _ _ _ run_args) as [current_config|e]; [|apply reads_only_raise].
    apply reads_only_bind.
    + apply reads_only_try_except; [apply reads_only_load_roles|].
      intros e. destruct (exn_cls e); apply reads_only_raise.
    + intros [roles|]; apply reads_only_ret.
  - intros [run_env|]; [|apply reads_only_ret].
    destruct (as_str _) as [log_dir|]; [|apply reads_only_ret].
    destruct (if arg_redact_logs run_args then _ else _) as [redact_logs|];
      [|apply reads_only_ret].
    apply reads_only_bind; [apply reads_only_gets|intros; apply reads_only_ret].
Qed.

End BuildReadsOnly.

Section LoopStart.
Context {W : Type} (E : Env W) (self : Loop).

(** Without a brainstormer among the roles of the strategy the text passes
    the brainstormer loop as it is. *)
Lemma no_brainstormer text (s : State W) :
  brainstormer_named (strategy self) = false ->
  _run_brainstormer_loop E self text s = (Ok text, s).
Proof.
  unfold brainstormer_named, _run_brainstormer_loop.
  destruct (strategy self) as [[names|role_names rounds others]|]; try reflexivity;
    intros ->; reflexivity.
Qed.

End LoopStart.

Section ToolPrompt.
Context {W : Type} (E : Env W).
Variable critique_refine_config : gmap string value.
Variable strategies : gmap string value.
Variable logging_config : gmap string value.
Variable py_str : value -> string.
Variable now_stamp : W -> string.
Variable path_join : string -> string -> string.
Variable local_strategies : strategies_read.
Variable gemini_api_key : option string.
Variable loaded_config : gmap string value.

(** X30: the tool hands the content to improve to the generator as the
    prompt of the user; the content is not the text the loop starts from.
    With [iterations = 0] and a strategy that names no brainstormer, what the
    tool returns as the final content is the answer of the generator model
    to ['User prompt: <content>']. *)
Theorem the_tool_takes_the_content_for_a_prompt
    (content_to_improve strategy_name : string) (custom_roles : option (list string))
    (key : string) (s s1 s2 : State W) (rc : RunConfig)
    (loaded : value) (st : option Strategy) (text : string) :
  nonempty gemini_api_key = Some key ->
  build_run_config E critique_refine_config strategies logging_config py_str now_stamp
    path_join (tool_args strategy_name custom_roles) loaded_config s = (Ok (Some rc), s1) ->
  _load_strategy local_strategies (Some strategy_name) = Ok loaded ->
  typed_strategy loaded = Some st ->
  brainstormer_named st = false ->
  call_model E ("User prompt: " +:+ content_to_improve) (Some (generator_model rc)) None
    (Some loaded_config) false (Some "generator") s = (Ok text, s2) ->
  exists s3,
    run_critique_refine_loop E critique_refine_config strategies logging_config py_str
      now_stamp path_join local_strategies gemini_api_key loaded_config
      content_to_improve strategy_name custom_roles (Some 0%Z) s
    = (Ok (Some {| final_content := text;
                   run_log_note := "Critique-Refine loop completed successfully. "
                                   +:+ "Check logs for details.";
                   error := None |}), s3).
Proof.
  intros Hkey Hbuild Hload Htyped Hnamed Hcall.
  pose proof (reads_only_build_run_config E critique_refine_config strategies logging_config
                py_str now_stamp path_join (tool_args strategy_name custom_roles)
                loaded_config s) as Hsame.
  rewrite Hbuild in Hsame. cbn [snd] in Hsame. subst s1.
  destruct (build_run_config_returns _ _ _ _ _ _ _ _ _ _ _ _ Hbuild)
    as (current_config & path & redact & roles & _ & Hrc & _).
  assert (Hfields : dry_run rc = false /\ full_config rc = loaded_config).
  { unfold typed_run_config in Hrc.
    repeat match type of Hrc with
           | match ?x with _ => _ end = _ => destruct x; [|discriminate]
           end.
    inversion Hrc; subst rc. split; reflexivity. }
  destruct Hfields as [Hdry Hfull].
  set (rc0 := with_max_rounds 0 rc).
  set (self := CritiqueRefineLoop_init rc0 st).
  set (l0 := initial_run_log (now_isoformat E (sdk s)) rc0).
  assert (Hopen : opening E self content_to_improve None
                    (started content_to_improve (with_run_log l0 s))
                  = (Ok text,
                     with_run_log
                       (set_initial_generation
                          {| gen_text := text; gen_model_used := generator_model rc |}
                          (set_original_user_prompt content_to_improve l0)) s2)).
  { unfold opening. rewrite bind_run, generate_calls_the_generator.
    change (run_config self) with rc0.
    change (generator_model rc0) with (generator_model rc).
    change (full_config rc0) with (full_config rc).
    change (dry_run rc0) with (dry_run rc).
    rewrite Hdry, Hfull.
    change (started content_to_improve (with_run_log l0 s))
      with (with_run_log (set_original_user_prompt content_to_improve l0) s).
    rewrite call_model_under_a_run_log, Hcall. cbn [fst snd].
    rewrite bind_run. unfold update_run_log at 1, modify at 1.
    apply no_brainstormer. exact Hnamed. }
  destruct (run_returns E self content_to_improve None (with_run_log l0 s) text _ text _ Hopen
              eq_refl) as (s3 & Hrun & _).
  exists s3. unfold run_critique_refine_loop.
  rewrite Hkey, bind_run, Hbuild, try_except_run, bind_run.
  unfold run_new_loop. rewrite Hload, Htyped, bind_run. unfold gets at 1.
  rewrite bind_run. unfold modify at 1. rewrite bind_run.
  fold rc0. fold self. fold l0. rewrite Hrun. reflexivity.
Qed.

End ToolPrompt.

Lemma content_as_prompt_witness :
  exists s3,
    run_critique_refine_loop plain_env critique_refine_config_double strategies_double
      logging_config_double py_str_double now_stamp_double path_join_double
      StrategiesNotFound (Some "key-123") ∅ "a text to improve" "deep" None (Some 0%Z)
      (server_state [SdkText "something else"])
    = (Ok (Some {| final_content := "something else";
                   run_log_note := "Critique-Refine loop completed successfully. "
                                   +:+ "Check logs for details.";
                   error := None |}), s3).
Proof.
  eapply (the_tool_takes_the_content_for_a_prompt plain_env critique_refine_config_double
            strategies_double logging_config_double py_str_double now_stamp_double
            path_join_double StrategiesNotFound (Some "key-123") ∅ "a text to improve" "deep"
            None "key-123" (server_state [SdkText "something else"]) _ _ _ (Atom PyNone) None
            "something else").
  - reflexivity.
  - vm_compute. reflexivity.
  - reflexivity.
  - reflexivity.
  - reflexivity.
  - vm_compute. reflexivity.
Defined.
